(** * GitHub Evidence Kit: evidence model, store, serialization and
      consistency verifier

    A shallow embedding of
    [plugins/raptor-oss-forensics/skills/github-evidence-kit/src]:
    - [schema/events.py], [schema/observations.py]   (module [Schema])
    - [store.py]                                      (module [Store])
    - [__init__.py] and the JSON half of [store.py]   (module [Serial])
    - [verifiers/consistency.py]                      (module [Verifier])
    - [get_commit_files] of [clients/git.py]          (module [GitClient])

    Python dictionaries decoded from JSON are association lists, the store's
    id index is a [gmap], exceptions are sums, and the calls a verification
    makes to its clients are collected in a log. The notions the
    properties are stated with ([StoreSpec], [SerialSpec], [VerifierSpec])
    and the sample records ([Samples]) follow the embedding; the
    properties ([StoreTheory], [SerialTheory], [VerifierTheory]) and their
    instances on the samples come next, and further properties of the same
    code ([StoreMoreTheory], [StoreQueryTheory], [SerialMoreTheory],
    [VerifierMoreTheory], [GitClientTheory]) last. *)

From Stdlib Require Import ZArith Ascii String List Bool DecimalString DecimalZ.
From stdpp Require Import base option list strings gmap.

Local Open Scope string_scope.
Local Open Scope Z_scope.
Set Warnings "-register-all".

(** ** Decoded JSON values, with the Python operations the code applies
       to them *)

Inductive json : Type :=
| JNull
| JBool (b : bool)
| JInt (z : Z)
| JStr (s : string)
| JList (items : list json)
| JObj (fields : list (string * json)).

(** A [dict] with string keys, in insertion order. *)
Abbreviation dict := (list (string * json)).

(** [key in d] and [d.get(key)] *)
Fixpoint dict_get (k : string) (d : dict) : option json :=
  match d with
  | [] => None
  | (k', v) :: rest => if String.eqb k k' then Some v else dict_get k rest
  end.

Definition dict_has (k : string) (d : dict) : bool :=
  match dict_get k d with Some _ => true | None => false end.

(** Truth value of a string: [if s] *)
Definition str_truthy (s : string) : bool :=
  match s with EmptyString => false | _ => true end.

(** Truth value of an optional string: [if s] with [s : str | None] *)
Definition opt_str_truthy (s : option string) : bool :=
  match s with Some s => str_truthy s | None => false end.

(** Truth value of a decoded JSON value *)
Definition py_truthy (j : json) : bool :=
  match j with
  | JNull => false
  | JBool b => b
  | JInt z => negb (z =? 0)
  | JStr s => str_truthy s
  | JList l => match l with [] => false | _ => true end
  | JObj d => match d with [] => false | _ => true end
  end.

(** [j == s] for a [str] s *)
Definition py_eq_str (j : json) (s : string) : bool :=
  match j with JStr s' => String.eqb s' s | _ => false end.

(** [j == n] for an [int] n; Python's [True == 1] and [False == 0] *)
Definition py_eq_int (j : json) (n : Z) : bool :=
  match j with
  | JInt z => z =? n
  | JBool b => (if b then 1 else 0) =? n
  | _ => false
  end.

Definition py_type_name (j : json) : string :=
  match j with
  | JNull => "NoneType"
  | JBool _ => "bool"
  | JInt _ => "int"
  | JStr _ => "str"
  | JList _ => "list"
  | JObj _ => "dict"
  end.

(** ** The evidence model *)

Module Schema.

(** An aware [datetime] is the instant it denotes, in microseconds since
    the epoch: Python compares and equates aware datetimes by instant. *)
Definition datetime := Z.

(** Modelled from the spec: [schema/common.py] is not among the sources.
    The five verification sources of the glossary, with the values the
    tests use (["github"], ["gharchive"], ["security_vendor"]). *)
Inductive EvidenceSource := GITHUB | GHARCHIVE | WAYBACK | SECURITY_VENDOR | GIT.

Definition EvidenceSource_value (s : EvidenceSource) : string :=
  match s with
  | GITHUB => "github"
  | GHARCHIVE => "gharchive"
  | WAYBACK => "wayback"
  | SECURITY_VENDOR => "security_vendor"
  | GIT => "git"
  end.

Definition EvidenceSource_members : list EvidenceSource :=
  [GITHUB; GHARCHIVE; WAYBACK; SECURITY_VENDOR; GIT].

(** [EvidenceSource(value)]: the member with that value, [None] where
    Python raises [ValueError]. *)
Definition EvidenceSource_of_value (v : string) : option EvidenceSource :=
  List.find (fun s => String.eqb (EvidenceSource_value s) v) EvidenceSource_members.

Definition EvidenceSource_eqb (a b : EvidenceSource) : bool :=
  String.eqb (EvidenceSource_value a) (EvidenceSource_value b).

(** Modelled from the spec: actor is "login, optional numeric id, bot flag". *)
Record GitHubActor := {
  login : string;
  actor_id : option Z;
  is_bot : bool }.

(** Modelled from the spec: repository is "{owner, name, full_name, numeric id}". *)
Record GitHubRepository := {
  owner : string;
  name : string;
  full_name : string;
  repo_id : option Z }.

(** Modelled from the spec: verification is "{source enum, optional URL,
    optional query-table, optional query string}". A URL is the text of a
    validated [HttpUrl]. *)
Record VerificationInfo := {
  source : EvidenceSource;
  url : option string;
  bigquery_table : option string;
  query : option string }.

(** Modelled from the spec: the validity flag and the error list the
    verifier builds ([VerificationResult(is_valid=..., errors=...)]). *)
Record VerificationResult := {
  is_valid : bool;
  errors : list string }.

(** *** Events ([schema/events.py]) *)

(** [class Event(BaseModel)]: the fields every event variant inherits. *)
Record Event := {
  e_evidence_id : string;
  e_when : datetime;
  e_who : GitHubActor;
  e_what : string;
  e_repository : GitHubRepository;
  e_verification : VerificationInfo }.

Record CommitInPush := {
  cip_sha : string;
  cip_message : string;
  cip_author_name : string;
  cip_author_email : string }.

Record PushEvent := {
  push_base : Event;
  push_ref : string;
  push_before_sha : string;
  push_after_sha : string;
  push_size : Z;
  push_commits : list CommitInPush;
  push_is_force_push : bool }.

(** Fields typed by an enumeration of [schema/common.py] ([PRAction],
    [IssueAction], [RefType], [WorkflowConclusion], [IOCType]) or by a
    [Literal[...]] hold the member's value; validation checks membership. *)
Record PullRequestEvent := {
  pr_base : Event;
  pr_action : string;
  pr_number : Z;
  pr_title : string;
  pr_body : option string;
  pr_head_sha : option string;
  pr_merged : bool }.

Record IssueEvent := {
  ie_base : Event;
  ie_action : string;
  ie_issue_number : Z;
  ie_issue_title : string;
  ie_issue_body : option string }.

Record IssueCommentEvent := {
  ic_base : Event;
  ic_action : string;
  ic_issue_number : Z;
  ic_comment_id : Z;
  ic_comment_body : string }.

Record CreateEvent := {
  cr_base : Event;
  cr_ref_type : string;
  cr_ref_name : string }.

Record DeleteEvent := {
  de_base : Event;
  de_ref_type : string;
  de_ref_name : string }.

Record ForkEvent := {
  fe_base : Event;
  fe_fork_full_name : string }.

Record WorkflowRunEvent := {
  wf_base : Event;
  wf_action : string;
  wf_workflow_name : string;
  wf_head_sha : string;
  wf_conclusion : option string }.

Record ReleaseEvent := {
  re_base : Event;
  re_action : string;
  re_tag_name : string;
  re_release_name : option string;
  re_release_body : option string }.

Record WatchEvent := { we_base : Event }.

Record MemberEvent := {
  me_base : Event;
  me_action : string;
  me_member : GitHubActor }.

Record PublicEvent := { pe_base : Event }.

(** [AnyEvent]: the closed union of the twelve event classes. *)
Inductive AnyEvent :=
| EvPush (e : PushEvent)
| EvPullRequest (e : PullRequestEvent)
| EvIssue (e : IssueEvent)
| EvIssueComment (e : IssueCommentEvent)
| EvCreate (e : CreateEvent)
| EvDelete (e : DeleteEvent)
| EvFork (e : ForkEvent)
| EvWorkflowRun (e : WorkflowRunEvent)
| EvRelease (e : ReleaseEvent)
| EvWatch (e : WatchEvent)
| EvMember (e : MemberEvent)
| EvPublic (e : PublicEvent).

(** The inherited part of an event. *)
Definition event_base (e : AnyEvent) : Event :=
  match e with
  | EvPush e => push_base e
  | EvPullRequest e => pr_base e
  | EvIssue e => ie_base e
  | EvIssueComment e => ic_base e
  | EvCreate e => cr_base e
  | EvDelete e => de_base e
  | EvFork e => fe_base e
  | EvWorkflowRun e => wf_base e
  | EvRelease e => re_base e
  | EvWatch e => we_base e
  | EvMember e => me_base e
  | EvPublic e => pe_base e
  end.

(** The discriminator: each class's [event_type: Literal[...]] default. *)
Definition event_type (e : AnyEvent) : string :=
  match e with
  | EvPush _ => "push"
  | EvPullRequest _ => "pull_request"
  | EvIssue _ => "issue"
  | EvIssueComment _ => "issue_comment"
  | EvCreate _ => "create"
  | EvDelete _ => "delete"
  | EvFork _ => "fork"
  | EvWorkflowRun _ => "workflow_run"
  | EvRelease _ => "release"
  | EvWatch _ => "watch"
  | EvMember _ => "member"
  | EvPublic _ => "public"
  end.

(** *** Observations ([schema/observations.py]) *)

(** [class Observation(BaseModel)]: the inherited fields. *)
Record Observation := {
  o_evidence_id : string;
  o_original_when : option datetime;
  o_original_who : option GitHubActor;
  o_original_what : option string;
  o_observed_when : datetime;
  o_observed_by : EvidenceSource;
  o_observed_what : string;
  o_repository : option GitHubRepository;
  o_verification : VerificationInfo;
  o_is_deleted : bool }.

Record CommitAuthor := {
  ca_name : string;
  ca_email : string;
  ca_date : datetime }.

Record FileChange := {
  fc_filename : string;
  fc_status : string;
  fc_additions : Z;
  fc_deletions : Z;
  fc_patch : option string }.

Record CommitObservation := {
  co_base : Observation;
  co_sha : string;
  co_message : string;
  co_author : CommitAuthor;
  co_committer : CommitAuthor;
  co_parents : list string;
  co_files : list FileChange;
  co_is_dangling : bool }.

Record IssueObservation := {
  io_base : Observation;
  io_issue_number : Z;
  io_is_pull_request : bool;
  io_title : option string;
  io_body : option string;
  io_state : option string }.

Record FileObservation := {
  fo_base : Observation;
  fo_file_path : string;
  fo_branch : option string;
  fo_content : string;
  fo_content_hash : option string;
  fo_size_bytes : Z }.

Record ForkObservation := {
  fk_base : Observation;
  fk_fork_full_name : string;
  fk_parent_full_name : string;
  fk_fork_owner : option string;
  fk_fork_repo : option string;
  fk_forked_at : option datetime }.

Record BranchObservation := {
  br_base : Observation;
  br_branch_name : string;
  br_head_sha : option string;
  br_protected : bool }.

Record TagObservation := {
  tg_base : Observation;
  tg_tag_name : string;
  tg_target_sha : option string }.

Record ReleaseObservation := {
  rl_base : Observation;
  rl_tag_name : string;
  rl_release_name : option string;
  rl_release_body : option string;
  rl_created_at : option datetime;
  rl_published_at : option datetime;
  rl_is_prerelease : bool;
  rl_is_draft : bool }.

Record WaybackSnapshot := {
  ws_timestamp : string;
  ws_original : string;
  ws_digest : string;
  ws_mimetype : string;
  ws_statuscode : string;
  ws_length : string }.

Record SnapshotObservation := {
  sn_base : Observation;
  sn_original_url : string;
  sn_snapshots : list WaybackSnapshot;
  sn_total_snapshots : Z }.

Record IOC := {
  ioc_base : Observation;
  ioc_ioc_type : string;
  ioc_value : string;
  ioc_first_seen : option datetime;
  ioc_last_seen : option datetime;
  ioc_extracted_from : option string }.

Record ArticleObservation := {
  ar_base : Observation;
  ar_url : string;
  ar_title : string;
  ar_author : option string;
  ar_published_date : option datetime;
  ar_source_name : option string;
  ar_summary : option string;
  ar_evidence_ids : list string }.

(** [AnyObservation]: the closed union of the ten observation classes. *)
Inductive AnyObservation :=
| ObsCommit (o : CommitObservation)
| ObsIssue (o : IssueObservation)
| ObsFile (o : FileObservation)
| ObsFork (o : ForkObservation)
| ObsBranch (o : BranchObservation)
| ObsTag (o : TagObservation)
| ObsRelease (o : ReleaseObservation)
| ObsSnapshot (o : SnapshotObservation)
| ObsIOC (o : IOC)
| ObsArticle (o : ArticleObservation).

Definition observation_base (o : AnyObservation) : Observation :=
  match o with
  | ObsCommit o => co_base o
  | ObsIssue o => io_base o
  | ObsFile o => fo_base o
  | ObsFork o => fk_base o
  | ObsBranch o => br_base o
  | ObsTag o => tg_base o
  | ObsRelease o => rl_base o
  | ObsSnapshot o => sn_base o
  | ObsIOC o => ioc_base o
  | ObsArticle o => ar_base o
  end.

(** The discriminator: each class's [observation_type: Literal[...]] default. *)
Definition observation_type (o : AnyObservation) : string :=
  match o with
  | ObsCommit _ => "commit"
  | ObsIssue _ => "issue"
  | ObsFile _ => "file"
  | ObsFork _ => "fork"
  | ObsBranch _ => "branch"
  | ObsTag _ => "tag"
  | ObsRelease _ => "release"
  | ObsSnapshot _ => "snapshot"
  | ObsIOC _ => "ioc"
  | ObsArticle _ => "article"
  end.

(** [AnyEvidence = AnyEvent | AnyObservation] *)
Inductive AnyEvidence :=
| Ev (e : AnyEvent)
| Obs (o : AnyObservation).

(** Attribute reads the store and the verifier make on any evidence. *)
Definition evidence_id (x : AnyEvidence) : string :=
  match x with
  | Ev e => e_evidence_id (event_base e)
  | Obs o => o_evidence_id (observation_base o)
  end.

Definition verification (x : AnyEvidence) : VerificationInfo :=
  match x with
  | Ev e => e_verification (event_base e)
  | Obs o => o_verification (observation_base o)
  end.

(** [getattr(e, "repository", None)] *)
Definition repository (x : AnyEvidence) : option GitHubRepository :=
  match x with
  | Ev e => Some (e_repository (event_base e))
  | Obs o => o_repository (observation_base o)
  end.

(** [getattr(e, "event_type", None)] and [getattr(e, "observation_type", None)] *)
Definition getattr_event_type (x : AnyEvidence) : option string :=
  match x with Ev e => Some (event_type e) | Obs _ => None end.

Definition getattr_observation_type (x : AnyEvidence) : option string :=
  match x with Ev _ => None | Obs o => Some (observation_type o) end.

End Schema.

(** ** Exceptions *)

(** A raised Python exception: its class and [str(e)]. *)
Record exn := PyExn { exn_class : string; exn_msg : string }.

Definition ValueError (msg : string) : exn := PyExn "ValueError" msg.

(** The outcome of a call that may raise. *)
Inductive outcome (A : Type) : Type :=
| Return (a : A)
| Raise (e : exn).
Arguments Return {A} a.
Arguments Raise {A} e.

(** ** The evidence store ([store.py]) *)

Module Store.
Import Schema.

(** [self._evidence] and [self._by_id] *)
Record EvidenceStore := {
  _evidence : list AnyEvidence;
  _by_id : gmap string AnyEvidence }.

(** [{e.evidence_id: e for e in self._evidence}]: a later entry overwrites
    an earlier one with the same id. *)
Definition index_by_id (l : list AnyEvidence) : gmap string AnyEvidence :=
  fold_left (fun m e => <[evidence_id e := e]> m) l ∅.

(** [EvidenceStore(evidence)] *)
Definition init (evidence : list AnyEvidence) : EvidenceStore :=
  {| _evidence := evidence; _by_id := index_by_id evidence |}.

(** [EvidenceStore()] *)
Definition empty : EvidenceStore := init [].

(** [[e for e in self._evidence if e.evidence_id != evidence_id]] *)
Definition without_id (id : string) (l : list AnyEvidence) : list AnyEvidence :=
  List.filter (fun x => negb (String.eqb (evidence_id x) id)) l.

Definition add (s : EvidenceStore) (evidence : AnyEvidence) : EvidenceStore :=
  let id := evidence_id evidence in
  let kept :=
    match _by_id s !! id with
    | Some _ => without_id id (_evidence s)
    | None => _evidence s
    end in
  {| _evidence := kept ++ [evidence];
     _by_id := <[id := evidence]> (_by_id s) |}.

Definition add_all (s : EvidenceStore) (evidence_list : list AnyEvidence) : EvidenceStore :=
  fold_left add evidence_list s.

Definition get (s : EvidenceStore) (id : string) : option AnyEvidence :=
  _by_id s !! id.

(** [remove] returns the store it leaves and its boolean result. *)
Definition remove (s : EvidenceStore) (id : string) : EvidenceStore * bool :=
  match _by_id s !! id with
  | Some _ =>
      ({| _evidence := without_id id (_evidence s);
          _by_id := delete id (_by_id s) |}, true)
  | None => (s, false)
  end.

Definition clear (s : EvidenceStore) : EvidenceStore :=
  {| _evidence := []; _by_id := ∅ |}.

(** [__len__], [__iter__], [__contains__] *)
Definition len (s : EvidenceStore) : nat := length (_evidence s).

Definition iter (s : EvidenceStore) : list AnyEvidence := _evidence s.

Definition contains (s : EvidenceStore) (id : string) : bool :=
  match _by_id s !! id with Some _ => true | None => false end.

Definition events (s : EvidenceStore) : list AnyEvidence :=
  List.filter (fun x => match x with Ev _ => true | Obs _ => false end) (_evidence s).

Definition observations (s : EvidenceStore) : list AnyEvidence :=
  List.filter (fun x => match x with Ev _ => false | Obs _ => true end) (_evidence s).

(** [self.add_all(list(other))] *)
Definition merge (s other : EvidenceStore) : EvidenceStore :=
  add_all s (iter other).

(** [_get_timestamp]: [when] for an event; for an observation
    [original_when] when it is set, [observed_when] otherwise. *)
Definition _get_timestamp (evidence : AnyEvidence) : option datetime :=
  match evidence with
  | Ev e => Some (e_when (event_base e))
  | Obs o =>
      match o_original_when (observation_base o) with
      | Some t => Some t
      | None => Some (o_observed_when (observation_base o))
      end
  end.

(** The keyword arguments of [filter]; [None] is the default of each.
    [source] is an [EvidenceSource] or the [str] value of one. *)
Record criteria := {
  c_event_type : option string;
  c_observation_type : option string;
  c_source : option (EvidenceSource + string);
  c_repo : option string;
  c_after : option datetime;
  c_before : option datetime;
  c_predicate : option (AnyEvidence -> bool) }.

Definition no_criteria : criteria :=
  {| c_event_type := None; c_observation_type := None; c_source := None;
     c_repo := None; c_after := None; c_before := None; c_predicate := None |}.

(** [a != b] for [a : str | None] and a [str] b *)
Definition opt_str_neq (a : option string) (b : string) : bool :=
  match a with Some a => negb (String.eqb a b) | None => true end.

(** [if source: src = ...; if e.verification.source != src: return False];
    [Return true] stands for "return False was taken". *)
Definition source_rejects (c : criteria) (e : AnyEvidence) : outcome bool :=
  match c_source c with
  | None => Return false
  | Some (inl src) =>
      Return (negb (EvidenceSource_eqb (source (verification e)) src))
  | Some (inr v) =>
      if str_truthy v then
        match EvidenceSource_of_value v with
        | Some src => Return (negb (EvidenceSource_eqb (source (verification e)) src))
        | None => Raise (ValueError ("'" ++ v ++ "' is not a valid EvidenceSource"))
        end
      else Return false
  end.

(** [if ts: if after and ts < after: return False; if before and ts > before: return False] *)
Definition time_rejects (c : criteria) (e : AnyEvidence) : bool :=
  match _get_timestamp e with
  | Some ts =>
      match c_after c with Some a => ts <? a | None => false end
      || match c_before c with Some b => ts >? b | None => false end
  | None => false
  end.

(** The inner function [matches] of [filter]. *)
Definition matches (c : criteria) (e : AnyEvidence) : outcome bool :=
  if opt_str_truthy (c_event_type c)
     && match c_event_type c with
        | Some t => opt_str_neq (getattr_event_type e) t
        | None => false
        end
  then Return false
  else if opt_str_truthy (c_observation_type c)
          && match c_observation_type c with
             | Some t => opt_str_neq (getattr_observation_type e) t
             | None => false
             end
  then Return false
  else
    match source_rejects c e with
    | Raise x => Raise x
    | Return true => Return false
    | Return false =>
        if opt_str_truthy (c_repo c)
           && match c_repo c, repository e with
              | Some r, Some repo_obj => negb (String.eqb (full_name repo_obj) r)
              | _, _ => true
              end
        then Return false
        else if time_rejects c e then Return false
        else
          match c_predicate c with
          | Some p => Return (p e)
          | None => Return true
          end
    end.

(** [[e for e in l if matches(e)]]: the first raise ends the comprehension. *)
Fixpoint comprehension (c : criteria) (l : list AnyEvidence) : outcome (list AnyEvidence) :=
  match l with
  | [] => Return []
  | e :: rest =>
      match matches c e with
      | Raise x => Raise x
      | Return b =>
          match comprehension c rest with
          | Raise x => Raise x
          | Return kept => Return (if b then e :: kept else kept)
          end
      end
  end.

Definition filter (s : EvidenceStore) (c : criteria) : outcome (list AnyEvidence) :=
  comprehension c (_evidence s).

End Store.

(** ** Serialization ([__init__.py], [EvidenceStore.to_json] / [from_json]) *)

Module Serial.
Import Schema.

(** What the model classes take from pydantic, the [json] module and
    [schema/common.py]: the text form of a [datetime] in JSON mode and its
    parser, [HttpUrl] validation (the normalised text of an accepted URL),
    the member values of the enumerations whose definitions are not among
    the sources, [repr] for the containers an error message may quote, and
    the JSON text codec. *)
Class Library := {
  isoformat : datetime -> string;
  fromisoformat : string -> option datetime;
  http_url : string -> option string;
  PRAction_values : list string;
  IssueAction_values : list string;
  WorkflowConclusion_values : list string;
  IOCType_values : list string;
  py_repr : json -> string;
  json_text : Type;
  json_dumps : json -> json_text;
  json_loads : json_text -> option json }.

(** Modelled from the spec: [RefType] is the "ref-type enum {branch, tag,
    repository}" of [schema/common.py]. *)
Definition RefType_values : list string := ["branch"; "tag"; "repository"].

(** *** Validation results: every failing field reports its location *)

Record line_error := { loc : list string; err : string }.

Inductive validation (A : Type) : Type :=
| Valid (a : A)
| Invalid (errs : list line_error).
Arguments Valid {A} a.
Arguments Invalid {A} errs.

Definition v_map {A B} (f : A -> B) (x : validation A) : validation B :=
  match x with Valid a => Valid (f a) | Invalid e => Invalid e end.

(** Fields are validated independently and their errors collected. *)
Definition v_ap {A B} (f : validation (A -> B)) (x : validation A) : validation B :=
  match f, x with
  | Valid f, Valid a => Valid (f a)
  | Valid _, Invalid e => Invalid e
  | Invalid e, Valid _ => Invalid e
  | Invalid e1, Invalid e2 => Invalid (e1 ++ e2)
  end.

Definition at_loc {A} (k : string) (x : validation A) : validation A :=
  match x with
  | Valid a => Valid a
  | Invalid es => Invalid (map (fun e => {| loc := k :: loc e; err := err e |}) es)
  end.

Definition fail {A} (why : string) : validation A :=
  Invalid [{| loc := []; err := why |}].

Notation "f <*> x" := (v_ap f x) (at level 61, left associativity).

(** *** Validators of field types (JSON input) *)

Definition v_str (j : json) : validation string :=
  match j with JStr s => Valid s | _ => fail "string_type" end.

(** [Annotated[str, Field(min_length=.., max_length=..)]] *)
Definition v_str_len (min_length max_length : nat) (j : json) : validation string :=
  match j with
  | JStr s =>
      if (String.length s <? min_length)%nat then fail "string_too_short"
      else if (max_length <? String.length s)%nat then fail "string_too_long"
      else Valid s
  | _ => fail "string_type"
  end.

Definition v_int (j : json) : validation Z :=
  match j with JInt z => Valid z | _ => fail "int_type" end.

Definition v_bool (j : json) : validation bool :=
  match j with JBool b => Valid b | _ => fail "bool_type" end.

Definition v_datetime `{Library} (j : json) : validation datetime :=
  match j with
  | JStr s => match fromisoformat s with Some t => Valid t | None => fail "datetime_parsing" end
  | _ => fail "datetime_type"
  end.

Definition v_url `{Library} (j : json) : validation string :=
  match j with
  | JStr s => match http_url s with Some u => Valid u | None => fail "url_parsing" end
  | _ => fail "url_type"
  end.

(** An enumeration or a [Literal[...]]: one of the listed values. *)
Definition v_one_of (values : list string) (j : json) : validation string :=
  match j with
  | JStr s => if existsb (String.eqb s) values then Valid s else fail "literal_error"
  | _ => fail "literal_error"
  end.

Definition v_source (j : json) : validation EvidenceSource :=
  match j with
  | JStr s => match EvidenceSource_of_value s with Some x => Valid x | None => fail "enum" end
  | _ => fail "enum"
  end.

(** [T | None] *)
Definition v_optional {A} (v : json -> validation A) (j : json) : validation (option A) :=
  match j with JNull => Valid None | _ => v_map Some (v j) end.

(** [list[T]]: item errors are located by index. *)
Fixpoint v_items {A} (v : json -> validation A) (i : nat) (l : list json) : validation (list A) :=
  match l with
  | [] => Valid []
  | j :: rest =>
      Valid cons <*> at_loc (NilEmpty.string_of_uint (Nat.to_uint i)) (v j)
                 <*> v_items v (S i) rest
  end.

Definition v_list {A} (v : json -> validation A) (j : json) : validation (list A) :=
  match j with JList l => v_items v 0 l | _ => fail "list_type" end.

(** A nested model *)
Definition v_model {A} (v : dict -> validation A) (j : json) : validation A :=
  match j with JObj d => v d | _ => fail "model_type" end.

(** A field without a default, and a field with one. *)
Definition required {A} (k : string) (v : json -> validation A) (d : dict) : validation A :=
  match dict_get k d with
  | Some j => at_loc k (v j)
  | None => Invalid [{| loc := [k]; err := "missing" |}]
  end.

Definition defaulted {A} (k : string) (v : json -> validation A) (default : A) (d : dict)
  : validation A :=
  match dict_get k d with
  | Some j => at_loc k (v j)
  | None => Valid default
  end.

(** [tag: Literal[t] = t]: checked, and fixed by the class. *)
Definition discriminator (k t : string) (d : dict) : validation unit :=
  v_map (fun _ => tt) (defaulted k (v_one_of [t]) t d).

Definition tagged {A} (mk : validation A) (tag : validation unit) : validation A :=
  Valid (fun a _ => a) <*> mk <*> tag.

Notation "x <* u" := (tagged x u) (at level 61, left associativity).

(** *** [model_dump(mode="json")] of field types *)

Definition d_opt {A} (f : A -> json) (o : option A) : json :=
  match o with Some a => f a | None => JNull end.

Definition d_datetime `{Library} (t : datetime) : json := JStr (isoformat t).

Definition d_source (s : EvidenceSource) : json := JStr (EvidenceSource_value s).

Definition d_list {A} (f : A -> json) (l : list A) : json := JList (map f l).

(** *** The common models *)

Definition dump_GitHubActor (a : GitHubActor) : dict :=
  [("login", JStr (login a)); ("id", d_opt JInt (actor_id a)); ("is_bot", JBool (is_bot a))].

Definition validate_GitHubActor (d : dict) : validation GitHubActor :=
  Valid Build_GitHubActor
    <*> required "login" v_str d
    <*> defaulted "id" (v_optional v_int) None d
    <*> defaulted "is_bot" v_bool false d.

Definition dump_GitHubRepository (r : GitHubRepository) : dict :=
  [("owner", JStr (owner r)); ("name", JStr (name r));
   ("full_name", JStr (full_name r)); ("id", d_opt JInt (repo_id r))].

Definition validate_GitHubRepository (d : dict) : validation GitHubRepository :=
  Valid Build_GitHubRepository
    <*> required "owner" v_str d
    <*> required "name" v_str d
    <*> required "full_name" v_str d
    <*> defaulted "id" (v_optional v_int) None d.

Definition dump_VerificationInfo (v : VerificationInfo) : dict :=
  [("source", d_source (source v)); ("url", d_opt JStr (url v));
   ("bigquery_table", d_opt JStr (bigquery_table v)); ("query", d_opt JStr (query v))].

Definition validate_VerificationInfo `{Library} (d : dict) : validation VerificationInfo :=
  Valid Build_VerificationInfo
    <*> required "source" v_source d
    <*> defaulted "url" (v_optional v_url) None d
    <*> defaulted "bigquery_table" (v_optional v_str) None d
    <*> defaulted "query" (v_optional v_str) None d.

(** *** Events *)

Definition dump_Event `{Library} (e : Event) : dict :=
  [("evidence_id", JStr (e_evidence_id e));
   ("when", d_datetime (e_when e));
   ("who", JObj (dump_GitHubActor (e_who e)));
   ("what", JStr (e_what e));
   ("repository", JObj (dump_GitHubRepository (e_repository e)));
   ("verification", JObj (dump_VerificationInfo (e_verification e)))].

Definition validate_Event `{Library} (d : dict) : validation Event :=
  Valid Build_Event
    <*> required "evidence_id" v_str d
    <*> required "when" v_datetime d
    <*> required "who" (v_model validate_GitHubActor) d
    <*> required "what" v_str d
    <*> required "repository" (v_model validate_GitHubRepository) d
    <*> required "verification" (v_model validate_VerificationInfo) d.

Definition dump_CommitInPush (c : CommitInPush) : dict :=
  [("sha", JStr (cip_sha c)); ("message", JStr (cip_message c));
   ("author_name", JStr (cip_author_name c)); ("author_email", JStr (cip_author_email c))].

Definition validate_CommitInPush (d : dict) : validation CommitInPush :=
  Valid Build_CommitInPush
    <*> required "sha" v_str d
    <*> required "message" v_str d
    <*> required "author_name" v_str d
    <*> required "author_email" v_str d.

Definition dump_PushEvent `{Library} (e : PushEvent) : dict :=
  dump_Event (push_base e) ++
  [("event_type", JStr "push");
   ("ref", JStr (push_ref e));
   ("before_sha", JStr (push_before_sha e));
   ("after_sha", JStr (push_after_sha e));
   ("size", JInt (push_size e));
   ("commits", d_list (fun c => JObj (dump_CommitInPush c)) (push_commits e));
   ("is_force_push", JBool (push_is_force_push e))].

Definition validate_PushEvent `{Library} (d : dict) : validation PushEvent :=
  Valid Build_PushEvent
    <*> validate_Event d
    <* discriminator "event_type" "push" d
    <*> required "ref" v_str d
    <*> required "before_sha" v_str d
    <*> required "after_sha" v_str d
    <*> required "size" v_int d
    <*> defaulted "commits" (v_list (v_model validate_CommitInPush)) [] d
    <*> defaulted "is_force_push" v_bool false d.

Definition dump_PullRequestEvent `{Library} (e : PullRequestEvent) : dict :=
  dump_Event (pr_base e) ++
  [("event_type", JStr "pull_request");
   ("action", JStr (pr_action e));
   ("pr_number", JInt (pr_number e));
   ("pr_title", JStr (pr_title e));
   ("pr_body", d_opt JStr (pr_body e));
   ("head_sha", d_opt JStr (pr_head_sha e));
   ("merged", JBool (pr_merged e))].

Definition validate_PullRequestEvent `{Library} (d : dict) : validation PullRequestEvent :=
  Valid Build_PullRequestEvent
    <*> validate_Event d
    <* discriminator "event_type" "pull_request" d
    <*> required "action" (v_one_of PRAction_values) d
    <*> required "pr_number" v_int d
    <*> required "pr_title" v_str d
    <*> defaulted "pr_body" (v_optional v_str) None d
    <*> defaulted "head_sha" (v_optional v_str) None d
    <*> defaulted "merged" v_bool false d.

Definition dump_IssueEvent `{Library} (e : IssueEvent) : dict :=
  dump_Event (ie_base e) ++
  [("event_type", JStr "issue");
   ("action", JStr (ie_action e));
   ("issue_number", JInt (ie_issue_number e));
   ("issue_title", JStr (ie_issue_title e));
   ("issue_body", d_opt JStr (ie_issue_body e))].

Definition validate_IssueEvent `{Library} (d : dict) : validation IssueEvent :=
  Valid Build_IssueEvent
    <*> validate_Event d
    <* discriminator "event_type" "issue" d
    <*> required "action" (v_one_of IssueAction_values) d
    <*> required "issue_number" v_int d
    <*> required "issue_title" v_str d
    <*> defaulted "issue_body" (v_optional v_str) None d.

Definition dump_IssueCommentEvent `{Library} (e : IssueCommentEvent) : dict :=
  dump_Event (ic_base e) ++
  [("event_type", JStr "issue_comment");
   ("action", JStr (ic_action e));
   ("issue_number", JInt (ic_issue_number e));
   ("comment_id", JInt (ic_comment_id e));
   ("comment_body", JStr (ic_comment_body e))].

Definition validate_IssueCommentEvent `{Library} (d : dict) : validation IssueCommentEvent :=
  Valid Build_IssueCommentEvent
    <*> validate_Event d
    <* discriminator "event_type" "issue_comment" d
    <*> required "action" (v_one_of ["created"; "edited"; "deleted"]) d
    <*> required "issue_number" v_int d
    <*> required "comment_id" v_int d
    <*> required "comment_body" v_str d.

Definition dump_CreateEvent `{Library} (e : CreateEvent) : dict :=
  dump_Event (cr_base e) ++
  [("event_type", JStr "create");
   ("ref_type", JStr (cr_ref_type e));
   ("ref_name", JStr (cr_ref_name e))].

Definition validate_CreateEvent `{Library} (d : dict) : validation CreateEvent :=
  Valid Build_CreateEvent
    <*> validate_Event d
    <* discriminator "event_type" "create" d
    <*> required "ref_type" (v_one_of RefType_values) d
    <*> required "ref_name" v_str d.

Definition dump_DeleteEvent `{Library} (e : DeleteEvent) : dict :=
  dump_Event (de_base e) ++
  [("event_type", JStr "delete");
   ("ref_type", JStr (de_ref_type e));
   ("ref_name", JStr (de_ref_name e))].

Definition validate_DeleteEvent `{Library} (d : dict) : validation DeleteEvent :=
  Valid Build_DeleteEvent
    <*> validate_Event d
    <* discriminator "event_type" "delete" d
    <*> required "ref_type" (v_one_of RefType_values) d
    <*> required "ref_name" v_str d.

Definition dump_ForkEvent `{Library} (e : ForkEvent) : dict :=
  dump_Event (fe_base e) ++
  [("event_type", JStr "fork");
   ("fork_full_name", JStr (fe_fork_full_name e))].

Definition validate_ForkEvent `{Library} (d : dict) : validation ForkEvent :=
  Valid Build_ForkEvent
    <*> validate_Event d
    <* discriminator "event_type" "fork" d
    <*> required "fork_full_name" v_str d.

Definition dump_WorkflowRunEvent `{Library} (e : WorkflowRunEvent) : dict :=
  dump_Event (wf_base e) ++
  [("event_type", JStr "workflow_run");
   ("action", JStr (wf_action e));
   ("workflow_name", JStr (wf_workflow_name e));
   ("head_sha", JStr (wf_head_sha e));
   ("conclusion", d_opt JStr (wf_conclusion e))].

Definition validate_WorkflowRunEvent `{Library} (d : dict) : validation WorkflowRunEvent :=
  Valid Build_WorkflowRunEvent
    <*> validate_Event d
    <* discriminator "event_type" "workflow_run" d
    <*> required "action" (v_one_of ["requested"; "completed"; "in_progress"]) d
    <*> required "workflow_name" v_str d
    <*> required "head_sha" v_str d
    <*> defaulted "conclusion" (v_optional (v_one_of WorkflowConclusion_values)) None d.

Definition dump_ReleaseEvent `{Library} (e : ReleaseEvent) : dict :=
  dump_Event (re_base e) ++
  [("event_type", JStr "release");
   ("action", JStr (re_action e));
   ("tag_name", JStr (re_tag_name e));
   ("release_name", d_opt JStr (re_release_name e));
   ("release_body", d_opt JStr (re_release_body e))].

Definition validate_ReleaseEvent `{Library} (d : dict) : validation ReleaseEvent :=
  Valid Build_ReleaseEvent
    <*> validate_Event d
    <* discriminator "event_type" "release" d
    <*> required "action" (v_one_of ["published"; "created"; "deleted"]) d
    <*> required "tag_name" v_str d
    <*> defaulted "release_name" (v_optional v_str) None d
    <*> defaulted "release_body" (v_optional v_str) None d.

Definition dump_WatchEvent `{Library} (e : WatchEvent) : dict :=
  dump_Event (we_base e) ++ [("event_type", JStr "watch")].

Definition validate_WatchEvent `{Library} (d : dict) : validation WatchEvent :=
  Valid Build_WatchEvent
    <*> validate_Event d
    <* discriminator "event_type" "watch" d.

Definition dump_MemberEvent `{Library} (e : MemberEvent) : dict :=
  dump_Event (me_base e) ++
  [("event_type", JStr "member");
   ("action", JStr (me_action e));
   ("member", JObj (dump_GitHubActor (me_member e)))].

Definition validate_MemberEvent `{Library} (d : dict) : validation MemberEvent :=
  Valid Build_MemberEvent
    <*> validate_Event d
    <* discriminator "event_type" "member" d
    <*> required "action" (v_one_of ["added"; "removed"]) d
    <*> required "member" (v_model validate_GitHubActor) d.

Definition dump_PublicEvent `{Library} (e : PublicEvent) : dict :=
  dump_Event (pe_base e) ++ [("event_type", JStr "public")].

Definition validate_PublicEvent `{Library} (d : dict) : validation PublicEvent :=
  Valid Build_PublicEvent
    <*> validate_Event d
    <* discriminator "event_type" "public" d.

(** [e.model_dump(mode="json")] for an event of any class *)
Definition dump_AnyEvent `{Library} (e : AnyEvent) : dict :=
  match e with
  | EvPush e => dump_PushEvent e
  | EvPullRequest e => dump_PullRequestEvent e
  | EvIssue e => dump_IssueEvent e
  | EvIssueComment e => dump_IssueCommentEvent e
  | EvCreate e => dump_CreateEvent e
  | EvDelete e => dump_DeleteEvent e
  | EvFork e => dump_ForkEvent e
  | EvWorkflowRun e => dump_WorkflowRunEvent e
  | EvRelease e => dump_ReleaseEvent e
  | EvWatch e => dump_WatchEvent e
  | EvMember e => dump_MemberEvent e
  | EvPublic e => dump_PublicEvent e
  end.

(** [_EventUnion]: the classes of the union, by discriminator value. *)
Definition _EventUnion `{Library} : list (string * (dict -> validation AnyEvent)) :=
  [("push", fun d => v_map EvPush (validate_PushEvent d));
   ("pull_request", fun d => v_map EvPullRequest (validate_PullRequestEvent d));
   ("issue", fun d => v_map EvIssue (validate_IssueEvent d));
   ("issue_comment", fun d => v_map EvIssueComment (validate_IssueCommentEvent d));
   ("create", fun d => v_map EvCreate (validate_CreateEvent d));
   ("delete", fun d => v_map EvDelete (validate_DeleteEvent d));
   ("fork", fun d => v_map EvFork (validate_ForkEvent d));
   ("workflow_run", fun d => v_map EvWorkflowRun (validate_WorkflowRunEvent d));
   ("release", fun d => v_map EvRelease (validate_ReleaseEvent d));
   ("watch", fun d => v_map EvWatch (validate_WatchEvent d));
   ("member", fun d => v_map EvMember (validate_MemberEvent d));
   ("public", fun d => v_map EvPublic (validate_PublicEvent d))].

(** *** Observations *)

Definition dump_Observation `{Library} (o : Observation) : dict :=
  [("evidence_id", JStr (o_evidence_id o));
   ("original_when", d_opt d_datetime (o_original_when o));
   ("original_who", d_opt (fun a => JObj (dump_GitHubActor a)) (o_original_who o));
   ("original_what", d_opt JStr (o_original_what o));
   ("observed_when", d_datetime (o_observed_when o));
   ("observed_by", d_source (o_observed_by o));
   ("observed_what", JStr (o_observed_what o));
   ("repository", d_opt (fun r => JObj (dump_GitHubRepository r)) (o_repository o));
   ("verification", JObj (dump_VerificationInfo (o_verification o)));
   ("is_deleted", JBool (o_is_deleted o))].

Definition validate_Observation `{Library} (d : dict) : validation Observation :=
  Valid Build_Observation
    <*> required "evidence_id" v_str d
    <*> defaulted "original_when" (v_optional v_datetime) None d
    <*> defaulted "original_who" (v_optional (v_model validate_GitHubActor)) None d
    <*> defaulted "original_what" (v_optional v_str) None d
    <*> required "observed_when" v_datetime d
    <*> required "observed_by" v_source d
    <*> required "observed_what" v_str d
    <*> defaulted "repository" (v_optional (v_model validate_GitHubRepository)) None d
    <*> required "verification" (v_model validate_VerificationInfo) d
    <*> defaulted "is_deleted" v_bool false d.

Definition dump_CommitAuthor `{Library} (a : CommitAuthor) : dict :=
  [("name", JStr (ca_name a)); ("email", JStr (ca_email a)); ("date", d_datetime (ca_date a))].

Definition validate_CommitAuthor `{Library} (d : dict) : validation CommitAuthor :=
  Valid Build_CommitAuthor
    <*> required "name" v_str d
    <*> required "email" v_str d
    <*> required "date" v_datetime d.

Definition dump_FileChange (f : FileChange) : dict :=
  [("filename", JStr (fc_filename f)); ("status", JStr (fc_status f));
   ("additions", JInt (fc_additions f)); ("deletions", JInt (fc_deletions f));
   ("patch", d_opt JStr (fc_patch f))].

Definition validate_FileChange (d : dict) : validation FileChange :=
  Valid Build_FileChange
    <*> required "filename" v_str d
    <*> required "status" (v_one_of ["added"; "modified"; "removed"; "renamed"]) d
    <*> defaulted "additions" v_int 0 d
    <*> defaulted "deletions" v_int 0 d
    <*> defaulted "patch" (v_optional v_str) None d.

Definition dump_CommitObservation `{Library} (o : CommitObservation) : dict :=
  dump_Observation (co_base o) ++
  [("observation_type", JStr "commit");
   ("sha", JStr (co_sha o));
   ("message", JStr (co_message o));
   ("author", JObj (dump_CommitAuthor (co_author o)));
   ("committer", JObj (dump_CommitAuthor (co_committer o)));
   ("parents", d_list JStr (co_parents o));
   ("files", d_list (fun f => JObj (dump_FileChange f)) (co_files o));
   ("is_dangling", JBool (co_is_dangling o))].

(** [sha: Annotated[str, Field(min_length=40, max_length=40)]] *)
Definition validate_CommitObservation `{Library} (d : dict) : validation CommitObservation :=
  Valid Build_CommitObservation
    <*> validate_Observation d
    <* discriminator "observation_type" "commit" d
    <*> required "sha" (v_str_len 40 40) d
    <*> required "message" v_str d
    <*> required "author" (v_model validate_CommitAuthor) d
    <*> required "committer" (v_model validate_CommitAuthor) d
    <*> defaulted "parents" (v_list v_str) [] d
    <*> defaulted "files" (v_list (v_model validate_FileChange)) [] d
    <*> defaulted "is_dangling" v_bool false d.

Definition dump_IssueObservation `{Library} (o : IssueObservation) : dict :=
  dump_Observation (io_base o) ++
  [("observation_type", JStr "issue");
   ("issue_number", JInt (io_issue_number o));
   ("is_pull_request", JBool (io_is_pull_request o));
   ("title", d_opt JStr (io_title o));
   ("body", d_opt JStr (io_body o));
   ("state", d_opt JStr (io_state o))].

Definition validate_IssueObservation `{Library} (d : dict) : validation IssueObservation :=
  Valid Build_IssueObservation
    <*> validate_Observation d
    <* discriminator "observation_type" "issue" d
    <*> required "issue_number" v_int d
    <*> defaulted "is_pull_request" v_bool false d
    <*> defaulted "title" (v_optional v_str) None d
    <*> defaulted "body" (v_optional v_str) None d
    <*> defaulted "state" (v_optional (v_one_of ["open"; "closed"; "merged"])) None d.

Definition dump_FileObservation `{Library} (o : FileObservation) : dict :=
  dump_Observation (fo_base o) ++
  [("observation_type", JStr "file");
   ("file_path", JStr (fo_file_path o));
   ("branch", d_opt JStr (fo_branch o));
   ("content", JStr (fo_content o));
   ("content_hash", d_opt JStr (fo_content_hash o));
   ("size_bytes", JInt (fo_size_bytes o))].

Definition validate_FileObservation `{Library} (d : dict) : validation FileObservation :=
  Valid Build_FileObservation
    <*> validate_Observation d
    <* discriminator "observation_type" "file" d
    <*> required "file_path" v_str d
    <*> defaulted "branch" (v_optional v_str) None d
    <*> defaulted "content" v_str "" d
    <*> defaulted "content_hash" (v_optional v_str) None d
    <*> defaulted "size_bytes" v_int 0 d.

Definition dump_ForkObservation `{Library} (o : ForkObservation) : dict :=
  dump_Observation (fk_base o) ++
  [("observation_type", JStr "fork");
   ("fork_full_name", JStr (fk_fork_full_name o));
   ("parent_full_name", JStr (fk_parent_full_name o));
   ("fork_owner", d_opt JStr (fk_fork_owner o));
   ("fork_repo", d_opt JStr (fk_fork_repo o));
   ("forked_at", d_opt d_datetime (fk_forked_at o))].

Definition validate_ForkObservation `{Library} (d : dict) : validation ForkObservation :=
  Valid Build_ForkObservation
    <*> validate_Observation d
    <* discriminator "observation_type" "fork" d
    <*> required "fork_full_name" v_str d
    <*> defaulted "parent_full_name" v_str "" d
    <*> defaulted "fork_owner" (v_optional v_str) None d
    <*> defaulted "fork_repo" (v_optional v_str) None d
    <*> defaulted "forked_at" (v_optional v_datetime) None d.

Definition dump_BranchObservation `{Library} (o : BranchObservation) : dict :=
  dump_Observation (br_base o) ++
  [("observation_type", JStr "branch");
   ("branch_name", JStr (br_branch_name o));
   ("head_sha", d_opt JStr (br_head_sha o));
   ("protected", JBool (br_protected o))].

Definition validate_BranchObservation `{Library} (d : dict) : validation BranchObservation :=
  Valid Build_BranchObservation
    <*> validate_Observation d
    <* discriminator "observation_type" "branch" d
    <*> required "branch_name" v_str d
    <*> defaulted "head_sha" (v_optional v_str) None d
    <*> defaulted "protected" v_bool false d.

Definition dump_TagObservation `{Library} (o : TagObservation) : dict :=
  dump_Observation (tg_base o) ++
  [("observation_type", JStr "tag");
   ("tag_name", JStr (tg_tag_name o));
   ("target_sha", d_opt JStr (tg_target_sha o))].

Definition validate_TagObservation `{Library} (d : dict) : validation TagObservation :=
  Valid Build_TagObservation
    <*> validate_Observation d
    <* discriminator "observation_type" "tag" d
    <*> required "tag_name" v_str d
    <*> defaulted "target_sha" (v_optional v_str) None d.

Definition dump_ReleaseObservation `{Library} (o : ReleaseObservation) : dict :=
  dump_Observation (rl_base o) ++
  [("observation_type", JStr "release");
   ("tag_name", JStr (rl_tag_name o));
   ("release_name", d_opt JStr (rl_release_name o));
   ("release_body", d_opt JStr (rl_release_body o));
   ("created_at", d_opt d_datetime (rl_created_at o));
   ("published_at", d_opt d_datetime (rl_published_at o));
   ("is_prerelease", JBool (rl_is_prerelease o));
   ("is_draft", JBool (rl_is_draft o))].

Definition validate_ReleaseObservation `{Library} (d : dict) : validation ReleaseObservation :=
  Valid Build_ReleaseObservation
    <*> validate_Observation d
    <* discriminator "observation_type" "release" d
    <*> required "tag_name" v_str d
    <*> defaulted "release_name" (v_optional v_str) None d
    <*> defaulted "release_body" (v_optional v_str) None d
    <*> defaulted "created_at" (v_optional v_datetime) None d
    <*> defaulted "published_at" (v_optional v_datetime) None d
    <*> defaulted "is_prerelease" v_bool false d
    <*> defaulted "is_draft" v_bool false d.

Definition dump_WaybackSnapshot (w : WaybackSnapshot) : dict :=
  [("timestamp", JStr (ws_timestamp w)); ("original", JStr (ws_original w));
   ("digest", JStr (ws_digest w)); ("mimetype", JStr (ws_mimetype w));
   ("statuscode", JStr (ws_statuscode w)); ("length", JStr (ws_length w))].

Definition validate_WaybackSnapshot (d : dict) : validation WaybackSnapshot :=
  Valid Build_WaybackSnapshot
    <*> required "timestamp" v_str d
    <*> required "original" v_str d
    <*> defaulted "digest" v_str "" d
    <*> defaulted "mimetype" v_str "" d
    <*> defaulted "statuscode" v_str "200" d
    <*> defaulted "length" v_str "" d.

Definition dump_SnapshotObservation `{Library} (o : SnapshotObservation) : dict :=
  dump_Observation (sn_base o) ++
  [("observation_type", JStr "snapshot");
   ("original_url", JStr (sn_original_url o));
   ("snapshots", d_list (fun w => JObj (dump_WaybackSnapshot w)) (sn_snapshots o));
   ("total_snapshots", JInt (sn_total_snapshots o))].

Definition validate_SnapshotObservation `{Library} (d : dict) : validation SnapshotObservation :=
  Valid Build_SnapshotObservation
    <*> validate_Observation d
    <* discriminator "observation_type" "snapshot" d
    <*> required "original_url" v_url d
    <*> required "snapshots" (v_list (v_model validate_WaybackSnapshot)) d
    <*> required "total_snapshots" v_int d.

Definition dump_IOC `{Library} (o : IOC) : dict :=
  dump_Observation (ioc_base o) ++
  [("observation_type", JStr "ioc");
   ("ioc_type", JStr (ioc_ioc_type o));
   ("value", JStr (ioc_value o));
   ("first_seen", d_opt d_datetime (ioc_first_seen o));
   ("last_seen", d_opt d_datetime (ioc_last_seen o));
   ("extracted_from", d_opt JStr (ioc_extracted_from o))].

Definition validate_IOC `{Library} (d : dict) : validation IOC :=
  Valid Build_IOC
    <*> validate_Observation d
    <* discriminator "observation_type" "ioc" d
    <*> required "ioc_type" (v_one_of IOCType_values) d
    <*> required "value" v_str d
    <*> defaulted "first_seen" (v_optional v_datetime) None d
    <*> defaulted "last_seen" (v_optional v_datetime) None d
    <*> defaulted "extracted_from" (v_optional v_str) None d.

Definition dump_ArticleObservation `{Library} (o : ArticleObservation) : dict :=
  dump_Observation (ar_base o) ++
  [("observation_type", JStr "article");
   ("url", JStr (ar_url o));
   ("title", JStr (ar_title o));
   ("author", d_opt JStr (ar_author o));
   ("published_date", d_opt d_datetime (ar_published_date o));
   ("source_name", d_opt JStr (ar_source_name o));
   ("summary", d_opt JStr (ar_summary o));
   ("evidence_ids", d_list JStr (ar_evidence_ids o))].

Definition validate_ArticleObservation `{Library} (d : dict) : validation ArticleObservation :=
  Valid Build_ArticleObservation
    <*> validate_Observation d
    <* discriminator "observation_type" "article" d
    <*> required "url" v_url d
    <*> required "title" v_str d
    <*> defaulted "author" (v_optional v_str) None d
    <*> defaulted "published_date" (v_optional v_datetime) None d
    <*> defaulted "source_name" (v_optional v_str) None d
    <*> defaulted "summary" (v_optional v_str) None d
    <*> defaulted "evidence_ids" (v_list v_str) [] d.

Definition dump_AnyObservation `{Library} (o : AnyObservation) : dict :=
  match o with
  | ObsCommit o => dump_CommitObservation o
  | ObsIssue o => dump_IssueObservation o
  | ObsFile o => dump_FileObservation o
  | ObsFork o => dump_ForkObservation o
  | ObsBranch o => dump_BranchObservation o
  | ObsTag o => dump_TagObservation o
  | ObsRelease o => dump_ReleaseObservation o
  | ObsSnapshot o => dump_SnapshotObservation o
  | ObsIOC o => dump_IOC o
  | ObsArticle o => dump_ArticleObservation o
  end.

(** [_ObservationUnion] *)
Definition _ObservationUnion `{Library} : list (string * (dict -> validation AnyObservation)) :=
  [("commit", fun d => v_map ObsCommit (validate_CommitObservation d));
   ("issue", fun d => v_map ObsIssue (validate_IssueObservation d));
   ("file", fun d => v_map ObsFile (validate_FileObservation d));
   ("fork", fun d => v_map ObsFork (validate_ForkObservation d));
   ("branch", fun d => v_map ObsBranch (validate_BranchObservation d));
   ("tag", fun d => v_map ObsTag (validate_TagObservation d));
   ("release", fun d => v_map ObsRelease (validate_ReleaseObservation d));
   ("snapshot", fun d => v_map ObsSnapshot (validate_SnapshotObservation d));
   ("ioc", fun d => v_map ObsIOC (validate_IOC d));
   ("article", fun d => v_map ObsArticle (validate_ArticleObservation d))].

(** *** The discriminated unions and the loader *)

(** The class registered for a discriminator value. *)
Fixpoint union_member {A} (tag : string) (union : list (string * (dict -> validation A)))
  : option (dict -> validation A) :=
  match union with
  | [] => None
  | (t, v) :: rest => if String.eqb tag t then Some v else union_member tag rest
  end.

(** [TypeAdapter(Annotated[Union[...], Field(discriminator=key)]).validate_python]:
    the tag picks the class; a missing or unlisted tag is an error. *)
Definition validate_python {A} (key : string)
    (union : list (string * (dict -> validation A))) (data : dict) : validation A :=
  match dict_get key data with
  | None => fail "union_tag_not_found"
  | Some (JStr tag) =>
      match union_member tag union with
      | Some v => at_loc tag (v data)
      | None => fail "union_tag_invalid"
      end
  | Some _ => fail "union_tag_invalid"
  end.

Definition _event_adapter `{Library} : dict -> validation AnyEvent :=
  validate_python "event_type" _EventUnion.

Definition _observation_adapter `{Library} : dict -> validation AnyObservation :=
  validate_python "observation_type" _ObservationUnion.

(** [f"{data.get(key)}"] *)
Definition py_str `{Library} (v : option json) : string :=
  match v with
  | None | Some JNull => "None"
  | Some (JStr s) => s
  | Some (JBool true) => "True"
  | Some (JBool false) => "False"
  | Some (JInt z) => NilEmpty.string_of_int (Z.to_int z)
  | Some j => py_repr j
  end.

Definition load_evidence_from_json `{Library} (data : dict) : outcome AnyEvidence :=
  if dict_has "event_type" data then
    match _event_adapter data with
    | Valid e => Return (Ev e)
    | Invalid _ =>
        Raise (ValueError ("Unknown event_type: " ++ py_str (dict_get "event_type" data)))
    end
  else if dict_has "observation_type" data then
    match _observation_adapter data with
    | Valid o => Return (Obs o)
    | Invalid _ =>
        Raise (ValueError
                 ("Unknown observation_type: " ++ py_str (dict_get "observation_type" data)))
    end
  else Raise (ValueError "Data must contain 'event_type' or 'observation_type' field").

(** [e.model_dump(mode="json")] *)
Definition model_dump `{Library} (e : AnyEvidence) : dict :=
  match e with
  | Ev e => dump_AnyEvent e
  | Obs o => dump_AnyObservation o
  end.

(** [EvidenceStore.to_json]; [indent] only lays the text out and
    [default=str] is never consulted on JSON-mode dumps. *)
Definition to_json `{Library} (s : Store.EvidenceStore) : json_text :=
  json_dumps (JList (map (fun e => JObj (model_dump e)) (Store._evidence s))).

(** [for item in data]: a list yields its items, a dict its keys, a string
    its characters; anything else is not iterable. *)
Definition py_iterate (data : json) : outcome (list json) :=
  match data with
  | JList items => Return items
  | JObj d => Return (map (fun kv => JStr (fst kv)) d)
  | JStr s => Return (map (fun c => JStr (String c EmptyString)) (list_ascii_of_string s))
  | _ => Raise (PyExn "TypeError" ("'" ++ py_type_name data ++ "' object is not iterable"))
  end.

(** [load_evidence_from_json(item)] for an item of the decoded text. The
    function is written for a dict; on any other value it raises (a
    [TypeError], [AttributeError] or [ValueError], depending on the value). *)
Definition load_item `{Library} (item : json) : outcome AnyEvidence :=
  match item with
  | JObj d => load_evidence_from_json d
  | _ => Raise (PyExn "Exception" ("'" ++ py_type_name item ++ "' is not a record"))
  end.

(** [[load_evidence_from_json(item) for item in data]] *)
Fixpoint load_all `{Library} (items : list json) : outcome (list AnyEvidence) :=
  match items with
  | [] => Return []
  | item :: rest =>
      match load_item item with
      | Raise x => Raise x
      | Return e =>
          match load_all rest with
          | Raise x => Raise x
          | Return es => Return (e :: es)
          end
      end
  end.

(** [EvidenceStore.from_json] *)
Definition from_json `{Library} (json_str : json_text) : outcome Store.EvidenceStore :=
  match json_loads json_str with
  | None => Raise (PyExn "JSONDecodeError" "")
  | Some data =>
      match py_iterate data with
      | Raise x => Raise x
      | Return items =>
          match load_all items with
          | Raise x => Raise x
          | Return es => Return (Store.init es)
          end
      end
  end.

(** *** The constraints an instance satisfies once constructed

    Construction runs the validators above, so a field typed by an
    enumeration or a [Literal] holds one of its values, an [HttpUrl] is in
    the form validation returns it in, and a commit's [sha] has the
    declared length. *)

Definition is_one_of (values : list string) (s : string) : bool :=
  existsb (String.eqb s) values.

Definition is_http_url `{Library} (u : string) : bool :=
  match http_url u with Some u' => String.eqb u' u | None => false end.

Definition holds_opt {A} (p : A -> bool) (o : option A) : bool :=
  match o with Some a => p a | None => true end.

Definition constructed_VerificationInfo `{Library} (v : VerificationInfo) : bool :=
  holds_opt is_http_url (url v).

Definition constructed_AnyEvent `{Library} (e : AnyEvent) : bool :=
  constructed_VerificationInfo (e_verification (event_base e))
  && match e with
     | EvPullRequest e => is_one_of PRAction_values (pr_action e)
     | EvIssue e => is_one_of IssueAction_values (ie_action e)
     | EvIssueComment e => is_one_of ["created"; "edited"; "deleted"] (ic_action e)
     | EvCreate e => is_one_of RefType_values (cr_ref_type e)
     | EvDelete e => is_one_of RefType_values (de_ref_type e)
     | EvWorkflowRun e =>
         is_one_of ["requested"; "completed"; "in_progress"] (wf_action e)
         && holds_opt (is_one_of WorkflowConclusion_values) (wf_conclusion e)
     | EvRelease e => is_one_of ["published"; "created"; "deleted"] (re_action e)
     | EvMember e => is_one_of ["added"; "removed"] (me_action e)
     | EvPush _ | EvFork _ | EvWatch _ | EvPublic _ => true
     end.

Definition constructed_FileChange (f : FileChange) : bool :=
  is_one_of ["added"; "modified"; "removed"; "renamed"] (fc_status f).

Definition constructed_AnyObservation `{Library} (o : AnyObservation) : bool :=
  constructed_VerificationInfo (o_verification (observation_base o))
  && match o with
     | ObsCommit o =>
         (String.length (co_sha o) =? 40)%nat
         && forallb constructed_FileChange (co_files o)
     | ObsIssue o => holds_opt (is_one_of ["open"; "closed"; "merged"]) (io_state o)
     | ObsSnapshot o => is_http_url (sn_original_url o)
     | ObsIOC o => is_one_of IOCType_values (ioc_ioc_type o)
     | ObsArticle o => is_http_url (ar_url o)
     | ObsFile _ | ObsFork _ | ObsBranch _ | ObsTag _ | ObsRelease _ => true
     end.

Definition constructed `{Library} (e : AnyEvidence) : bool :=
  match e with
  | Ev e => constructed_AnyEvent e
  | Obs o => constructed_AnyObservation o
  end.

End Serial.

(** ** The consistency verifier ([verifiers/consistency.py]) *)

Module Verifier.
Import Schema.

(** A call that leaves the process: a [GitHubClient] method, [requests.get],
    or a [GHArchiveClient] method. *)
Inductive call :=
| CallGetCommit (owner repo sha : string)
| CallGetIssue (owner repo : string) (number : Z)
| CallGetPullRequest (owner repo : string) (number : Z)
| CallGetFile (owner repo path ref : string)
| CallGetBranch (owner repo branch : string)
| CallGetTag (owner repo tag : string)
| CallGetRelease (owner repo tag : string)
| CallRequestsGet (url : string)
| CallGetClient
| CallQueryEvents (repo actor : option string) (from_date : string).

(** The live sources a verifier is constructed with, and the library
    functions its strategies use. A client method returns the decoded
    response or raises; [requests_get url] is
    [requests.get(url, timeout=30)] followed by [raise_for_status()]: the
    response text, or the exception raised, which is a
    [requests.RequestException] or not ([is_request_exception e] is
    [isinstance(e, requests.RequestException)]). *)
Class Sources := {
  get_commit : string -> string -> string -> outcome json;
  get_issue : string -> string -> Z -> outcome json;
  get_pull_request : string -> string -> Z -> outcome json;
  get_file : string -> string -> string -> string -> outcome json;
  get_branch : string -> string -> string -> outcome json;
  get_tag : string -> string -> string -> outcome json;
  get_release : string -> string -> string -> outcome json;
  requests_get : string -> outcome string;
  is_request_exception : exn -> bool;
  _get_client : outcome unit;
  query_events : option string -> option string -> string -> outcome (list json);
  strftime : datetime -> string;
  b64decode_utf8 : string -> outcome string;
  sha256_hexdigest : string -> string;
  lower : string -> string;
  format_value : json -> string;
  format_source : EvidenceSource -> string }.

(** A computation with the calls it made: [N] cannot raise, [M] can. *)
Definition N (A : Type) : Type := A * list call.
Definition M (A : Type) : Type := outcome A * list call.

Definition ret {A} (a : A) : M A := (Return a, []).

Definition raise {A} (e : exn) : M A := (Raise e, []).

Definition bind {A B} (m : M A) (f : A -> M B) : M B :=
  match m with
  | (Return a, log) => let '(r, log') := f a in (r, (log ++ log')%list)
  | (Raise e, log) => (Raise e, log)
  end.

Notation "x <- m ;; k" := (bind m (fun x => k))
  (at level 100, m at next level, right associativity).

(** A call to a source: its result, logged. *)
Definition perform {A} (c : call) (r : outcome A) : M A := (r, [c]).

(** A result computed without raising. *)
Definition pure {A} (r : outcome A) : M A := (r, []).

Definition total {A} (n : N A) : M A := (Return (fst n), snd n).

(** [try: m  except Exception as e: handler(e)] *)
Definition try_except {A} (m : M A) (handler : exn -> A) : N A :=
  match m with
  | (Return a, log) => (a, log)
  | (Raise e, log) => (handler e, log)
  end.

(** [try: m  except requests.RequestException as e: handler(e)]: an
    exception of another class is not caught and leaves the [try]. *)
Definition try_except_request `{Sources} {A} (m : M A) (handler : exn -> A) : M A :=
  match m with
  | (Return a, log) => (Return a, log)
  | (Raise e, log) =>
      if is_request_exception e then (Return (handler e), log) else (Raise e, log)
  end.

(** [j.get(k, default)]: [AttributeError] unless [j] is a dict. *)
Definition py_get_default (j : json) (k : string) (default : json) : outcome json :=
  match j with
  | JObj d => Return (match dict_get k d with Some v => v | None => default end)
  | _ => Raise (PyExn "AttributeError"
                  ("'" ++ py_type_name j ++ "' object has no attribute 'get'"))
  end.

Definition py_get (j : json) (k : string) : outcome json := py_get_default j k JNull.

(** [a in b] for strings *)
Definition is_substring (a b : string) : bool :=
  match String.index 0 a b with Some _ => true | None => false end.

Definition passed (notes : list string) : VerificationResult :=
  {| is_valid := true; errors := notes |}.

Definition failed (errs : list string) : VerificationResult :=
  {| is_valid := false; errors := errs |}.

(** [VerificationResult(is_valid=len(errors) == 0, errors=errors)] *)
Definition from_errors (errs : list string) : VerificationResult :=
  {| is_valid := match errs with [] => true | _ => false end; errors := errs |}.

(** [_get_repo_info] *)
Definition _get_repo_info (obs : AnyObservation) : option (string * string) :=
  match o_repository (observation_base obs) with
  | Some repo => Some (owner repo, name repo)
  | None => None
  end.

(** *** GitHub API strategies

    Each reads its key attribute with [getattr(obs, name, None)]; only the
    class that declares the attribute reaches the fetch. *)

Definition _verify_commit `{Sources} (obs : AnyObservation) : M VerificationResult :=
  match _get_repo_info obs with
  | None => ret (failed ["No repository specified"])
  | Some (o, n) =>
      match obs with
      | ObsCommit c =>
          let sha := co_sha c in
          if str_truthy sha then
            data <- perform (CallGetCommit o n sha) (get_commit o n sha) ;;
            commit <- pure (py_get_default data "commit" (JObj [])) ;;
            got_sha <- pure (py_get data "sha") ;;
            let e1 :=
              if py_eq_str got_sha sha then []
              else ["SHA mismatch: expected " ++ sha ++ ", got " ++ format_value got_sha] in
            message <- pure (py_get_default commit "message" (JStr "")) ;;
            let e2 := if py_eq_str message (co_message c) then [] else ["Message mismatch"] in
            author <- pure (py_get_default commit "author" (JObj [])) ;;
            actual <- pure (py_get author "name") ;;
            let e3 :=
              if py_eq_str actual (ca_name (co_author c)) then []
              else ["Author mismatch: expected " ++ ca_name (co_author c)
                    ++ ", got " ++ format_value actual] in
            ret (from_errors (e1 ++ e2 ++ e3))
          else ret (failed ["No SHA specified"])
      | _ => ret (failed ["No SHA specified"])
      end
  end.

Definition _verify_issue `{Sources} (obs : AnyObservation) : M VerificationResult :=
  match _get_repo_info obs with
  | None => ret (failed ["No repository specified"])
  | Some (o, n) =>
      match obs with
      | ObsIssue i =>
          let number := io_issue_number i in
          if number =? 0 then ret (failed ["No issue number specified"])
          else
            data <- (if io_is_pull_request i
                     then perform (CallGetPullRequest o n number) (get_pull_request o n number)
                     else perform (CallGetIssue o n number) (get_issue o n number)) ;;
            got_number <- pure (py_get data "number") ;;
            let e1 :=
              if py_eq_int got_number number then []
              else ["Number mismatch: expected " ++ format_value (JInt number)
                    ++ ", got " ++ format_value got_number] in
            e2 <- match io_title i with
                  | Some title =>
                      if str_truthy title then
                        got_title <- pure (py_get data "title") ;;
                        ret (if py_eq_str got_title title then [] else ["Title mismatch"])
                      else ret []
                  | None => ret []
                  end ;;
            e3 <- match io_state i with
                  | Some state =>
                      if str_truthy state then
                        merged <- pure (py_get data "merged") ;;
                        actual <- (if py_truthy merged then ret (JStr "merged")
                                   else pure (py_get data "state")) ;;
                        ret (if py_eq_str actual state then []
                             else ["State mismatch: expected " ++ state
                                   ++ ", got " ++ format_value actual])
                      else ret []
                  | None => ret []
                  end ;;
            ret (from_errors (e1 ++ e2 ++ e3))
      | _ => ret (failed ["No issue number specified"])
      end
  end.

Definition _verify_file `{Sources} (obs : AnyObservation) : M VerificationResult :=
  match _get_repo_info obs with
  | None => ret (failed ["No repository specified"])
  | Some (o, n) =>
      match obs with
      | ObsFile f =>
          let file_path := fo_file_path f in
          if str_truthy file_path then
            let ref := if opt_str_truthy (fo_branch f)
                       then default "HEAD" (fo_branch f) else "HEAD" in
            data <- perform (CallGetFile o n file_path ref) (get_file o n file_path ref) ;;
            match fo_content_hash f with
            | Some content_hash =>
                if str_truthy content_hash then
                  raw <- pure (py_get_default data "content" (JStr "")) ;;
                  content <- (if py_truthy raw then
                                match raw with
                                | JStr s => pure (b64decode_utf8 s)
                                | _ => raise (PyExn "TypeError"
                                          ("argument should be a bytes-like object or ASCII string, not '"
                                           ++ py_type_name raw ++ "'"))
                                end
                              else ret "") ;;
                  if String.eqb content_hash (sha256_hexdigest content)
                  then ret (passed [])
                  else ret (failed ["Content hash mismatch"])
                else ret (passed [])
            | None => ret (passed [])
            end
          else ret (failed ["No file path specified"])
      | _ => ret (failed ["No file path specified"])
      end
  end.

Definition _verify_branch `{Sources} (obs : AnyObservation) : M VerificationResult :=
  match _get_repo_info obs with
  | None => ret (failed ["No repository specified"])
  | Some (o, n) =>
      match obs with
      | ObsBranch b =>
          let branch_name := br_branch_name b in
          if str_truthy branch_name then
            data <- perform (CallGetBranch o n branch_name) (get_branch o n branch_name) ;;
            match br_head_sha b with
            | Some head_sha =>
                if str_truthy head_sha then
                  commit <- pure (py_get_default data "commit" (JObj [])) ;;
                  actual <- pure (py_get commit "sha") ;;
                  if py_eq_str actual head_sha then ret (passed [])
                  else ret (failed ["HEAD SHA mismatch: expected " ++ head_sha
                                    ++ ", got " ++ format_value actual])
                else ret (passed [])
            | None => ret (passed [])
            end
          else ret (failed ["No branch name specified"])
      | _ => ret (failed ["No branch name specified"])
      end
  end.

(** [getattr(obs, "tag_name", None)]: tags and releases declare [tag_name]. *)
Definition getattr_tag_name (obs : AnyObservation) : option string :=
  match obs with
  | ObsTag t => Some (tg_tag_name t)
  | ObsRelease r => Some (rl_tag_name r)
  | _ => None
  end.

(** [obs.target_sha] where [hasattr(obs, "target_sha")] *)
Definition getattr_target_sha (obs : AnyObservation) : option string :=
  match obs with
  | ObsTag t => tg_target_sha t
  | _ => None
  end.

Definition _verify_tag `{Sources} (obs : AnyObservation) : M VerificationResult :=
  match _get_repo_info obs with
  | None => ret (failed ["No repository specified"])
  | Some (o, n) =>
      if opt_str_truthy (getattr_tag_name obs) then
        let tag_name := default "" (getattr_tag_name obs) in
        data <- perform (CallGetTag o n tag_name) (get_tag o n tag_name) ;;
        match getattr_target_sha obs with
        | Some target_sha =>
            if str_truthy target_sha then
              object <- pure (py_get_default data "object" (JObj [])) ;;
              actual <- pure (py_get object "sha") ;;
              if py_eq_str actual target_sha then ret (passed [])
              else ret (failed ["Target SHA mismatch: expected " ++ target_sha
                                ++ ", got " ++ format_value actual])
            else ret (passed [])
        | None => ret (passed [])
        end
      else ret (failed ["No tag name specified"])
  end.

Definition _verify_release `{Sources} (obs : AnyObservation) : M VerificationResult :=
  match _get_repo_info obs with
  | None => ret (failed ["No repository specified"])
  | Some (o, n) =>
      if opt_str_truthy (getattr_tag_name obs) then
        let tag_name := default "" (getattr_tag_name obs) in
        data <- perform (CallGetRelease o n tag_name) (get_release o n tag_name) ;;
        got <- pure (py_get data "tag_name") ;;
        if py_eq_str got tag_name then ret (passed [])
        else ret (failed ["Tag name mismatch"])
      else ret (failed ["No tag name specified"])
  end.

(** *** URL and vendor strategies *)

Definition _verify_url_accessible `{Sources} (obs : AnyObservation) : M VerificationResult :=
  match url (o_verification (observation_base obs)) with
  | None => ret (passed [])
  | Some u =>
      try_except_request
        (_ <- perform (CallRequestsGet u) (requests_get u) ;;
         ret (passed []))
        (fun e => failed ["Failed to access URL: " ++ exn_msg e])
  end.

(** [getattr(obs, "value", None)]: only an IOC declares [value]. *)
Definition getattr_value (obs : AnyObservation) : option string :=
  match obs with
  | ObsIOC i => Some (ioc_value i)
  | _ => None
  end.

Definition _verify_security_vendor `{Sources} (obs : AnyObservation) : M VerificationResult :=
  match url (o_verification (observation_base obs)) with
  | None => ret (failed ["No source URL specified"])
  | Some u =>
      try_except_request
        (text <- perform (CallRequestsGet u) (requests_get u) ;;
         if String.eqb (observation_type obs) "ioc"
            && opt_str_truthy (getattr_value obs)
            && negb (is_substring (lower (default "" (getattr_value obs))) (lower text))
         then ret (failed ["IOC value '" ++ substring 0 50 (default "" (getattr_value obs))
                           ++ "' not found in source"])
         else ret (passed []))
        (fun e => failed ["Failed to fetch source URL: " ++ exn_msg e])
  end.

(** *** GH Archive strategies *)

Definition _has_gharchive_credentials `{Sources} : N bool :=
  (match _get_client with Return _ => true | Raise _ => false end, [CallGetClient]).

Definition _verify_gharchive_event `{Sources} (event : AnyEvent) : N VerificationResult :=
  let base := event_base event in
  if opt_str_truthy (bigquery_table (e_verification base)) then
    let '(has, log) := _has_gharchive_credentials in
    if has then
      let repo := Some (full_name (e_repository base)) in
      let actor := Some (login (e_who base)) in
      let from_date := strftime (e_when base) in
      let '(r, log') :=
        try_except
          (rows <- perform (CallQueryEvents repo actor from_date)
                           (query_events repo actor from_date) ;;
           match rows with
           | [] => ret (failed ["No matching event found in GH Archive"])
           | _ => ret (passed [])
           end)
          (fun e => failed ["GH Archive verification error: " ++ exn_msg e]) in
      (r, (log ++ log')%list)
    else (passed ["GH Archive verification skipped - no credentials"], log)
  else (failed ["No BigQuery table specified"], []).

Definition _verify_gharchive_observation `{Sources} (obs : AnyObservation)
  : N VerificationResult :=
  if opt_str_truthy (bigquery_table (o_verification (observation_base obs))) then
    let '(has, log) := _has_gharchive_credentials in
    if has then (passed [], log)
    else (passed ["GH Archive verification skipped - no credentials"], log)
  else (failed ["No BigQuery table specified"], []).

(** *** Dispatch *)

(** The [verifiers] dict of [_verify_github_observation], by [observation_type]. *)
Definition github_verifiers `{Sources}
  : list (string * (AnyObservation -> M VerificationResult)) :=
  [("commit", _verify_commit);
   ("issue", _verify_issue);
   ("file", _verify_file);
   ("branch", _verify_branch);
   ("tag", _verify_tag);
   ("release", _verify_release);
   ("fork", _verify_url_accessible)].

(** [d.get(key)] on a dict keyed by strings *)
Fixpoint strategy_for {A} (key : string) (d : list (string * A)) : option A :=
  match d with
  | [] => None
  | (k, v) :: rest => if String.eqb key k then Some v else strategy_for key rest
  end.

(** [verifiers.get(obs_type, self._verify_url_accessible)] *)
Definition github_verifier `{Sources} (obs_type : string)
  : AnyObservation -> M VerificationResult :=
  default _verify_url_accessible (strategy_for obs_type github_verifiers).

Definition _verify_github_observation `{Sources} (observation : AnyObservation)
  : N VerificationResult :=
  let obs_type := observation_type observation in
  let verifier := github_verifier obs_type in
  try_except (verifier observation)
    (fun e =>
       if o_is_deleted (observation_base observation) then passed []
       else failed ["Verification failed: " ++ exn_msg e]).

Definition local_git_note : VerificationResult :=
  passed ["Local git verification not supported"].

(** The [verifiers] dict of [_verify_observation], by source. The GitHub
    and GH Archive strategies catch every exception themselves; the two URL
    strategies catch [requests.RequestException] only. *)
Definition observation_verifiers `{Sources}
  : list (EvidenceSource * (AnyObservation -> M VerificationResult)) :=
  [(GITHUB, fun o => total (_verify_github_observation o));
   (GHARCHIVE, fun o => total (_verify_gharchive_observation o));
   (WAYBACK, _verify_url_accessible);
   (SECURITY_VENDOR, _verify_security_vendor);
   (GIT, fun o => ret local_git_note)].

(** [d.get(source)] on a dict keyed by sources *)
Fixpoint strategy_for_source {A} (s : EvidenceSource) (d : list (EvidenceSource * A))
  : option A :=
  match d with
  | [] => None
  | (k, v) :: rest => if EvidenceSource_eqb s k then Some v else strategy_for_source s rest
  end.

Definition _verify_observation `{Sources} (observation : AnyObservation)
  : M VerificationResult :=
  let src := source (o_verification (observation_base observation)) in
  match strategy_for_source src observation_verifiers with
  | None => ret (failed ["Unknown verification source: " ++ format_source src])
  | Some verifier => verifier observation
  end.

Definition _verify_event `{Sources} (event : AnyEvent) : N VerificationResult :=
  let src := source (e_verification (event_base event)) in
  if EvidenceSource_eqb src GHARCHIVE then _verify_gharchive_event event
  else if EvidenceSource_eqb src GIT then (local_git_note, [])
  else (failed ["Unknown verification source for event: " ++ format_source src], []).

(** [verify]: the [else] branch of the [isinstance] test is out of reach
    of an [AnyEvidence]. It returns a result or lets through the exception
    a URL strategy did not catch. *)
Definition verify `{Sources} (evidence : AnyEvidence) : M VerificationResult :=
  match evidence with
  | Ev e => total (_verify_event e)
  | Obs o => _verify_observation o
  end.

(** The state of the loop of [verify_all]. *)
Record aggregate := {
  all_valid : bool;
  all_errors : list string;
  calls : list call }.

(** [f"[{evidence_id}] {e}"] *)
Definition tag_error (evidence : AnyEvidence) (e : string) : string :=
  "[" ++ evidence_id evidence ++ "] " ++ e.

(** One iteration of the loop, for the result [verify] returned after the
    calls [log]. *)
Definition verify_step (acc : aggregate) (evidence : AnyEvidence)
    (result : VerificationResult) (log : list call) : aggregate :=
  if negb (is_valid result) then
    {| all_valid := false;
       all_errors := all_errors acc ++ map (tag_error evidence) (errors result);
       calls := calls acc ++ log |}
  else
    {| all_valid := all_valid acc;
       all_errors := all_errors acc;
       calls := calls acc ++ log |}.

(** The loop: an exception [verify] raises is not caught and ends it. *)
Fixpoint verify_loop `{Sources} (evidence_list : list AnyEvidence) (acc : aggregate)
  : M VerificationResult :=
  match evidence_list with
  | [] => (Return {| is_valid := all_valid acc; errors := all_errors acc |}, calls acc)
  | evidence :: rest =>
      match verify evidence with
      | (Return result, log) => verify_loop rest (verify_step acc evidence result log)
      | (Raise e, log) => (Raise e, (calls acc ++ log)%list)
      end
  end.

Definition verify_all `{Sources} (evidence_list : list AnyEvidence) : M VerificationResult :=
  verify_loop evidence_list {| all_valid := true; all_errors := []; calls := [] |}.

(** [EvidenceStore.verify_all] *)
Definition store_verify_all `{Sources} (s : Store.EvidenceStore)
  : outcome (bool * list string) :=
  match fst (verify_all (Store._evidence s)) with
  | Return result => Return (is_valid result, errors result)
  | Raise e => Raise e
  end.

End Verifier.

Local Open Scope list_scope.

(** ** Notions the properties of the store are stated with *)

Module StoreSpec.
Import Schema Store.

(** The id index and the record list describe the same collection: ids
    are unique in the list, and the index maps an id to the record of the
    list that carries it. *)
Definition consistent (s : EvidenceStore) : Prop :=
  NoDup (map evidence_id (_evidence s))
  /\ forall k v, _by_id s !! k = Some v <-> v ∈ _evidence s /\ evidence_id v = k.

(** The mutating operations of the store. *)
Inductive operation :=
| OpAdd (evidence : AnyEvidence)
| OpAddAll (evidence_list : list AnyEvidence)
| OpRemove (id : string)
| OpClear
| OpMerge (other : EvidenceStore).

Definition apply (s : EvidenceStore) (o : operation) : EvidenceStore :=
  match o with
  | OpAdd e => add s e
  | OpAddAll l => add_all s l
  | OpRemove id => fst (remove s id)
  | OpClear => clear s
  | OpMerge other => merge s other
  end.

(** The store reached from [EvidenceStore()] by a sequence of operations. *)
Definition run (ops : list operation) : EvidenceStore :=
  fold_left apply ops empty.

(** The records of a list that carry a given id. *)
Definition with_id (id : string) (l : list AnyEvidence) : list AnyEvidence :=
  List.filter (fun x => String.eqb (evidence_id x) id) l.

(** [filter(after=..., before=...)] *)
Definition bounds (after before : option datetime) : criteria :=
  {| c_event_type := None; c_observation_type := None; c_source := None;
     c_repo := None; c_after := after; c_before := before; c_predicate := None |}.

(** [after <= t <= before], a missing bound holding of every [t]. *)
Definition in_range (after before : option datetime) (t : datetime) : bool :=
  match after with Some a => a <=? t | None => true end
  && match before with Some b => t <=? b | None => true end.

End StoreSpec.

(** ** Notions the properties of serialization are stated with *)

Module SerialSpec.
Import Schema Serial.

(** The discriminator values of the two unions. *)
Definition event_type_values : list string :=
  ["push"; "pull_request"; "issue"; "issue_comment"; "create"; "delete"; "fork";
   "workflow_run"; "release"; "watch"; "member"; "public"].

Definition observation_type_values : list string :=
  ["commit"; "issue"; "file"; "fork"; "branch"; "tag"; "release"; "snapshot"; "ioc";
   "article"].

(** A discriminator is recognized when it is the text of one of the values. *)
Definition recognized (values : list string) (v : json) : bool :=
  match v with JStr tag => is_one_of values tag | _ => false end.

(** The class of a validated observation, and its validation as that class. *)
Definition validated_as `{Library} (data : dict) (o : AnyObservation) : Prop :=
  match o with
  | ObsCommit c => validate_CommitObservation data = Valid c
  | ObsIssue i => validate_IssueObservation data = Valid i
  | ObsFile f => validate_FileObservation data = Valid f
  | ObsFork f => validate_ForkObservation data = Valid f
  | ObsBranch b => validate_BranchObservation data = Valid b
  | ObsTag t => validate_TagObservation data = Valid t
  | ObsRelease r => validate_ReleaseObservation data = Valid r
  | ObsSnapshot s => validate_SnapshotObservation data = Valid s
  | ObsIOC i => validate_IOC data = Valid i
  | ObsArticle a => validate_ArticleObservation data = Valid a
  end.

(** Following the specification's words: a hexadecimal digit, and a text made of
    hexadecimal digits only. *)
Definition is_hex_digit (c : ascii) : bool :=
  let n := nat_of_ascii c in
  ((48 <=? n) && (n <=? 57) || (97 <=? n) && (n <=? 102) || (65 <=? n) && (n <=? 70))%nat.

Definition is_hex (s : string) : bool := forallb is_hex_digit (list_ascii_of_string s).

(** A validation that failed with an error located at the field. *)
Definition reports {A} (field : string) (v : validation A) : Prop :=
  exists errs, v = Invalid errs /\ Exists (fun e => loc e = [field]) errs.

End SerialSpec.

(** ** Notions the properties of the verifier are stated with *)

Module VerifierSpec.
Import Schema Verifier.

(** The sources [verify] has a strategy for, by root kind. *)
Definition recognized_sources (e : AnyEvidence) : list EvidenceSource :=
  match e with
  | Ev _ => [GHARCHIVE; GIT]
  | Obs _ => [GITHUB; GHARCHIVE; WAYBACK; SECURITY_VENDOR; GIT]
  end.

Definition recognized_source (e : AnyEvidence) : bool :=
  existsb (EvidenceSource_eqb (source (verification e))) (recognized_sources e).

(** The verdict on one record, apart from the calls made to reach it: the
    result [verify] returns, or the exception it raises. *)
Definition verdict `{Sources} (e : AnyEvidence) : outcome VerificationResult :=
  fst (verify e).

(** The error lines [verify_all] reports for a record whose verification
    returned [result]. *)
Definition reported (e : AnyEvidence) (result : VerificationResult) : list string :=
  if is_valid result then [] else map (tag_error e) (errors result).

(** The records of a collection and the results their verifications
    returned, side by side. *)
Definition returned `{Sources} (evidence_list : list AnyEvidence)
    (results : list VerificationResult) : Prop :=
  Forall2 (fun e r => verdict e = Return r) evidence_list results.

(** The observation types the GitHub dispatch sends to the URL check. *)
Definition url_checked_types : list string := ["fork"; "snapshot"; "ioc"; "article"].

(** The fetch a GitHub API strategy makes for an observation, once the
    repository and the key attribute of its class are there: the call and
    what the client answers. *)
Definition api_fetch `{Sources} (o : AnyObservation) : option (call * outcome json) :=
  match _get_repo_info o with
  | None => None
  | Some (ow, n) =>
      match o with
      | ObsCommit c =>
          if str_truthy (co_sha c)
          then Some (CallGetCommit ow n (co_sha c), get_commit ow n (co_sha c))
          else None
      | ObsIssue i =>
          if io_issue_number i =? 0 then None
          else if io_is_pull_request i
          then Some (CallGetPullRequest ow n (io_issue_number i),
                     get_pull_request ow n (io_issue_number i))
          else Some (CallGetIssue ow n (io_issue_number i),
                     get_issue ow n (io_issue_number i))
      | ObsFile f =>
          if str_truthy (fo_file_path f) then
            let ref := if opt_str_truthy (fo_branch f)
                       then default "HEAD" (fo_branch f) else "HEAD" in
            Some (CallGetFile ow n (fo_file_path f) ref, get_file ow n (fo_file_path f) ref)
          else None
      | ObsBranch b =>
          if str_truthy (br_branch_name b)
          then Some (CallGetBranch ow n (br_branch_name b), get_branch ow n (br_branch_name b))
          else None
      | ObsTag t =>
          if str_truthy (tg_tag_name t)
          then Some (CallGetTag ow n (tg_tag_name t), get_tag ow n (tg_tag_name t))
          else None
      | ObsRelease r =>
          if str_truthy (rl_tag_name r)
          then Some (CallGetRelease ow n (rl_tag_name r), get_release ow n (rl_tag_name r))
          else None
      | _ => None
      end
  end.

End VerifierSpec.

(** ** Sample records

    The push event and the commit observation of the store tests and of
    the scenarios of the specification. *)

Module Samples.
Import Schema.

Definition an_actor : GitHubActor :=
  {| login := "octocat"; actor_id := Some 583231; is_bot := false |}.

Definition a_repository : GitHubRepository :=
  {| owner := "aws"; name := "aws-toolkit-vscode";
     full_name := "aws/aws-toolkit-vscode"; repo_id := None |}.

Definition verified_by (src : EvidenceSource) (link : option string) : VerificationInfo :=
  {| source := src; url := link; bigquery_table := None; query := None |}.

Definition deadbeef_sha : string := "deadbeefdeadbeefdeadbeefdeadbeefdeadbeef".

Definition push_1 : AnyEvidence :=
  Ev (EvPush
    {| push_base :=
         {| e_evidence_id := "push-1"; e_when := 1752439024000000;
            e_who := an_actor; e_what := "Pushed 1 commit";
            e_repository := a_repository;
            e_verification :=
              {| source := GHARCHIVE; url := None;
                 bigquery_table := Some "githubarchive.day.20250713"; query := None |} |};
       push_ref := "refs/heads/master";
       push_before_sha := "0000000000000000000000000000000000000000";
       push_after_sha := deadbeef_sha;
       push_size := 1;
       push_commits :=
         [{| cip_sha := deadbeef_sha; cip_message := "fix";
             cip_author_name := "octocat"; cip_author_email := "octocat@example.com" |}];
       push_is_force_push := false |}).

Definition an_author : CommitAuthor :=
  {| ca_name := "octocat"; ca_email := "octocat@example.com"; ca_date := 1752439000000000 |}.

(** An observation made at [observed] of something that happened at
    [original], when that is known. *)
Definition observed (id : string) (original : option datetime) (seen : datetime)
    (v : VerificationInfo) (deleted : bool) : Observation :=
  {| o_evidence_id := id; o_original_when := original; o_original_who := None;
     o_original_what := None; o_observed_when := seen; o_observed_by := source v;
     o_observed_what := "observed"; o_repository := Some a_repository;
     o_verification := v; o_is_deleted := deleted |}.

Definition commit_record (base : Observation) (sha : string) (dangling : bool)
  : CommitObservation :=
  {| co_base := base; co_sha := sha; co_message := "fix";
     co_author := an_author; co_committer := an_author;
     co_parents := []; co_files := []; co_is_dangling := dangling |}.

Definition commit_with (base : Observation) (sha : string) (dangling : bool) : AnyObservation :=
  ObsCommit (commit_record base sha dangling).

Definition commit_1_base : Observation :=
  observed "commit-1" (Some 1752439000000000) 1752525400000000
           (verified_by GITHUB None) false.

Definition commit_1 : AnyEvidence := Obs (commit_with commit_1_base deadbeef_sha true).

(** [commit-1] collected again, no longer dangling. *)
Definition commit_1_again : AnyEvidence := Obs (commit_with commit_1_base deadbeef_sha false).

(** A library to run the samples with: datetimes print as decimal
    numerals, every URL is accepted as it is written, JSON text is the
    value it encodes, and the enumerations have the members the tests use. *)
Definition sample_library : Serial.Library :=
  {| Serial.isoformat := fun t => NilEmpty.string_of_int (Z.to_int t);
     Serial.fromisoformat := fun s => option_map Z.of_int (NilEmpty.int_of_string s);
     Serial.http_url := fun u => Some u;
     Serial.PRAction_values := ["opened"; "closed"];
     Serial.IssueAction_values := ["opened"; "closed"];
     Serial.WorkflowConclusion_values := ["success"; "failure"];
     Serial.IOCType_values := ["sha"; "email"; "domain"];
     Serial.py_repr := fun _ => "...";
     Serial.json_text := json;
     Serial.json_dumps := fun j => j;
     Serial.json_loads := fun t => Some t |}.

(** Forty characters, none of them a hexadecimal digit. *)
Definition forty_z : string := "zzzzzzzzzzzzzzzzzzzzzzzzzzzzzzzzzzzzzzzz".

Definition commit_z : CommitObservation := commit_record commit_1_base forty_z false.

(** The classes of [requests.exceptions] the samples raise, all of them
    subclasses of [RequestException]. *)
Definition request_exception_classes : list string :=
  ["RequestException"; "HTTPError"; "ConnectionError"; "Timeout"; "TooManyRedirects"].

Definition isinstance_RequestException (e : exn) : bool :=
  existsb (String.eqb (exn_class e)) request_exception_classes.

(** Live sources where nothing can be fetched: every client call and every
    HTTP request fails with "not found", and no GH Archive credentials are
    configured. *)
Definition not_found : exn := PyExn "HTTPError" "404 Client Error: Not Found".

Definition unreachable_sources : Verifier.Sources :=
  {| Verifier.get_commit := fun _ _ _ => Raise not_found;
     Verifier.get_issue := fun _ _ _ => Raise not_found;
     Verifier.get_pull_request := fun _ _ _ => Raise not_found;
     Verifier.get_file := fun _ _ _ _ => Raise not_found;
     Verifier.get_branch := fun _ _ _ => Raise not_found;
     Verifier.get_tag := fun _ _ _ => Raise not_found;
     Verifier.get_release := fun _ _ _ => Raise not_found;
     Verifier.requests_get := fun _ => Raise not_found;
     Verifier.is_request_exception := isinstance_RequestException;
     Verifier._get_client := Raise (PyExn "DefaultCredentialsError" "no credentials");
     Verifier.query_events := fun _ _ _ => Raise not_found;
     Verifier.strftime := fun _ => "202507132037";
     Verifier.b64decode_utf8 := fun s => Return s;
     Verifier.sha256_hexdigest := fun s => s;
     Verifier.lower := fun s => s;
     Verifier.format_value := fun _ => "?";
     Verifier.format_source := EvidenceSource_value |}.

(** [commit-1], marked as deleted at the source. *)
Definition deleted_commit : AnyObservation :=
  commit_with (observed "commit-1" (Some 1752439000000000) 1752525400000000
                        (verified_by GITHUB None) true)
              deadbeef_sha true.

Definition archived_page : string :=
  "https://web.archive.org/web/2025/https://github.com/aws/aws-toolkit-vscode".

(** A deleted repository page, known from its Wayback captures. *)
Definition deleted_snapshot : AnyObservation :=
  ObsSnapshot
    {| sn_base := observed "snapshot-1" None 1752525400000000
                           (verified_by WAYBACK (Some archived_page)) true;
       sn_original_url := "https://github.com/aws/aws-toolkit-vscode";
       sn_snapshots := []; sn_total_snapshots := 0 |}.

(** A fork seen through the API, recorded without a verification URL. *)
Definition a_fork : AnyObservation :=
  ObsFork
    {| fk_base := observed "fork-1" None 1752525400000000 (verified_by GITHUB None) false;
       fk_fork_full_name := "mallory/aws-toolkit-vscode";
       fk_parent_full_name := "aws/aws-toolkit-vscode";
       fk_fork_owner := Some "mallory"; fk_fork_repo := Some "aws-toolkit-vscode";
       fk_forked_at := None |}.

(** A URL whose host has a label of sixty-four characters: [requests.get]
    raises urllib3's [LocationParseError] for it, which is not a
    [RequestException]. *)
Definition unparsable_url : string :=
  "https://aaaaaaaaaaaaaaaaaaaaaaaaaaaaaaaaaaaaaaaaaaaaaaaaaaaaaaaaaaaaaaaa.example/".

Definition location_parse_error : exn :=
  PyExn "LocationParseError" "Failed to parse: label empty or too long".

(** Sources as [unreachable_sources], where the HTTP request does not
    get as far as the network. *)
Definition unparsable_sources : Verifier.Sources :=
  {| Verifier.get_commit := fun _ _ _ => Raise not_found;
     Verifier.get_issue := fun _ _ _ => Raise not_found;
     Verifier.get_pull_request := fun _ _ _ => Raise not_found;
     Verifier.get_file := fun _ _ _ _ => Raise not_found;
     Verifier.get_branch := fun _ _ _ => Raise not_found;
     Verifier.get_tag := fun _ _ _ => Raise not_found;
     Verifier.get_release := fun _ _ _ => Raise not_found;
     Verifier.requests_get := fun _ => Raise location_parse_error;
     Verifier.is_request_exception := isinstance_RequestException;
     Verifier._get_client := Raise (PyExn "DefaultCredentialsError" "no credentials");
     Verifier.query_events := fun _ _ _ => Raise not_found;
     Verifier.strftime := fun _ => "202507132037";
     Verifier.b64decode_utf8 := fun s => Return s;
     Verifier.sha256_hexdigest := fun s => s;
     Verifier.lower := fun s => s;
     Verifier.format_value := fun _ => "?";
     Verifier.format_source := EvidenceSource_value |}.

(** A deleted fork seen through the API, recorded with that URL. *)
Definition deleted_fork : AnyObservation :=
  ObsFork
    {| fk_base := observed "fork-2" None 1752525400000000
                           (verified_by GITHUB (Some unparsable_url)) true;
       fk_fork_full_name := "mallory/aws-toolkit-vscode";
       fk_parent_full_name := "aws/aws-toolkit-vscode";
       fk_fork_owner := Some "mallory"; fk_fork_repo := Some "aws-toolkit-vscode";
       fk_forked_at := None |}.

(** A deleted page known from the web archive, recorded with that URL. *)
Definition unparsable_snapshot : AnyObservation :=
  ObsSnapshot
    {| sn_base := observed "snapshot-2" None 1752525400000000
                           (verified_by WAYBACK (Some unparsable_url)) true;
       sn_original_url := "https://github.com/aws/aws-toolkit-vscode";
       sn_snapshots := []; sn_total_snapshots := 0 |}.

(** A star event that names the primary API as its verification source. *)
Definition misfiled_star : AnyEvidence :=
  Ev (EvWatch
    {| we_base :=
         {| e_evidence_id := "watch-1"; e_when := 1752439024000000;
            e_who := an_actor; e_what := "Starred";
            e_repository := a_repository;
            e_verification := verified_by GITHUB None |} |}).

End Samples.

(** ** The store's summary ([EvidenceStore.summary]) *)

Module StoreSummary.
Import Schema.

(** [counts[key] = counts.get(key, 0) + 1] *)
Definition count_one (key : string) (counts : gmap string nat) : gmap string nat :=
  <[key := (default 0%nat (counts !! key) + 1)%nat]> counts.

(** [event_counts], [obs_counts] and [source_counts] *)
Record counters := {
  event_counts : gmap string nat;
  obs_counts : gmap string nat;
  source_counts : gmap string nat }.

(** The body of the loop over [self._evidence]. *)
Definition summary_step (c : counters) (e : AnyEvidence) : counters :=
  {| event_counts :=
       match getattr_event_type e with
       | Some t => count_one t (event_counts c)
       | None => event_counts c
       end;
     obs_counts :=
       match getattr_observation_type e with
       | Some t => count_one t (obs_counts c)
       | None => obs_counts c
       end;
     source_counts :=
       count_one (EvidenceSource_value (source (verification e))) (source_counts c) |}.

(** The dict [summary] returns, by key. *)
Record Summary := {
  total : nat;
  events : gmap string nat;
  observations : gmap string nat;
  by_source : gmap string nat }.

Definition summary (s : Store.EvidenceStore) : Summary :=
  let c := fold_left summary_step (Store._evidence s)
                     {| event_counts := ∅; obs_counts := ∅; source_counts := ∅ |} in
  {| total := length (Store._evidence s);
     events := event_counts c;
     observations := obs_counts c;
     by_source := source_counts c |}.

End StoreSummary.

(** ** Further notions the properties of the store are stated with *)

Module StoreSpecMore.
Import Schema Store.

(** The last record of a list that carries the id, if any. *)
Definition last_with_id (id : string) (l : list AnyEvidence) : option AnyEvidence :=
  List.find (fun x => String.eqb (evidence_id x) id) (rev l).

(** How many records of a list satisfy a test. *)
Definition count_where (p : AnyEvidence -> bool) (l : list AnyEvidence) : nat :=
  length (List.filter p l).

(** The sum of the counts of a counter dict. *)
Definition sum_counts (m : gmap string nat) : nat :=
  map_fold (fun _ n acc => (n + acc)%nat) 0%nat m.

(** [filter] called with one keyword argument of [c] and no other. *)
Definition only_event_type (c : criteria) : criteria :=
  {| c_event_type := c_event_type c; c_observation_type := None; c_source := None;
     c_repo := None; c_after := None; c_before := None; c_predicate := None |}.

Definition only_observation_type (c : criteria) : criteria :=
  {| c_event_type := None; c_observation_type := c_observation_type c; c_source := None;
     c_repo := None; c_after := None; c_before := None; c_predicate := None |}.

Definition only_source (c : criteria) : criteria :=
  {| c_event_type := None; c_observation_type := None; c_source := c_source c;
     c_repo := None; c_after := None; c_before := None; c_predicate := None |}.

Definition only_repo (c : criteria) : criteria :=
  {| c_event_type := None; c_observation_type := None; c_source := None;
     c_repo := c_repo c; c_after := None; c_before := None; c_predicate := None |}.

Definition only_after (c : criteria) : criteria :=
  {| c_event_type := None; c_observation_type := None; c_source := None;
     c_repo := None; c_after := c_after c; c_before := None; c_predicate := None |}.

Definition only_before (c : criteria) : criteria :=
  {| c_event_type := None; c_observation_type := None; c_source := None;
     c_repo := None; c_after := None; c_before := c_before c; c_predicate := None |}.

Definition only_predicate (c : criteria) : criteria :=
  {| c_event_type := None; c_observation_type := None; c_source := None;
     c_repo := None; c_after := None; c_before := None; c_predicate := c_predicate c |}.

(** The [source] argument cannot make [filter] raise: it is absent, a
    member of [EvidenceSource], the empty text, or a member's value. *)
Definition source_is_valid (c : criteria) : bool :=
  match c_source c with
  | Some (inr v) =>
      negb (str_truthy v)
      || match EvidenceSource_of_value v with Some _ => true | None => false end
  | _ => true
  end.

(** A record is among the results of [filter] with these criteria. *)
Definition kept_by (c : criteria) (e : AnyEvidence) : bool :=
  match matches c e with Return b => b | Raise _ => false end.

(** [filter(event_type=t)], [filter(observation_type=t)] and [filter(source=v)] *)
Definition by_event_type (t : string) : criteria :=
  {| c_event_type := Some t; c_observation_type := None; c_source := None;
     c_repo := None; c_after := None; c_before := None; c_predicate := None |}.

Definition by_observation_type (t : string) : criteria :=
  {| c_event_type := None; c_observation_type := Some t; c_source := None;
     c_repo := None; c_after := None; c_before := None; c_predicate := None |}.


End StoreSpecMore.

(** ** Further notions the properties of serialization are stated with *)

Module SerialSpecMore.
Import Schema Serial.

(** The class of a validated event, and its validation as that class. *)
Definition validated_as_event `{Library} (data : dict) (e : AnyEvent) : Prop :=
  match e with
  | EvPush x => validate_PushEvent data = Valid x
  | EvPullRequest x => validate_PullRequestEvent data = Valid x
  | EvIssue x => validate_IssueEvent data = Valid x
  | EvIssueComment x => validate_IssueCommentEvent data = Valid x
  | EvCreate x => validate_CreateEvent data = Valid x
  | EvDelete x => validate_DeleteEvent data = Valid x
  | EvFork x => validate_ForkEvent data = Valid x
  | EvWorkflowRun x => validate_WorkflowRunEvent data = Valid x
  | EvRelease x => validate_ReleaseEvent data = Valid x
  | EvWatch x => validate_WatchEvent data = Valid x
  | EvMember x => validate_MemberEvent data = Valid x
  | EvPublic x => validate_PublicEvent data = Valid x
  end.

(** The three messages [load_evidence_from_json] raises [ValueError] with. *)
Definition load_error `{Library} (data : dict) : exn :=
  if dict_has "event_type" data then
    ValueError ("Unknown event_type: " ++ py_str (dict_get "event_type" data))
  else if dict_has "observation_type" data then
    ValueError ("Unknown observation_type: " ++ py_str (dict_get "observation_type" data))
  else ValueError "Data must contain 'event_type' or 'observation_type' field".

(** Validation failed, whatever the errors. *)
Definition rejected {A} (v : validation A) : bool :=
  match v with Valid _ => false | Invalid _ => true end.

(** Every item of the decoded list loads. *)
Definition all_load `{Library} (items : list json) : Prop :=
  forall j, j ∈ items -> exists e, load_item j = Return e.

End SerialSpecMore.

(** ** Further notions the properties of the verifier are stated with *)

Module VerifierSpecMore.
Import Schema Verifier VerifierSpec.

(** [d.get(k)] *)
Definition field (k : string) (d : dict) : json := default JNull (dict_get k d).

(** The observation types with a strategy of their own in the GitHub dispatch
    that fetches from the API. *)
Definition api_types : list string :=
  ["commit"; "issue"; "file"; "branch"; "tag"; "release"].

(** What an API strategy answers when the repository or the key attribute
    of the class is missing. *)
Definition missing_key_messages : list string :=
  ["No repository specified"; "No SHA specified"; "No issue number specified";
   "No file path specified"; "No branch name specified"; "No tag name specified"].

(** A computation that calls no source. *)
Definition silent {A} (m : M A) : Prop := snd m = [].

(** The query [_verify_gharchive_event] sends for an event. *)
Definition archive_query `{Sources} (e : AnyEvent) : call * outcome (list json) :=
  let base := event_base e in
  let repo := Some (full_name (e_repository base)) in
  let actor := Some (login (e_who base)) in
  let from_date := strftime (e_when base) in
  (CallQueryEvents repo actor from_date, query_events repo actor from_date).

(** An optional expectation: [if expected and actual != expected] finds no
    fault when nothing, or the empty string, is expected. *)
Definition expects_str (expected : option string) (actual : json) : bool :=
  match expected with
  | Some s => if str_truthy s then py_eq_str actual s else true
  | None => true
  end.

(** The state an issue or pull request is compared by: a merged pull
    request counts as "merged" whatever its [state]. *)
Definition reported_state (data : dict) : json :=
  if py_truthy (field "merged" data) then JStr "merged" else field "state" data.

(** The fetch of an issue observation: the pull-request endpoint or the
    issue endpoint. *)
Definition issue_fetch `{Sources} (i : IssueObservation) (ow n : string) : outcome json :=
  if io_is_pull_request i then get_pull_request ow n (io_issue_number i)
  else get_issue ow n (io_issue_number i).

(** The reference a file is fetched at. *)
Definition file_ref (f : FileObservation) : string :=
  if opt_str_truthy (fo_branch f) then default "HEAD" (fo_branch f) else "HEAD".

(** Whether the verification of a record returns, and then whether its
    result is valid. *)
Definition validity `{Sources} (e : AnyEvidence) : option bool :=
  match verdict e with
  | Return result => Some (is_valid result)
  | Raise _ => None
  end.

End VerifierSpecMore.

(** ** The local git client ([clients/git.py]) and the records collected from it *)

Module GitClient.
Import Schema.

Definition tab : ascii := "009"%char.
Definition newline : ascii := "010"%char.

(** [s.split(sep)] for a separator of one character: never empty, and the
    empty string between two adjacent separators. *)
Fixpoint split (sep : ascii) (s : string) : list string :=
  match s with
  | EmptyString => [EmptyString]
  | String c rest =>
      if Ascii.eqb c sep then EmptyString :: split sep rest
      else match split sep rest with
           | first :: others => String c first :: others
           | [] => [String c EmptyString]
           end
  end.

(** [status_map.get(letter, "modified")] *)
Definition status_map (letter : ascii) : string :=
  if Ascii.eqb letter "A" then "added"
  else if Ascii.eqb letter "M" then "modified"
  else if Ascii.eqb letter "D" then "removed"
  else if Ascii.eqb letter "R" then "renamed"
  else "modified".

(** An item of the list [get_commit_files] returns. *)
Record changed_file := { cf_status : string; cf_filename : string }.

(** The body of the loop of [get_commit_files] for a non-empty line:
    [parts[0][0]] raises when the line begins with a tab. *)
Definition parse_file_line (line : string) : outcome changed_file :=
  let parts := split tab line in
  match hd EmptyString parts with
  | String letter _ =>
      Return {| cf_status := status_map letter; cf_filename := List.last parts EmptyString |}
  | EmptyString => Raise (PyExn "IndexError" "string index out of range")
  end.

Fixpoint parse_file_lines (lines : list string) : outcome (list changed_file) :=
  match lines with
  | [] => Return []
  | line :: rest =>
      if str_truthy line then
        match parse_file_line line with
        | Raise x => Raise x
        | Return f =>
            match parse_file_lines rest with
            | Raise x => Raise x
            | Return fs => Return (f :: fs)
            end
        end
      else parse_file_lines rest
  end.

(** [get_commit_files], from the output of [git diff-tree --name-status]. *)
Definition get_commit_files (output : string) : outcome (list changed_file) :=
  parse_file_lines (split newline output).




End GitClient.

(** ** Further samples: sources that answer *)

Module SamplesMore.
Import Schema Samples.

(** What the API serves for [commit-1]. *)
Definition commit_response : json :=
  JObj [("sha", JStr deadbeef_sha);
        ("commit", JObj [("message", JStr "fix");
                         ("author", JObj [("name", JStr "octocat")])])].

(** Live sources where everything is found: the API serves [commit-1], an
    open issue and a merged pull request under any number, a file whose
    content is "payload"; pages are fetched; GH Archive credentials are
    configured and the archive has a row for every query. Base64 and
    SHA-256 are stood in for by the identity. *)
Definition live_sources : Verifier.Sources :=
  {| Verifier.get_commit := fun _ _ _ => Return commit_response;
     Verifier.get_issue := fun _ _ number =>
       Return (JObj [("number", JInt number); ("title", JStr "Bug"); ("state", JStr "open")]);
     Verifier.get_pull_request := fun _ _ number =>
       Return (JObj [("number", JInt number); ("state", JStr "closed");
                     ("merged", JBool true)]);
     Verifier.get_file := fun _ _ _ _ => Return (JObj [("content", JStr "payload")]);
     Verifier.get_branch := fun _ _ _ =>
       Return (JObj [("commit", JObj [("sha", JStr deadbeef_sha)])]);
     Verifier.get_tag := fun _ _ _ =>
       Return (JObj [("object", JObj [("sha", JStr deadbeef_sha)])]);
     Verifier.get_release := fun _ _ tag => Return (JObj [("tag_name", JStr tag)]);
     Verifier.requests_get := fun _ => Return "seen contacting evil.example.com";
     Verifier.is_request_exception := isinstance_RequestException;
     Verifier._get_client := Return tt;
     Verifier.query_events := fun _ _ _ => Return [JObj []];
     Verifier.strftime := fun _ => "202507132037";
     Verifier.b64decode_utf8 := fun s => Return s;
     Verifier.sha256_hexdigest := fun s => s;
     Verifier.lower := fun s => s;
     Verifier.format_value := fun _ => "?";
     Verifier.format_source := EvidenceSource_value |}.

Definition seen (id : string) (src : EvidenceSource) (link : option string) : Observation :=
  observed id None 1752525400000000 (verified_by src link) false.

(** A pull request recorded as closed; the API reports it merged. *)
Definition closed_pr : IssueObservation :=
  {| io_base := seen "pr-7" GITHUB None; io_issue_number := 7; io_is_pull_request := true;
     io_title := None; io_body := None; io_state := Some "closed" |}.

Definition a_file : FileObservation :=
  {| fo_base := seen "file-1" GITHUB None; fo_file_path := "README.md"; fo_branch := None;
     fo_content := "payload"; fo_content_hash := Some "payload"; fo_size_bytes := 7 |}.


(** A star event found in GH Archive. *)
Definition archived_star : AnyEvent :=
  EvWatch
    {| we_base :=
         {| e_evidence_id := "watch-2"; e_when := 1752439024000000;
            e_who := an_actor; e_what := "Starred";
            e_repository := a_repository;
            e_verification :=
              {| source := GHARCHIVE; url := None;
                 bigquery_table := Some "githubarchive.day.20250713"; query := None |} |} |}.

Definition vendor_report : string := "https://vendor.example/report".

(** An indicator taken from a vendor report. *)
Definition a_domain_ioc : IOC :=
  {| ioc_base := seen "ioc-1" SECURITY_VENDOR (Some vendor_report);
     ioc_ioc_type := "domain"; ioc_value := "evil.example.com";
     ioc_first_seen := None; ioc_last_seen := None; ioc_extracted_from := None |}.

End SamplesMore.

(** * Properties *)


(** ** The store *)

Module StoreTheory.
Import Schema Store StoreSpec.

Lemma elem_of_without_id id x l :
  x ∈ without_id id l <-> x ∈ l /\ evidence_id x <> id.
Proof.
  unfold without_id. rewrite !list_elem_of_In, filter_In, negb_true_iff.
  destruct (String.eqb_spec (evidence_id x) id); intuition congruence.
Qed.

Lemma with_id_without_id id l : with_id id (without_id id l) = [].
Proof.
  unfold with_id, without_id. induction l as [|a l IH]; simpl; [done|].
  destruct (String.eqb (evidence_id a) id) eqn:E; simpl; [done|].
  by rewrite E.
Qed.

Lemma with_id_app id l k : with_id id (l ++ k) = with_id id l ++ with_id id k.
Proof. unfold with_id. apply List.filter_app. Qed.

Lemma with_id_self e : with_id (evidence_id e) [e] = [e].
Proof. unfold with_id. simpl. by rewrite String.eqb_refl. Qed.

Lemma without_id_fresh id l :
  (forall x, x ∈ l -> evidence_id x <> id) -> without_id id l = l.
Proof.
  unfold without_id. induction l as [|a l IH]; intros Hl; simpl; [done|].
  destruct (String.eqb_spec (evidence_id a) id) as [E|E]; simpl.
  - exfalso. apply (Hl a); [left | done].
  - f_equal. apply IH. intros x Hx. apply Hl. by right.
Qed.

Lemma NoDup_ids_without_id id l :
  NoDup (map evidence_id l) -> NoDup (map evidence_id (without_id id l)).
Proof.
  unfold without_id. induction l as [|a l IH]; simpl; [done|].
  rewrite NoDup_cons. intros [Ha Hl].
  destruct (negb (String.eqb (evidence_id a) id)); simpl; [|by apply IH].
  apply NoDup_cons. split; [|by apply IH].
  intros Hin. apply Ha. apply list_elem_of_fmap in Hin as (y & Hy & Hin).
  apply list_elem_of_fmap. exists y. split; [done|].
  apply list_elem_of_In in Hin. apply filter_In in Hin as [Hin _].
  by apply list_elem_of_In.
Qed.

(** What [add] keeps of the list, whichever branch it takes. *)
Lemma add_kept s e :
  consistent s ->
  _evidence (add s e) = without_id (evidence_id e) (_evidence s) ++ [e].
Proof.
  intros [_ Hidx]. unfold add.
  destruct (_by_id s !! evidence_id e) eqn:E; simpl; [done|].
  rewrite without_id_fresh; [done|].
  intros x Hx Hid. assert (_by_id s !! evidence_id e = Some x) as Hs by (apply Hidx; done).
  congruence.
Qed.

Lemma consistent_empty : consistent empty.
Proof.
  split; simpl; [constructor|].
  intros k v. unfold index_by_id. simpl. rewrite lookup_empty.
  split; [done|]. intros [Hin _]. by apply elem_of_nil in Hin.
Qed.

Lemma consistent_add s e : consistent s -> consistent (add s e).
Proof.
  intros Hs. pose proof (add_kept s e Hs) as Hkept. destruct Hs as [Hnd Hidx].
  split.
  - rewrite Hkept, map_app. apply NoDup_app. split; [by apply NoDup_ids_without_id|].
    split; [|apply NoDup_singleton].
    intros k Hk Hk'. apply list_elem_of_fmap in Hk as (x & -> & Hx).
    apply elem_of_without_id in Hx as [_ Hne].
    simpl in Hk'. apply list_elem_of_singleton in Hk'. done.
  - intros k v. rewrite Hkept. simpl. rewrite elem_of_app, list_elem_of_singleton.
    rewrite elem_of_without_id.
    destruct (decide (evidence_id e = k)) as [<-|Hne].
    + rewrite lookup_insert_eq. split.
      * intros [= <-]. split; [by right | done].
      * intros [[[_ Hv] | ->] Hid]; [done | done].
    + rewrite lookup_insert_ne by done. rewrite Hidx. split.
      * intros [Hin <-]. split; [left; split; [done|congruence] | done].
      * intros [[[Hin _] | ->] Hid]; [done | done].
Qed.

Lemma consistent_add_all l : forall s, consistent s -> consistent (add_all s l).
Proof.
  unfold add_all. induction l as [|e l IH]; intros s Hs; simpl; [done|].
  apply IH. by apply consistent_add.
Qed.

Lemma consistent_remove s id : consistent s -> consistent (fst (remove s id)).
Proof.
  intros [Hnd Hidx]. unfold remove.
  destruct (_by_id s !! id) eqn:E; simpl; [|done].
  split; simpl; [by apply NoDup_ids_without_id|].
  intros k v. rewrite elem_of_without_id, lookup_delete_Some, Hidx.
  split.
  - intros [Hne [Hin <-]]. split; [split; [done | congruence] | done].
  - intros [[Hin Hne] <-]. split; [congruence | done].
Qed.

Lemma consistent_clear s : consistent (clear s).
Proof. apply consistent_empty. Qed.

Lemma consistent_merge s other : consistent s -> consistent (merge s other).
Proof. apply consistent_add_all. Qed.

Lemma consistent_apply s o : consistent s -> consistent (apply s o).
Proof.
  destruct o; simpl.
  - apply consistent_add.
  - apply consistent_add_all.
  - apply consistent_remove.
  - intros _. apply consistent_clear.
  - apply consistent_merge.
Qed.

Lemma consistent_run_from ops : forall s, consistent s -> consistent (fold_left apply ops s).
Proof.
  induction ops as [|o ops IH]; intros s Hs; simpl; [done|].
  apply IH. by apply consistent_apply.
Qed.

(** A consistent store holds as many records as its index has keys. *)
Lemma consistent_size (l : list AnyEvidence) :
  forall m : gmap string AnyEvidence,
    NoDup (map evidence_id l) ->
    (forall k v, m !! k = Some v <-> v ∈ l /\ evidence_id v = k) ->
    length l = size m.
Proof.
  induction l as [|a l IH]; intros m Hnd Hidx.
  - simpl. symmetry. apply map_size_empty_iff. apply map_eq. intros k.
    rewrite lookup_empty. destruct (m !! k) as [v|] eqn:E; [|done].
    apply Hidx in E as [Hin _]. by apply elem_of_nil in Hin.
  - simpl in Hnd. apply NoDup_cons in Hnd as [Ha Hnd].
    assert (m !! evidence_id a = Some a) as Hma by (apply Hidx; split; [left | done]).
    simpl. rewrite (IH (delete (evidence_id a) m) Hnd).
    + rewrite map_size_delete, Hma. simpl.
      assert (size m <> 0%nat); [|lia].
      apply map_size_non_empty_iff. intros ->. by rewrite lookup_empty in Hma.
    + intros k v. rewrite lookup_delete_Some, Hidx. split.
      * intros [Hne [Hin <-]]. apply elem_of_cons in Hin as [-> | Hin]; done.
      * intros [Hin <-]. split; [|split; [by right | done]].
        intros Heq. apply Ha. rewrite Heq. apply list_elem_of_fmap. by exists v.
Qed.

Lemma filter_no_criteria l : comprehension no_criteria l = Return l.
Proof.
  induction l as [|e l IH]; simpl; [done|]. rewrite IH.
  unfold matches, source_rejects, time_rejects. simpl.
  by destruct (_get_timestamp e).
Qed.

Lemma index_by_id_snoc l a :
  index_by_id (l ++ [a]) = <[evidence_id a := a]> (index_by_id l).
Proof. unfold index_by_id. by rewrite fold_left_app. Qed.

Lemma index_by_id_lookup l :
  NoDup (map evidence_id l) ->
  forall k v, index_by_id l !! k = Some v <-> v ∈ l /\ evidence_id v = k.
Proof.
  induction l as [|a l IH] using rev_ind.
  - intros _ k v. unfold index_by_id. simpl. rewrite lookup_empty.
    split; [done|]. intros [Hin _]. by apply elem_of_nil in Hin.
  - rewrite map_app, NoDup_app. intros (Hnd & Hfresh & _) k v.
    rewrite index_by_id_snoc, elem_of_app, list_elem_of_singleton.
    destruct (decide (evidence_id a = k)) as [<-|Hne].
    + rewrite lookup_insert_eq. split.
      * intros [= <-]. split; [by right | done].
      * intros [[Hin | ->] Hid]; [|done]. exfalso.
        apply (Hfresh (evidence_id a)); [|by left].
        apply list_elem_of_fmap. by exists v.
    + rewrite lookup_insert_ne by done. rewrite (IH Hnd). split.
      * intros [Hin <-]. split; [by left | done].
      * intros [[Hin | ->] Hid]; done.
Qed.

(** A consistent store is the store its own records construct. *)
Lemma init_consistent s : consistent s -> init (_evidence s) = s.
Proof.
  destruct s as [l m]. intros [Hnd Hidx]. unfold init. simpl in *. f_equal.
  apply map_eq. intros k. apply option_eq. intros v.
  rewrite (index_by_id_lookup l Hnd). symmetry. apply Hidx.
Qed.

Lemma consistent_run ops : consistent (run ops).
Proof. apply consistent_run_from, consistent_empty. Qed.

Lemma matches_bounds after before x :
  matches (bounds after before) x
  = Return (match _get_timestamp x with
            | Some t => in_range after before t
            | None => true
            end).
Proof.
  unfold matches, source_rejects, time_rejects, in_range. simpl.
  destruct (_get_timestamp x) as [t|]; [|done].
  destruct after as [a|], before as [b|]; simpl;
    rewrite ?Z.gtb_ltb, ?Z.ltb_antisym, ?orb_false_r;
    repeat match goal with |- context [?a <=? ?b] => destruct (a <=? b) end; done.
Qed.

Lemma comprehension_bounds after before l :
  comprehension (bounds after before) l
  = Return (List.filter
              (fun x => match _get_timestamp x with
                        | Some t => in_range after before t
                        | None => true
                        end) l).
Proof.
  induction l as [|x l IH]; simpl; [done|].
  by rewrite matches_bounds, IH.
Qed.

(** C2 (upsert replacement). When the id of [e] is already in the store,
    [add] leaves exactly one record with that id, the record [e] itself,
    and [get] returns [e] whole; adding [e] to any store twice leaves
    exactly one record with its id, again [e]. *)
Theorem add_upsert (s : EvidenceStore) (e : AnyEvidence) :
  (is_Some (get s (evidence_id e)) ->
   with_id (evidence_id e) (iter (add s e)) = [e]
   /\ get (add s e) (evidence_id e) = Some e)
  /\ with_id (evidence_id e) (iter (add (add s e) e)) = [e]
  /\ get (add (add s e) e) (evidence_id e) = Some e.
Proof.
  assert (forall s', is_Some (get s' (evidence_id e)) ->
            with_id (evidence_id e) (iter (add s' e)) = [e]
            /\ get (add s' e) (evidence_id e) = Some e) as Hreplace.
  { intros s' [old Hold]. unfold get in Hold. unfold add, iter, get. rewrite Hold. simpl.
    split; [|apply lookup_insert_eq].
    by rewrite with_id_app, with_id_without_id, with_id_self. }
  split; [apply Hreplace|].
  apply Hreplace. exists e. unfold get, add. simpl. apply lookup_insert_eq.
Qed.

(** C9 (index consistency). In every store reached from the empty store by
    [add], [add_all], [remove], [clear] and [merge], no two records of the
    list share an id and the index maps an id to exactly the record of the
    list with that id; hence [len] is the number of indexed ids, membership
    and [get] agree with iteration, and an unconstrained [filter] returns
    the iterated collection. *)
Theorem store_index_consistent (ops : list operation) :
  NoDup (map evidence_id (iter (run ops)))
  /\ (forall k v, get (run ops) k = Some v <-> v ∈ iter (run ops) /\ evidence_id v = k)
  /\ len (run ops) = size (_by_id (run ops))
  /\ (forall k, contains (run ops) k = true <-> k ∈ map evidence_id (iter (run ops)))
  /\ filter (run ops) no_criteria = Return (iter (run ops)).
Proof.
  pose proof (consistent_run_from ops empty consistent_empty) as Hc.
  fold (run ops) in Hc. destruct Hc as [Hnd Hidx].
  split; [done|]. split; [done|].
  split; [by apply consistent_size|].
  split; [|apply filter_no_criteria].
  intros k. unfold contains, iter. split.
  - destruct (_by_id (run ops) !! k) as [v|] eqn:E; [|done]. intros _.
    apply Hidx in E as [Hin <-]. apply list_elem_of_fmap. by exists v.
  - intros Hk. apply list_elem_of_fmap in Hk as (v & -> & Hin).
    assert (_by_id (run ops) !! evidence_id v = Some v) as -> by (by apply Hidx).
    done.
Qed.

(** C7 (timestamp priority). For an observation whose [original_when] is
    set, the timestamp a range filter compares is [original_when],
    whatever [observed_when] is: the observation is kept exactly when
    [original_when] lies within the bounds. For an event the timestamp is
    [when]. *)
Theorem filter_timestamp_priority
    (o : AnyObservation) (t : datetime) (after before : option datetime) :
  o_original_when (observation_base o) = Some t ->
  _get_timestamp (Obs o) = Some t
  /\ matches (bounds after before) (Obs o) = Return (in_range after before t)
  /\ (forall s, Obs o ∈ iter s ->
        exists kept, filter s (bounds after before) = Return kept
                     /\ (Obs o ∈ kept <-> in_range after before t = true))
  /\ (forall e, _get_timestamp (Ev e) = Some (e_when (event_base e))
                /\ matches (bounds after before) (Ev e)
                   = Return (in_range after before (e_when (event_base e)))).
Proof.
  intros Hwhen.
  assert (_get_timestamp (Obs o) = Some t) as Hts by (simpl; by rewrite Hwhen).
  split; [done|]. split; [by rewrite matches_bounds, Hts|]. split.
  - intros s Hin. eexists. split; [apply comprehension_bounds|].
    rewrite list_elem_of_In, filter_In, <- list_elem_of_In, Hts. tauto.
  - intros e. split; [done|]. by rewrite matches_bounds.
Qed.

End StoreTheory.

(** ** Serialization *)

Module SerialTheory.
Import Schema Serial SerialSpec.

Section RoundTrip.
Context `{L : Library}.

(** The library's text form of a datetime parses back to the datetime. *)
Hypothesis fromisoformat_isoformat : forall t, fromisoformat (isoformat t) = Some t.

(** *** Field types *)

Lemma v_optional_dump {A} (v : json -> validation A) (d : A -> json) (o : option A) :
  (forall a, d a <> JNull) ->
  (forall a, o = Some a -> v (d a) = Valid a) ->
  v_optional v (d_opt d o) = Valid o.
Proof.
  intros Hn Hv. destruct o as [a|]; [|reflexivity].
  unfold v_optional, d_opt. specialize (Hn a). specialize (Hv a eq_refl).
  destruct (d a); try congruence; rewrite Hv; reflexivity.
Qed.

Lemma v_items_dump {A} (v : json -> validation A) (d : A -> json) (l : list A) :
  (forall a, a ∈ l -> v (d a) = Valid a) ->
  forall i, v_items v i (map d l) = Valid l.
Proof.
  induction l as [|a l IH]; intros Hv i; simpl; [reflexivity|].
  rewrite Hv by left. rewrite IH; [reflexivity|].
  intros b Hb. apply Hv. by right.
Qed.

Lemma v_list_dump {A} (v : json -> validation A) (d : A -> json) (l : list A) :
  (forall a, a ∈ l -> v (d a) = Valid a) ->
  v_list v (d_list d l) = Valid l.
Proof. intros Hv. by apply v_items_dump. Qed.

Lemma v_datetime_dump t : v_datetime (d_datetime t) = Valid t.
Proof. unfold v_datetime, d_datetime. by rewrite fromisoformat_isoformat. Qed.

Lemma v_source_dump s : v_source (d_source s) = Valid s.
Proof. by destruct s. Qed.

Lemma v_one_of_dump values s :
  is_one_of values s = true -> v_one_of values (JStr s) = Valid s.
Proof. unfold is_one_of, v_one_of. by intros ->. Qed.

Lemma v_url_dump u : is_http_url u = true -> v_url (JStr u) = Valid u.
Proof.
  unfold is_http_url, v_url. destruct (http_url u) as [u'|]; [|done].
  by intros ->%String.eqb_eq.
Qed.

Lemma v_str_len_dump s : (String.length s =? 40)%nat = true -> v_str_len 40 40 (JStr s) = Valid s.
Proof. intros E%Nat.eqb_eq. unfold v_str_len. by rewrite E. Qed.

Lemma opt_str_dump o : v_optional v_str (d_opt JStr o) = Valid o.
Proof. by apply v_optional_dump. Qed.

Lemma opt_int_dump o : v_optional v_int (d_opt JInt o) = Valid o.
Proof. by apply v_optional_dump. Qed.

Lemma opt_datetime_dump o : v_optional v_datetime (d_opt d_datetime o) = Valid o.
Proof. apply v_optional_dump; [done|]. intros. apply v_datetime_dump. Qed.

Lemma opt_one_of_dump values o :
  holds_opt (is_one_of values) o = true ->
  v_optional (v_one_of values) (d_opt JStr o) = Valid o.
Proof.
  intros Ho. apply v_optional_dump; [done|]. intros a ->. by apply v_one_of_dump.
Qed.

Lemma opt_url_dump o :
  holds_opt is_http_url o = true -> v_optional v_url (d_opt JStr o) = Valid o.
Proof.
  intros Ho. apply v_optional_dump; [done|]. intros a ->. by apply v_url_dump.
Qed.

Lemma str_list_dump l : v_list v_str (d_list JStr l) = Valid l.
Proof. by apply v_list_dump. Qed.

(** Reads of a dumped field: the key is found by comparing key texts. *)
Ltac lookups :=
  cbn [app dict_get dict_has String.eqb Ascii.eqb Bool.eqb andb
       required defaulted discriminator
       dump_GitHubActor dump_GitHubRepository dump_VerificationInfo
       dump_Event dump_Observation dump_CommitInPush dump_CommitAuthor
       dump_FileChange dump_WaybackSnapshot].

Ltac conjuncts :=
  repeat match goal with
         | H : (_ && _) = true |- _ => apply andb_true_iff in H; destruct H
         end.

Ltac fields :=
  lookups;
  repeat first
    [ rewrite opt_str_dump
    | rewrite opt_int_dump
    | rewrite opt_datetime_dump
    | rewrite v_datetime_dump
    | rewrite v_source_dump
    | rewrite str_list_dump
    | rewrite opt_one_of_dump by assumption
    | rewrite opt_url_dump by assumption
    | rewrite v_one_of_dump by assumption
    | rewrite v_url_dump by assumption
    | rewrite v_str_len_dump by assumption ];
  try reflexivity.

(** *** The common models *)

Lemma GitHubActor_dump a : validate_GitHubActor (dump_GitHubActor a) = Valid a.
Proof. destruct a. unfold validate_GitHubActor. fields. Qed.

Lemma GitHubRepository_dump r :
  validate_GitHubRepository (dump_GitHubRepository r) = Valid r.
Proof. destruct r. unfold validate_GitHubRepository. fields. Qed.

Lemma VerificationInfo_dump v :
  constructed_VerificationInfo v = true ->
  validate_VerificationInfo (dump_VerificationInfo v) = Valid v.
Proof.
  destruct v. unfold constructed_VerificationInfo, validate_VerificationInfo.
  simpl. intros Hurl. fields.
Qed.

Lemma Event_dump e rest :
  constructed_VerificationInfo (e_verification e) = true ->
  validate_Event (dump_Event e ++ rest) = Valid e.
Proof.
  destruct e. simpl. intros Hv. unfold validate_Event. lookups.
  unfold v_model. rewrite GitHubActor_dump, GitHubRepository_dump, VerificationInfo_dump by done.
  fields.
Qed.

Lemma CommitInPush_dump c : validate_CommitInPush (dump_CommitInPush c) = Valid c.
Proof. destruct c. unfold validate_CommitInPush. fields. Qed.

(** An event of each class: the dump, validated as that class, is the event. *)
Ltac event_class validate :=
  let e := fresh "e" in
  let He := fresh "He" in
  intros e He; destruct e; unfold constructed_AnyEvent in He; simpl in He; conjuncts;
  unfold validate;
  cbv beta delta [dump_PushEvent dump_PullRequestEvent dump_IssueEvent
    dump_IssueCommentEvent dump_CreateEvent dump_DeleteEvent dump_ForkEvent
    dump_WorkflowRunEvent dump_ReleaseEvent dump_WatchEvent dump_MemberEvent dump_PublicEvent];
  cbn [push_base pr_base ie_base ic_base cr_base de_base fe_base wf_base re_base we_base
    me_base pe_base];
  rewrite Event_dump by assumption; fields.

Lemma PushEvent_dump :
  forall e, constructed_AnyEvent (EvPush e) = true ->
            validate_PushEvent (dump_PushEvent e) = Valid e.
Proof.
  event_class @validate_PushEvent.
  rewrite (v_list_dump (v_model validate_CommitInPush)); [reflexivity|].
  intros c _. apply CommitInPush_dump.
Qed.

Lemma PullRequestEvent_dump :
  forall e, constructed_AnyEvent (EvPullRequest e) = true ->
            validate_PullRequestEvent (dump_PullRequestEvent e) = Valid e.
Proof. event_class @validate_PullRequestEvent. Qed.

Lemma IssueEvent_dump :
  forall e, constructed_AnyEvent (EvIssue e) = true ->
            validate_IssueEvent (dump_IssueEvent e) = Valid e.
Proof. event_class @validate_IssueEvent. Qed.

Lemma IssueCommentEvent_dump :
  forall e, constructed_AnyEvent (EvIssueComment e) = true ->
            validate_IssueCommentEvent (dump_IssueCommentEvent e) = Valid e.
Proof. event_class @validate_IssueCommentEvent. Qed.

Lemma CreateEvent_dump :
  forall e, constructed_AnyEvent (EvCreate e) = true ->
            validate_CreateEvent (dump_CreateEvent e) = Valid e.
Proof. event_class @validate_CreateEvent. Qed.

Lemma DeleteEvent_dump :
  forall e, constructed_AnyEvent (EvDelete e) = true ->
            validate_DeleteEvent (dump_DeleteEvent e) = Valid e.
Proof. event_class @validate_DeleteEvent. Qed.

Lemma ForkEvent_dump :
  forall e, constructed_AnyEvent (EvFork e) = true ->
            validate_ForkEvent (dump_ForkEvent e) = Valid e.
Proof. event_class @validate_ForkEvent. Qed.

Lemma WorkflowRunEvent_dump :
  forall e, constructed_AnyEvent (EvWorkflowRun e) = true ->
            validate_WorkflowRunEvent (dump_WorkflowRunEvent e) = Valid e.
Proof. event_class @validate_WorkflowRunEvent. Qed.

Lemma ReleaseEvent_dump :
  forall e, constructed_AnyEvent (EvRelease e) = true ->
            validate_ReleaseEvent (dump_ReleaseEvent e) = Valid e.
Proof. event_class @validate_ReleaseEvent. Qed.

Lemma WatchEvent_dump :
  forall e, constructed_AnyEvent (EvWatch e) = true ->
            validate_WatchEvent (dump_WatchEvent e) = Valid e.
Proof. event_class @validate_WatchEvent. Qed.

Lemma MemberEvent_dump :
  forall e, constructed_AnyEvent (EvMember e) = true ->
            validate_MemberEvent (dump_MemberEvent e) = Valid e.
Proof.
  event_class @validate_MemberEvent.
  unfold v_model. rewrite GitHubActor_dump. reflexivity.
Qed.

Lemma PublicEvent_dump :
  forall e, constructed_AnyEvent (EvPublic e) = true ->
            validate_PublicEvent (dump_PublicEvent e) = Valid e.
Proof. event_class @validate_PublicEvent. Qed.

Lemma opt_actor_dump o :
  v_optional (v_model validate_GitHubActor) (d_opt (fun a => JObj (dump_GitHubActor a)) o)
  = Valid o.
Proof. apply v_optional_dump; [done|]. intros a _. apply GitHubActor_dump. Qed.

Lemma opt_repository_dump o :
  v_optional (v_model validate_GitHubRepository)
             (d_opt (fun r => JObj (dump_GitHubRepository r)) o)
  = Valid o.
Proof. apply v_optional_dump; [done|]. intros r _. apply GitHubRepository_dump. Qed.

Lemma Observation_dump o rest :
  constructed_VerificationInfo (o_verification o) = true ->
  validate_Observation (dump_Observation o ++ rest) = Valid o.
Proof.
  destruct o. simpl. intros Hv. unfold validate_Observation. lookups.
  rewrite opt_actor_dump, opt_repository_dump.
  unfold v_model. rewrite VerificationInfo_dump by done.
  fields.
Qed.

Lemma CommitAuthor_dump a : validate_CommitAuthor (dump_CommitAuthor a) = Valid a.
Proof. destruct a. unfold validate_CommitAuthor. fields. Qed.

Lemma FileChange_dump f :
  constructed_FileChange f = true -> validate_FileChange (dump_FileChange f) = Valid f.
Proof.
  destruct f. unfold constructed_FileChange, validate_FileChange. simpl. intros Hs. fields.
Qed.

Lemma WaybackSnapshot_dump w : validate_WaybackSnapshot (dump_WaybackSnapshot w) = Valid w.
Proof. destruct w. unfold validate_WaybackSnapshot. fields. Qed.

Ltac observation_class validate :=
  let o := fresh "o" in
  let Ho := fresh "Ho" in
  intros o Ho; destruct o; unfold constructed_AnyObservation in Ho; simpl in Ho; conjuncts;
  unfold validate;
  cbv beta delta [dump_CommitObservation dump_IssueObservation dump_FileObservation
    dump_ForkObservation dump_BranchObservation dump_TagObservation dump_ReleaseObservation
    dump_SnapshotObservation dump_IOC dump_ArticleObservation];
  cbn [co_base io_base fo_base fk_base br_base tg_base rl_base sn_base ioc_base ar_base];
  rewrite Observation_dump by assumption; fields.

Lemma CommitObservation_dump :
  forall o, constructed_AnyObservation (ObsCommit o) = true ->
            validate_CommitObservation (dump_CommitObservation o) = Valid o.
Proof.
  observation_class @validate_CommitObservation.
  unfold v_model at 1 2. rewrite !CommitAuthor_dump.
  rewrite (v_list_dump (v_model validate_FileChange)); [reflexivity|].
  intros f Hf. apply FileChange_dump.
  match goal with H : forallb _ _ = true |- _ => rewrite forallb_forall in H; apply H end.
  by apply list_elem_of_In.
Qed.

Lemma IssueObservation_dump :
  forall o, constructed_AnyObservation (ObsIssue o) = true ->
            validate_IssueObservation (dump_IssueObservation o) = Valid o.
Proof. observation_class @validate_IssueObservation. Qed.

Lemma FileObservation_dump :
  forall o, constructed_AnyObservation (ObsFile o) = true ->
            validate_FileObservation (dump_FileObservation o) = Valid o.
Proof. observation_class @validate_FileObservation. Qed.

Lemma ForkObservation_dump :
  forall o, constructed_AnyObservation (ObsFork o) = true ->
            validate_ForkObservation (dump_ForkObservation o) = Valid o.
Proof. observation_class @validate_ForkObservation. Qed.

Lemma BranchObservation_dump :
  forall o, constructed_AnyObservation (ObsBranch o) = true ->
            validate_BranchObservation (dump_BranchObservation o) = Valid o.
Proof. observation_class @validate_BranchObservation. Qed.

Lemma TagObservation_dump :
  forall o, constructed_AnyObservation (ObsTag o) = true ->
            validate_TagObservation (dump_TagObservation o) = Valid o.
Proof. observation_class @validate_TagObservation. Qed.

Lemma ReleaseObservation_dump :
  forall o, constructed_AnyObservation (ObsRelease o) = true ->
            validate_ReleaseObservation (dump_ReleaseObservation o) = Valid o.
Proof. observation_class @validate_ReleaseObservation. Qed.

Lemma SnapshotObservation_dump :
  forall o, constructed_AnyObservation (ObsSnapshot o) = true ->
            validate_SnapshotObservation (dump_SnapshotObservation o) = Valid o.
Proof.
  observation_class @validate_SnapshotObservation.
  rewrite (v_list_dump (v_model validate_WaybackSnapshot)); [reflexivity|].
  intros w _. apply WaybackSnapshot_dump.
Qed.

Lemma IOC_dump :
  forall o, constructed_AnyObservation (ObsIOC o) = true ->
            validate_IOC (dump_IOC o) = Valid o.
Proof. observation_class @validate_IOC. Qed.

Lemma ArticleObservation_dump :
  forall o, constructed_AnyObservation (ObsArticle o) = true ->
            validate_ArticleObservation (dump_ArticleObservation o) = Valid o.
Proof. observation_class @validate_ArticleObservation. Qed.

(** *** The unions and the loader *)

Lemma dumped_event_type e :
  dict_get "event_type" (dump_AnyEvent e) = Some (JStr (event_type e)).
Proof. by destruct e. Qed.

Lemma dumped_observation_type o :
  dict_get "event_type" (dump_AnyObservation o) = None
  /\ dict_get "observation_type" (dump_AnyObservation o) = Some (JStr (observation_type o)).
Proof. by destruct o. Qed.

Lemma event_adapter_dump e :
  constructed_AnyEvent e = true -> _event_adapter (dump_AnyEvent e) = Valid e.
Proof.
  intros He. unfold _event_adapter, validate_python. rewrite dumped_event_type.
  destruct e; cbn [event_type union_member _EventUnion String.eqb Ascii.eqb Bool.eqb andb
                   dump_AnyEvent].
  - by rewrite PushEvent_dump.
  - by rewrite PullRequestEvent_dump.
  - by rewrite IssueEvent_dump.
  - by rewrite IssueCommentEvent_dump.
  - by rewrite CreateEvent_dump.
  - by rewrite DeleteEvent_dump.
  - by rewrite ForkEvent_dump.
  - by rewrite WorkflowRunEvent_dump.
  - by rewrite ReleaseEvent_dump.
  - by rewrite WatchEvent_dump.
  - by rewrite MemberEvent_dump.
  - by rewrite PublicEvent_dump.
Qed.

Lemma observation_adapter_dump o :
  constructed_AnyObservation o = true ->
  _observation_adapter (dump_AnyObservation o) = Valid o.
Proof.
  intros Ho. unfold _observation_adapter, validate_python.
  rewrite (proj2 (dumped_observation_type o)).
  destruct o; cbn [observation_type union_member _ObservationUnion String.eqb Ascii.eqb
                   Bool.eqb andb dump_AnyObservation].
  - by rewrite CommitObservation_dump.
  - by rewrite IssueObservation_dump.
  - by rewrite FileObservation_dump.
  - by rewrite ForkObservation_dump.
  - by rewrite BranchObservation_dump.
  - by rewrite TagObservation_dump.
  - by rewrite ReleaseObservation_dump.
  - by rewrite SnapshotObservation_dump.
  - by rewrite IOC_dump.
  - by rewrite ArticleObservation_dump.
Qed.

Lemma load_model_dump e :
  constructed e = true -> load_evidence_from_json (model_dump e) = Return e.
Proof.
  intros He. unfold load_evidence_from_json, dict_has. destruct e as [e|o]; simpl in *.
  - by rewrite dumped_event_type, event_adapter_dump.
  - destruct (dumped_observation_type o) as [-> ->]. by rewrite observation_adapter_dump.
Qed.

Lemma load_all_dumps l :
  Forall (fun e => constructed e = true) l ->
  load_all (map (fun e => JObj (model_dump e)) l) = Return l.
Proof.
  induction 1 as [|e l He _ IH]; simpl; [done|].
  by rewrite load_model_dump, IH.
Qed.

(** The JSON text codec decodes what it encoded. *)
Hypothesis json_loads_dumps : forall j, json_loads (json_dumps j) = Some j.

(** C1 (serialization round trip). A constructed record of any of the
    twenty-two classes, dumped and loaded back, is the same record: same
    class, same discriminator, every field equal. Hence a store written
    with [to_json] and read with [from_json] holds the same records in the
    same order, and a store built by the store's operations is read back
    as it was. *)
Theorem serialization_round_trip :
  (forall e, constructed e = true ->
     load_evidence_from_json (model_dump e) = Return e)
  /\ (forall s, Forall (fun e => constructed e = true) (Store._evidence s) ->
        from_json (to_json s) = Return (Store.init (Store._evidence s)))
  /\ (forall ops,
        Forall (fun e => constructed e = true) (Store.iter (StoreSpec.run ops)) ->
        from_json (to_json (StoreSpec.run ops)) = Return (StoreSpec.run ops)).
Proof.
  assert (forall s, Forall (fun e => constructed e = true) (Store._evidence s) ->
            from_json (to_json s) = Return (Store.init (Store._evidence s))) as Hstore.
  { intros s Hs. unfold from_json, to_json. rewrite json_loads_dumps. simpl.
    by rewrite load_all_dumps. }
  split; [apply load_model_dump|]. split; [done|].
  intros ops Hops. rewrite (Hstore _ Hops).
  by rewrite (StoreTheory.init_consistent _ (StoreTheory.consistent_run ops)).
Qed.

End RoundTrip.
Section Loader.
Context `{L : Library}.

Ltac no_member :=
  unfold is_one_of; cbn [existsb event_type_values observation_type_values];
  intros Hno;
  repeat (apply orb_false_iff in Hno; destruct Hno as [? Hno]);
  unfold _EventUnion, _ObservationUnion; cbn [union_member];
  repeat match goal with
         | H : String.eqb _ _ = false |- _ => rewrite H; clear H
         end;
  reflexivity.

Lemma union_member_event tag :
  is_one_of event_type_values tag = false -> union_member tag _EventUnion = None.
Proof. no_member. Qed.

Lemma union_member_observation tag :
  is_one_of observation_type_values tag = false ->
  union_member tag _ObservationUnion = None.
Proof. no_member. Qed.

Lemma adapter_unrecognized {A} key values (union : list (string * (dict -> validation A)))
    data v :
  (forall tag, is_one_of values tag = false -> union_member tag union = None) ->
  dict_get key data = Some v ->
  recognized values v = false ->
  exists errs, validate_python key union data = Invalid errs.
Proof.
  intros Hunion Hget Hrec. unfold validate_python. rewrite Hget.
  destruct v; try (by eexists).
  simpl in Hrec. rewrite (Hunion _ Hrec). by eexists.
Qed.

Lemma v_map_valid {A B} (f : A -> B) x r :
  v_map f x = Valid r -> exists a, x = Valid a /\ r = f a.
Proof. destruct x; simpl; [|done]. intros [= <-]. by eexists. Qed.

Lemma at_loc_valid {A} k (x : validation A) r : at_loc k x = Valid r -> x = Valid r.
Proof. by destruct x. Qed.

(** A validated event carries the tag that picked its class. *)
Lemma event_adapter_valid data e :
  _event_adapter data = Valid e ->
  dict_get "event_type" data = Some (JStr (event_type e)).
Proof.
  unfold _event_adapter, validate_python.
  destruct (dict_get "event_type" data) as [[| | |tag| |]|]; try done.
  unfold _EventUnion. cbn [union_member].
  repeat match goal with
         | |- context [String.eqb tag ?t] =>
             destruct (String.eqb_spec tag t) as [->|_];
             [cbv beta iota; intros H%at_loc_valid%v_map_valid;
              by destruct H as (? & _ & ->)|]
         end.
  done.
Qed.

Lemma observation_adapter_valid data o :
  _observation_adapter data = Valid o ->
  dict_get "observation_type" data = Some (JStr (observation_type o))
  /\ validated_as data o.
Proof.
  unfold _observation_adapter, validate_python.
  destruct (dict_get "observation_type" data) as [[| | |tag| |]|]; try done.
  unfold _ObservationUnion. cbn [union_member].
  repeat match goal with
         | |- context [String.eqb tag ?t] =>
             destruct (String.eqb_spec tag t) as [->|_];
             [cbv beta iota; intros H%at_loc_valid%v_map_valid;
              by destruct H as (? & ? & ->)|]
         end.
  done.
Qed.

Lemma py_str_tag tag : py_str (Some (JStr tag)) = tag.
Proof. reflexivity. Qed.

(** C6 (deserialization errors). A record with neither discriminator is
    refused with a [ValueError]; a record whose discriminator is not one of
    the values of its union is refused with a [ValueError] that quotes the
    value; and a record that does load has the class its discriminator
    names, never another one. *)
Theorem load_rejects_unclassified (data : dict) :
  (dict_get "event_type" data = None ->
   dict_get "observation_type" data = None ->
   load_evidence_from_json data
   = Raise (ValueError "Data must contain 'event_type' or 'observation_type' field"))
  /\ (forall v, dict_get "event_type" data = Some v ->
                recognized event_type_values v = false ->
                load_evidence_from_json data
                = Raise (ValueError ("Unknown event_type: " ++ py_str (Some v))%string))
  /\ (forall v, dict_get "event_type" data = None ->
                dict_get "observation_type" data = Some v ->
                recognized observation_type_values v = false ->
                load_evidence_from_json data
                = Raise (ValueError ("Unknown observation_type: " ++ py_str (Some v))%string))
  /\ (forall e, load_evidence_from_json data = Return e ->
                match e with
                | Ev e => dict_get "event_type" data = Some (JStr (event_type e))
                | Obs o => dict_get "event_type" data = None
                           /\ dict_get "observation_type" data
                              = Some (JStr (observation_type o))
                end).
Proof.
  unfold load_evidence_from_json, dict_has. repeat split.
  - by intros -> ->.
  - intros v Hv Hrec. rewrite Hv.
    destruct (adapter_unrecognized "event_type" event_type_values _EventUnion data v
                union_member_event Hv Hrec) as [errs Herr].
    unfold _event_adapter. by rewrite Herr.
  - intros v -> Hv Hrec. rewrite Hv.
    destruct (adapter_unrecognized "observation_type" observation_type_values
                _ObservationUnion data v union_member_observation Hv Hrec) as [errs Herr].
    unfold _observation_adapter. by rewrite Herr.
  - destruct e as [e|o].
    + destruct (dict_get "event_type" data) eqn:Et.
      * destruct (_event_adapter data) eqn:Ea; [|done].
        intros [= ->]. rewrite <- Et. by apply event_adapter_valid.
      * destruct (dict_get "observation_type" data); [|done].
        by destruct (_observation_adapter data).
    + destruct (dict_get "event_type" data) eqn:Et.
      * by destruct (_event_adapter data).
      * destruct (dict_get "observation_type" data) eqn:Eo; [|done].
        destruct (_observation_adapter data) eqn:Ea; [|done].
        intros [= ->]. split; [done|]. rewrite <- Eo.
        by apply observation_adapter_valid.
Qed.

(** *** Commit hashes *)

Lemma v_ap_valid {A B} (f : validation (A -> B)) (x : validation A) r :
  f <*> x = Valid r -> exists f' a, f = Valid f' /\ x = Valid a /\ r = f' a.
Proof. destruct f, x; simpl; try done. intros [= <-]. by do 2 eexists. Qed.

Lemma reports_ap_r {A B} k (f : validation (A -> B)) (x : validation A) :
  reports k x -> reports k (f <*> x).
Proof.
  intros (errs & -> & Hk). destruct f as [f|errs']; simpl.
  - by exists errs.
  - exists (errs' ++ errs). split; [done|]. apply Exists_app. by right.
Qed.

Lemma reports_ap_l {A B} k (f : validation (A -> B)) (x : validation A) :
  reports k f -> reports k (f <*> x).
Proof.
  intros (errs & -> & Hk). destruct x as [x|errs']; simpl.
  - by exists errs.
  - exists (errs ++ errs'). split; [done|]. apply Exists_app. by left.
Qed.

Lemma required_sha_length d s :
  required "sha" (v_str_len 40 40) d = Valid s -> String.length s = 40%nat.
Proof.
  unfold required. destruct (dict_get "sha" d) as [j|]; [|done].
  intros Hs%at_loc_valid. destruct j; try done. unfold v_str_len in Hs.
  destruct (Nat.ltb_spec (String.length s0) 40); [done|].
  destruct (Nat.ltb_spec 40 (String.length s0)); [done|].
  injection Hs as <-. lia.
Qed.

Lemma required_sha_reports d s :
  dict_get "sha" d = Some (JStr s) ->
  String.length s <> 40%nat ->
  reports "sha" (required "sha" (v_str_len 40 40) d).
Proof.
  intros Hget Hlen. unfold required, v_str_len. rewrite Hget.
  destruct (Nat.ltb_spec (String.length s) 40).
  - eexists. split; [reflexivity|]. by left.
  - destruct (Nat.ltb_spec 40 (String.length s)); [|lia].
    eexists. split; [reflexivity|]. by left.
Qed.

Lemma validated_commit_sha d o :
  validate_CommitObservation d = Valid o -> String.length (co_sha o) = 40%nat.
Proof.
  unfold validate_CommitObservation, tagged. intros H.
  repeat match goal with
         | E : _ <*> _ = Valid _ |- _ =>
             apply v_ap_valid in E as (? & ? & E & ? & ->)
         end.
  repeat match goal with
         | E : Valid _ = Valid _ |- _ => injection E as <-
         end.
  simpl. by eapply required_sha_length.
Qed.

(** C8, as the code has it (commit hash validation). A constructed or
    deserialized commit observation has a [sha] of exactly 40 characters,
    whatever the characters are; construction fails for a [sha] of any other
    length, with an error located at the field [sha]. *)
Theorem commit_sha_forty_characters :
  (forall d o, validate_CommitObservation d = Valid o ->
               String.length (co_sha o) = 40%nat)
  /\ (forall d o, load_evidence_from_json d = Return (Obs (ObsCommit o)) ->
                  String.length (co_sha o) = 40%nat)
  /\ (forall d s, dict_get "sha" d = Some (JStr s) ->
                  String.length s <> 40%nat ->
                  reports "sha" (validate_CommitObservation d)).
Proof.
  split; [apply validated_commit_sha|]. split.
  - intros d o. unfold load_evidence_from_json.
    destruct (dict_has "event_type" d); [by destruct (_event_adapter d)|].
    destruct (dict_has "observation_type" d); [|done].
    destruct (_observation_adapter d) eqn:Ea; [|done].
    intros [= ->]. apply observation_adapter_valid in Ea as [_ Hc].
    by eapply validated_commit_sha.
  - intros d s Hget Hlen. unfold validate_CommitObservation.
    do 6 apply reports_ap_l. apply reports_ap_r. by eapply required_sha_reports.
Qed.

End Loader.

End SerialTheory.

(** ** The consistency verifier *)

Module VerifierTheory.
Import Schema Verifier VerifierSpec.

Section Verification.
Context `{S : Sources}.

(** C4 (unknown source rejection). A record whose verification source has
    no strategy for its root kind is verified as invalid, with the single
    error "Unknown verification source ..."; no source is consulted and
    nothing is raised. Every member of [EvidenceSource] is registered for
    observations, so the records this applies to are events. *)
Theorem unknown_source_rejected (e : AnyEvidence) :
  recognized_source e = false ->
  exists result,
    verdict e = Return result
    /\ is_valid result = false
    /\ (exists msg, errors result = [msg]
                    /\ String.prefix "Unknown verification source" msg = true)
    /\ snd (verify e) = [].
Proof.
  unfold recognized_source, verdict. destruct e as [e|o]; simpl.
  - unfold _verify_event. destruct (source (e_verification (event_base e))); simpl; try done.
    all: intros _; eexists; split; [reflexivity|]; split; [done|]; split; [|done];
      by eexists.
  - by destruct (source (o_verification (observation_base o))).
Qed.

(** *** Aggregation *)

Lemma verify_loop_returns l results :
  returned l results ->
  forall acc,
    verify_loop l acc
    = (Return {| is_valid := all_valid acc && forallb is_valid results;
                 errors := all_errors acc ++ concat (zip_with reported l results) |},
       calls acc ++ concat (map (fun e => snd (verify e)) l)).
Proof.
  induction 1 as [|e r l results He _ IH]; intros acc; cbn [verify_loop].
  - cbn. by rewrite andb_true_r, !app_nil_r.
  - cbn [forallb zip_with concat map].
    unfold verdict in He. destruct (verify e) as [o log]. cbn [fst snd] in *. subst o.
    rewrite IH. unfold verify_step, reported.
    destruct (is_valid r); cbn [negb all_valid all_errors calls andb].
    + cbn [app]. by rewrite <- app_assoc.
    + cbn [app]. by rewrite andb_false_r, <- !app_assoc.
Qed.

Lemma verify_loop_raises before e after x :
  (forall e', e' ∈ before -> exists r, verdict e' = Return r) ->
  verdict e = Raise x ->
  forall acc, fst (verify_loop (before ++ e :: after) acc) = Raise x.
Proof.
  intros Hbefore He. induction before as [|e' before IH]; intros acc; cbn [app verify_loop].
  - unfold verdict in He. destruct (verify e) as [o log]. cbn [fst] in He. by subst o.
  - destruct (Hbefore e') as [r Hr]; [left|].
    unfold verdict in Hr. destruct (verify e') as [o log]. cbn [fst] in Hr. subst o.
    apply IH. intros e'' He''. apply Hbefore. by right.
Qed.

(** C5 (aggregation). When the verification of every record returns,
    [verify_all] returns; its result is valid exactly when every record's
    own result is; its error list is, in the order of the collection, the
    errors of each failing record, each prefixed with that record's id in
    brackets; the notes of passing records do not appear, so a fully
    passing run has no errors. When a verification raises, there is no
    aggregate: [verify_all] raises the exception of the first record whose
    verification does. *)
Theorem verify_all_aggregates (evidence_list : list AnyEvidence) :
  (forall results,
     returned evidence_list results ->
     exists result,
       fst (verify_all evidence_list) = Return result
       /\ (is_valid result = true
           <-> forall e r, e ∈ evidence_list -> verdict e = Return r -> is_valid r = true)
       /\ errors result
          = concat (zip_with
                      (fun e r =>
                         if is_valid r then []
                         else map (fun msg => "[" ++ evidence_id e ++ "] " ++ msg)%string
                                  (errors r))
                      evidence_list results)
       /\ ((forall e r, e ∈ evidence_list -> verdict e = Return r -> is_valid r = true) ->
           errors result = []))
  /\ (forall before e after x,
        evidence_list = before ++ e :: after ->
        (forall e', e' ∈ before -> exists r, verdict e' = Return r) ->
        verdict e = Raise x ->
        fst (verify_all evidence_list) = Raise x).
Proof.
  split.
  - intros results Hres. unfold verify_all. rewrite (verify_loop_returns _ _ Hres).
    eexists. split; [reflexivity|]. cbn [fst is_valid errors all_valid all_errors andb app].
    assert (forallb is_valid results = true
            <-> forall e r, e ∈ evidence_list -> verdict e = Return r -> is_valid r = true)
      as Hall.
    { clear -Hres. induction Hres as [|e r l results He _ IH]; cbn [forallb].
      - split; [|done]. by intros _ e r ?%not_elem_of_nil.
      - rewrite andb_true_iff, IH. split.
        + intros [Hr Hl] e' r' [->|He']%elem_of_cons Hv; [congruence|by eapply Hl].
        + intros Hl. split; [by apply (Hl e); [left|]|].
          intros e' r' He' Hv. apply (Hl e'); [by right|done]. }
    split; [done|]. split; [done|].
    intros Hpass%Hall. clear Hall. revert Hpass.
    induction Hres as [|e r l results He _ IH]; cbn [forallb zip_with concat]; [done|].
    intros [Hr Hl]%andb_true_iff. unfold reported at 1. rewrite Hr. by apply IH.
  - intros before e after x -> Hbefore He. unfold verify_all.
    by apply verify_loop_raises.
Qed.

(** *** Strategies that look at the verification URL *)

Lemma url_accessible_absent o :
  url (o_verification (observation_base o)) = None ->
  _verify_url_accessible o = (Return (passed []), []).
Proof. unfold _verify_url_accessible. by intros ->. Qed.

(** A fetch that raises: the strategy answers a [RequestException] with an
    error and lets any other exception through. *)
Lemma url_accessible_raises o u e :
  url (o_verification (observation_base o)) = Some u ->
  requests_get u = Raise e ->
  _verify_url_accessible o
  = (if is_request_exception e
     then Return (failed [("Failed to access URL: " ++ exn_msg e)%string])
     else Raise e,
     [CallRequestsGet u]).
Proof.
  unfold _verify_url_accessible, try_except_request, bind, perform. intros -> ->.
  by destruct (is_request_exception e).
Qed.

Lemma security_vendor_raises o u e :
  url (o_verification (observation_base o)) = Some u ->
  requests_get u = Raise e ->
  _verify_security_vendor o
  = (if is_request_exception e
     then Return (failed [("Failed to fetch source URL: " ++ exn_msg e)%string])
     else Raise e,
     [CallRequestsGet u]).
Proof.
  unfold _verify_security_vendor, try_except_request, bind, perform. intros -> ->.
  by destruct (is_request_exception e).
Qed.

(** The GitHub dispatch sends these types to the URL check. *)
Lemma url_checked_dispatch o :
  existsb (String.eqb (observation_type o)) url_checked_types = true ->
  github_verifier (observation_type o) o = _verify_url_accessible o.
Proof. unfold github_verifier. by destruct o. Qed.

(** C10 (absent URL). An observation sent to the URL-reachability
    strategy (web-archive source, or primary-API source with type fork,
    snapshot, ioc or article) that has no verification URL is verified as
    valid with no errors, and no call leaves the process. *)
Theorem absent_url_passes (o : AnyObservation) :
  url (o_verification (observation_base o)) = None ->
  source (o_verification (observation_base o)) = WAYBACK
  \/ (source (o_verification (observation_base o)) = GITHUB
      /\ existsb (String.eqb (observation_type o)) url_checked_types = true) ->
  verify (Obs o) = (Return {| is_valid := true; errors := [] |}, []).
Proof.
  intros Hurl [Hsrc | [Hsrc Htype]]; simpl; unfold _verify_observation; rewrite Hsrc; simpl.
  - by apply url_accessible_absent.
  - unfold _verify_github_observation.
    by rewrite (url_checked_dispatch o Htype), (url_accessible_absent o Hurl).
Qed.

(** *** Deletion *)

Lemma github_observation_raises o e log :
  github_verifier (observation_type o) o = (Raise e, log) ->
  _verify_github_observation o
  = (if o_is_deleted (observation_base o) then passed []
     else failed [("Verification failed: " ++ exn_msg e)%string], log).
Proof. unfold _verify_github_observation, try_except. by intros ->. Qed.

(** A failed fetch makes the strategy raise, after that one call. *)
Lemma api_fetch_raises o c e :
  api_fetch o = Some (c, Raise e) ->
  github_verifier (observation_type o) o = (Raise e, [c]).
Proof.
  unfold api_fetch, github_verifier.
  destruct o; simpl;
    unfold _verify_commit, _verify_issue, _verify_file, _verify_branch, _verify_tag,
           _verify_release;
    destruct (_get_repo_info _) as [[ow n]|]; try done; simpl.
  - destruct (str_truthy (co_sha o)); [|done]. by intros [= <- ->].
  - destruct (io_issue_number o =? 0); [done|].
    destruct (io_is_pull_request o); by intros [= <- ->].
  - destruct (str_truthy (fo_file_path o)); [|done]. by intros [= <- ->].
  - destruct (str_truthy (br_branch_name o)); [|done]. by intros [= <- ->].
  - destruct (str_truthy (tg_tag_name o)); [|done]. by intros [= <- ->].
  - destruct (str_truthy (rl_tag_name o)); [|done]. by intros [= <- ->].
Qed.

Lemma github_source_verify o :
  source (o_verification (observation_base o)) = GITHUB ->
  verify (Obs o) = total (_verify_github_observation o).
Proof. intros Hsrc. cbn [verify]. unfold _verify_observation. by rewrite Hsrc. Qed.

(** C3, as the code has it (deletion tolerance). For an observation marked
    as deleted and verified against the primary API, a strategy that
    raises yields a valid result with no errors: so does, for a commit,
    issue, file, branch, tag or release, a fetch that fails, and for a
    fork, snapshot, IOC or article a fetch of the verification URL that
    raises anything but a [RequestException]. A [RequestException] from the
    URL fetch is caught by the URL strategy itself and is an error, deleted
    or not: against the primary API for those four types, against the web
    archive, and against a vendor report. Against the web archive and a
    vendor report any other exception is not caught at all: the
    verification raises it, deleted or not. *)
Theorem deletion_tolerance (o : AnyObservation) :
  (o_is_deleted (observation_base o) = true ->
   source (o_verification (observation_base o)) = GITHUB ->
   (forall e log,
      github_verifier (observation_type o) o = (Raise e, log) ->
      verify (Obs o) = (Return {| is_valid := true; errors := [] |}, log))
   /\ (forall c e,
         api_fetch o = Some (c, Raise e) ->
         verify (Obs o) = (Return {| is_valid := true; errors := [] |}, [c]))
   /\ (forall u e,
         existsb (String.eqb (observation_type o)) url_checked_types = true ->
         url (o_verification (observation_base o)) = Some u ->
         requests_get u = Raise e ->
         is_request_exception e = false ->
         verify (Obs o)
         = (Return {| is_valid := true; errors := [] |}, [CallRequestsGet u])))
  /\ (forall u e,
        url (o_verification (observation_base o)) = Some u ->
        requests_get u = Raise e ->
        (is_request_exception e = true ->
         (source (o_verification (observation_base o)) = GITHUB ->
          existsb (String.eqb (observation_type o)) url_checked_types = true ->
          verify (Obs o)
          = (Return (failed [("Failed to access URL: " ++ exn_msg e)%string]),
             [CallRequestsGet u]))
         /\ (source (o_verification (observation_base o)) = WAYBACK ->
             verify (Obs o)
             = (Return (failed [("Failed to access URL: " ++ exn_msg e)%string]),
                [CallRequestsGet u]))
         /\ (source (o_verification (observation_base o)) = SECURITY_VENDOR ->
             verify (Obs o)
             = (Return (failed [("Failed to fetch source URL: " ++ exn_msg e)%string]),
                [CallRequestsGet u])))
        /\ (is_request_exception e = false ->
            source (o_verification (observation_base o)) = WAYBACK
            \/ source (o_verification (observation_base o)) = SECURITY_VENDOR ->
            verify (Obs o) = (Raise e, [CallRequestsGet u]))).
Proof.
  split.
  - intros Hdel Hsrc.
    assert (forall e log,
              github_verifier (observation_type o) o = (Raise e, log) ->
              verify (Obs o) = (Return {| is_valid := true; errors := [] |}, log)) as Hraise.
    { intros e log Hraise. rewrite (github_source_verify o Hsrc).
      by rewrite (github_observation_raises o e log Hraise), Hdel. }
    split; [done|]. split.
    + intros c e Hfetch. by apply (Hraise e), api_fetch_raises.
    + intros u e Htype Hurl Hget Hother. apply (Hraise e).
      rewrite (url_checked_dispatch o Htype), (url_accessible_raises o u e Hurl Hget).
      by rewrite Hother.
  - intros u e Hurl Hget. split.
    + intros Hreq. split; [|split].
      * intros Hsrc Htype. rewrite (github_source_verify o Hsrc).
        unfold _verify_github_observation.
        rewrite (url_checked_dispatch o Htype), (url_accessible_raises o u e Hurl Hget).
        by rewrite Hreq.
      * intros Hsrc. cbn [verify]. unfold _verify_observation. rewrite Hsrc. cbn.
        by rewrite (url_accessible_raises o u e Hurl Hget), Hreq.
      * intros Hsrc. cbn [verify]. unfold _verify_observation. rewrite Hsrc. cbn.
        by rewrite (security_vendor_raises o u e Hurl Hget), Hreq.
    + intros Hother [Hsrc|Hsrc]; cbn [verify]; unfold _verify_observation; rewrite Hsrc; cbn.
      * by rewrite (url_accessible_raises o u e Hurl Hget), Hother.
      * by rewrite (security_vendor_raises o u e Hurl Hget), Hother.
Qed.

End Verification.
End VerifierTheory.

Module StoreExamples.
Import Schema Store StoreSpec StoreTheory Samples.

(** [commit-1] added again, no longer dangling: one record with that id,
    the new one. *)
Lemma add_upsert_witness :
  is_Some (get (add empty commit_1) "commit-1")
  /\ with_id "commit-1" (iter (add (add empty commit_1) commit_1_again)) = [commit_1_again]
  /\ get (add (add empty commit_1) commit_1_again) "commit-1" = Some commit_1_again.
Proof.
  assert (is_Some (get (add empty commit_1) "commit-1")) as Hold
    by (exists commit_1; vm_compute; reflexivity).
  split; [exact Hold|].
  exact (proj1 (add_upsert (add empty commit_1) commit_1_again) Hold).
Defined.

(** [commit-1] happened before the bound and was observed after it: the
    range filter keeps it. *)
Lemma filter_timestamp_priority_witness :
  o_original_when commit_1_base = Some 1752439000000000
  /\ o_observed_when commit_1_base = 1752525400000000
  /\ matches (bounds None (Some 1752440000000000)) commit_1 = Return true.
Proof.
  split; [reflexivity|]. split; [reflexivity|].
  apply (proj1 (proj2 (filter_timestamp_priority
                         (commit_with commit_1_base deadbeef_sha true)
                         1752439000000000 None (Some 1752440000000000) eq_refl))).
Defined.

End StoreExamples.

Module SerialExamples.
Import Schema Serial SerialSpec SerialTheory Samples.

Lemma sample_fromisoformat_isoformat (t : datetime) :
  @fromisoformat sample_library (@isoformat sample_library t) = Some t.
Proof.
  simpl. rewrite NilEmpty.isi. cbn [option_map]. f_equal. apply DecimalZ.of_to.
Qed.

(** The push event and the commit observation of the samples, written to
    JSON and read back. *)
Lemma serialization_round_trip_witness :
  @load_evidence_from_json sample_library (@model_dump sample_library commit_1)
  = Return commit_1
  /\ @from_json sample_library (@to_json sample_library (Store.init [push_1; commit_1]))
     = Return (Store.init [push_1; commit_1]).
Proof.
  pose proof (@serialization_round_trip sample_library
                sample_fromisoformat_isoformat (fun j => eq_refl)) as (Hload & Hstore & _).
  split.
  - apply Hload. reflexivity.
  - apply (Hstore (Store.init [push_1; commit_1])). repeat constructor.
Defined.

(** A record without a discriminator, and one with a tag of no class. *)
Lemma load_rejects_unclassified_witness :
  @load_evidence_from_json sample_library [("evidence_id", JStr "x-1")]
  = Raise (ValueError "Data must contain 'event_type' or 'observation_type' field")
  /\ @load_evidence_from_json sample_library
       [("evidence_id", JStr "x-1"); ("event_type", JStr "teleport")]
     = Raise (ValueError "Unknown event_type: teleport").
Proof.
  split.
  - apply (proj1 (@load_rejects_unclassified sample_library _)); reflexivity.
  - apply (proj1 (proj2 (@load_rejects_unclassified sample_library _)) (JStr "teleport"));
      reflexivity.
Defined.

(** C8 does not hold of hexadecimal characters: a commit observation whose
    [sha] is forty times the letter z is constructed and deserialized
    without complaint. *)
Lemma commit_sha_not_hex :
  @validate_CommitObservation sample_library
    (@dump_CommitObservation sample_library commit_z) = Valid commit_z
  /\ @load_evidence_from_json sample_library
       (@model_dump sample_library (Obs (ObsCommit commit_z)))
     = Return (Obs (ObsCommit commit_z))
  /\ String.length (co_sha commit_z) = 40%nat
  /\ is_hex (co_sha commit_z) = false.
Proof. vm_compute. repeat split. Qed.

Lemma commit_sha_forty_characters_witness :
  String.length (co_sha commit_z) = 40%nat
  /\ reports "sha" (@validate_CommitObservation sample_library
                      [("evidence_id", JStr "commit-2"); ("sha", JStr "deadbeef")]).
Proof.
  split.
  - apply (proj1 (@commit_sha_forty_characters sample_library)
             (@dump_CommitObservation sample_library commit_z)).
    vm_compute. reflexivity.
  - apply (proj2 (proj2 (@commit_sha_forty_characters sample_library)) _ "deadbeef").
    + reflexivity.
    + simpl. lia.
Defined.

End SerialExamples.

Module VerifierExamples.
Import Schema Verifier VerifierSpec VerifierTheory Samples.

(** C3 does not hold of every source: the snapshot is marked as deleted
    and the fetch of its archive URL fails with "not found", a
    [RequestException], yet the verification is invalid. *)
Lemma deleted_snapshot_unreachable :
  o_is_deleted (observation_base deleted_snapshot) = true
  /\ @requests_get unreachable_sources archived_page = Raise not_found
  /\ @is_request_exception unreachable_sources not_found = true
  /\ @verify unreachable_sources (Obs deleted_snapshot)
     = (Return {| is_valid := false;
                  errors := ["Failed to access URL: 404 Client Error: Not Found"] |},
        [CallRequestsGet archived_page]).
Proof. repeat split. Qed.

(** The deleted commit of the specification's scenario: the API fetch
    raises "not found" and the observation verifies. So does a deleted fork
    whose verification URL cannot be parsed: the fetch raises an exception
    that is no [RequestException], the URL strategy lets it through, and
    the handler of the GitHub dispatch, reading the deleted flag, answers
    valid. *)
Lemma deletion_tolerance_witness :
  o_is_deleted (observation_base deleted_commit) = true
  /\ @api_fetch unreachable_sources deleted_commit
     = Some (CallGetCommit "aws" "aws-toolkit-vscode" deadbeef_sha, Raise not_found)
  /\ @verify unreachable_sources (Obs deleted_commit)
     = (Return {| is_valid := true; errors := [] |},
        [CallGetCommit "aws" "aws-toolkit-vscode" deadbeef_sha])
  /\ @requests_get unparsable_sources unparsable_url = Raise location_parse_error
  /\ @is_request_exception unparsable_sources location_parse_error = false
  /\ @verify unparsable_sources (Obs deleted_fork)
     = (Return {| is_valid := true; errors := [] |}, [CallRequestsGet unparsable_url]).
Proof.
  split; [reflexivity|]. split; [reflexivity|]. split.
  - apply (proj1 (proj2 (proj1 (@deletion_tolerance unreachable_sources deleted_commit)
                               eq_refl eq_refl)) _ not_found).
    reflexivity.
  - split; [reflexivity|]. split; [reflexivity|].
    apply (proj2 (proj2 (proj1 (@deletion_tolerance unparsable_sources deleted_fork)
                               eq_refl eq_refl))
             unparsable_url location_parse_error); reflexivity.
Defined.

(** The same URL on a deleted page known from the web archive: nothing
    catches the exception and the verification raises it. *)
Example unparsable_snapshot_raises :
  o_is_deleted (observation_base unparsable_snapshot) = true
  /\ @verify unparsable_sources (Obs unparsable_snapshot)
     = (Raise location_parse_error, [CallRequestsGet unparsable_url]).
Proof. split; reflexivity. Qed.

Lemma unknown_source_rejected_witness :
  recognized_source misfiled_star = false
  /\ exists result,
       @verdict unreachable_sources misfiled_star = Return result
       /\ is_valid result = false.
Proof.
  split; [reflexivity|].
  destruct (@unknown_source_rejected unreachable_sources misfiled_star eq_refl)
    as (result & Hv & Hinvalid & _).
  exists result. split; [exact Hv | exact Hinvalid].
Defined.

Lemma absent_url_passes_witness :
  url (o_verification (observation_base a_fork)) = None
  /\ @verify unreachable_sources (Obs a_fork)
     = (Return {| is_valid := true; errors := [] |}, []).
Proof.
  split; [reflexivity|].
  apply (@absent_url_passes unreachable_sources a_fork); [reflexivity|].
  right. split; reflexivity.
Defined.

(** A run over the samples: every verification returns, the misfiled event
    fails, the deleted commit passes, and the only error line is the
    event's, under its id. *)
Lemma verify_all_aggregates_witness :
  @returned unreachable_sources [misfiled_star; Obs deleted_commit; Obs a_fork]
            [failed ["Unknown verification source for event: github"]; passed []; passed []]
  /\ exists result,
       fst (@verify_all unreachable_sources [misfiled_star; Obs deleted_commit; Obs a_fork])
       = Return result
       /\ errors result = ["[watch-1] Unknown verification source for event: github"].
Proof.
  assert (@returned unreachable_sources [misfiled_star; Obs deleted_commit; Obs a_fork]
            [failed ["Unknown verification source for event: github"]; passed []; passed []])
    as Hres by (repeat constructor).
  split; [exact Hres|].
  destruct (proj1 (@verify_all_aggregates unreachable_sources
                     [misfiled_star; Obs deleted_commit; Obs a_fork]) _ Hres)
    as (result & Hv & _ & Herr & _).
  exists result. split; [exact Hv | exact Herr].
Defined.

(** The same run, and one that a verification ends by raising. *)
Example verify_all_samples :
  fst (@verify_all unreachable_sources [misfiled_star; Obs deleted_commit; Obs a_fork])
  = Return {| is_valid := false;
              errors := ["[watch-1] Unknown verification source for event: github"] |}
  /\ fst (@verify_all unparsable_sources [Obs deleted_fork; Obs unparsable_snapshot; Obs a_fork])
     = Raise location_parse_error.
Proof. split; reflexivity. Qed.

End VerifierExamples.

(** * Further properties *)

(** ** The store: removal, insertion order, merging, construction *)

Module StoreMoreTheory.
Import Schema Store StoreSpec StoreSpecMore StoreTheory.

Lemma without_id_idem id l : without_id id (without_id id l) = without_id id l.
Proof.
  unfold without_id. induction l as [|a l IH]; simpl; [done|].
  destruct (negb (String.eqb (evidence_id a) id)) eqn:E; simpl; [|done].
  by rewrite E, IH.
Qed.

Lemma without_id_app id l k : without_id id (l ++ k) = without_id id l ++ without_id id k.
Proof. unfold without_id. apply List.filter_app. Qed.

Lemma without_id_self e : without_id (evidence_id e) [e] = [].
Proof. unfold without_id. simpl. by rewrite String.eqb_refl. Qed.

Lemma consistent_len s : consistent s -> len s = size (_by_id s).
Proof. intros [Hnd Hidx]. by apply consistent_size. Qed.

(** X1. [remove] answers whether the id was indexed; afterwards the id is
    gone from the index, every other id reads as before, a store that did
    not have the id is unchanged, and a consistent store that had it holds
    one record fewer. *)
Theorem remove_outcome (s : EvidenceStore) (id : string) :
  snd (remove s id) = contains s id
  /\ get (fst (remove s id)) id = None
  /\ (forall k, k <> id -> get (fst (remove s id)) k = get s k)
  /\ (contains s id = false -> fst (remove s id) = s)
  /\ (contains s id = true -> iter (fst (remove s id)) = without_id id (iter s))
  /\ (consistent s -> contains s id = true -> S (len (fst (remove s id))) = len s).
Proof.
  unfold remove, contains, get, iter.
  destruct (_by_id s !! id) as [old|] eqn:E; simpl.
  - split; [done|]. split; [apply lookup_delete_eq|].
    split; [intros k Hk; by apply lookup_delete_ne|]. split; [done|]. split; [done|].
    intros Hs _. pose proof (consistent_remove s id Hs) as Hs'.
    unfold remove in Hs'. rewrite E in Hs'. simpl in Hs'.
    rewrite (consistent_len _ Hs'), (consistent_len _ Hs). simpl.
    rewrite map_size_delete, E.
    assert (size (_by_id s) <> 0%nat); [|lia].
    apply map_size_non_empty_iff. intros Hm. by rewrite Hm, lookup_empty in E.
  - repeat split; done.
Qed.

(** X2. [add] leaves every other id as it was, puts the record last in
    iteration order (a replaced record moves to the end), keeps the other
    records in their order, and on a consistent store grows the length by
    one exactly when the id is new. *)
Theorem add_keeps_the_rest (s : EvidenceStore) (e : AnyEvidence) :
  (forall k, k <> evidence_id e -> get (add s e) k = get s k)
  /\ last (iter (add s e)) = Some e
  /\ without_id (evidence_id e) (iter (add s e)) = without_id (evidence_id e) (iter s)
  /\ (consistent s ->
      len (add s e) = if contains s (evidence_id e) then len s else S (len s)).
Proof.
  split; [|split; [|split]].
  - intros k Hk. unfold get, add. simpl. by apply lookup_insert_ne.
  - unfold iter, add. simpl. apply last_snoc.
  - unfold iter, add. simpl. rewrite without_id_app, without_id_self, app_nil_r.
    destruct (_by_id s !! evidence_id e); [apply without_id_idem | done].
  - intros Hs. rewrite (consistent_len _ (consistent_add s e Hs)), (consistent_len _ Hs).
    unfold contains, add. simpl. rewrite map_size_insert.
    by destruct (_by_id s !! evidence_id e).
Qed.

Lemma find_snoc {A} (p : A -> bool) l a :
  List.find p (rev (l ++ [a])) = if p a then Some a else List.find p (rev l).
Proof. by rewrite rev_app_distr. Qed.

Lemma last_with_id_snoc k l a :
  last_with_id k (l ++ [a])
  = if String.eqb (evidence_id a) k then Some a else last_with_id k l.
Proof.
  unfold last_with_id.
  exact (find_snoc (fun x => String.eqb (evidence_id x) k) l a).
Qed.

Lemma add_all_snoc s l a : add_all s (l ++ [a]) = add (add_all s l) a.
Proof. unfold add_all. by rewrite fold_left_app. Qed.

Lemma add_all_get s l k :
  get (add_all s l) k
  = match last_with_id k l with Some x => Some x | None => get s k end.
Proof.
  induction l as [|a l IH] using rev_ind; [done|].
  rewrite add_all_snoc, last_with_id_snoc. unfold get, add. simpl.
  destruct (String.eqb_spec (evidence_id a) k) as [->|Hne].
  - apply lookup_insert_eq.
  - rewrite lookup_insert_ne by done. apply IH.
Qed.

Lemma last_with_id_consistent s k :
  consistent s -> last_with_id k (iter s) = get s k.
Proof.
  intros [Hnd Hidx]. unfold last_with_id, get, iter.
  destruct (List.find _ _) as [x|] eqn:E.
  - apply find_some in E as [Hin Hid]. apply String.eqb_eq in Hid.
    symmetry. apply Hidx. split; [|done].
    apply list_elem_of_In. by apply in_rev.
  - destruct (_by_id s !! k) as [v|] eqn:Ev; [|done].
    apply Hidx in Ev as [Hin Hid].
    apply list_elem_of_In, in_rev in Hin.
    pose proof (find_none _ _ E v Hin) as Hno. simpl in Hno.
    apply String.eqb_neq in Hno. done.
Qed.

(** X3. After [add_all], an id reads as the last record of the list that
    carries it, and as before when the list has none; [merge] with a
    consistent store therefore reads every id from the other store first
    and from this one otherwise, and both keep a consistent store
    consistent. *)
Theorem add_all_last_wins (s : EvidenceStore) (l : list AnyEvidence) (k : string) :
  get (add_all s l) k
  = match last_with_id k l with Some x => Some x | None => get s k end
  /\ (forall other, consistent other ->
        get (merge s other) k
        = match get other k with Some x => Some x | None => get s k end)
  /\ (consistent s -> consistent (add_all s l)).
Proof.
  split; [apply add_all_get|]. split; [|apply consistent_add_all].
  intros other Hother. unfold merge. rewrite add_all_get.
  by rewrite last_with_id_consistent.
Qed.

Lemma index_by_id_get l k : index_by_id l !! k = last_with_id k l.
Proof.
  induction l as [|a l IH] using rev_ind; [done|].
  rewrite index_by_id_snoc, last_with_id_snoc.
  destruct (String.eqb_spec (evidence_id a) k) as [->|Hne].
  - apply lookup_insert_eq.
  - by rewrite lookup_insert_ne.
Qed.

(** X4. The constructor keeps the list it is given, duplicates included,
    while its index keeps the last record of each id: the store is
    consistent exactly when the ids of the list are distinct, and it is
    then the store [add_all] builds from the empty one. *)
Theorem init_keeps_duplicates (l : list AnyEvidence) :
  iter (init l) = l
  /\ len (init l) = length l
  /\ (forall k, get (init l) k = last_with_id k l)
  /\ (consistent (init l) <-> NoDup (map evidence_id l))
  /\ (NoDup (map evidence_id l) -> add_all empty l = init l).
Proof.
  split; [done|]. split; [done|]. split; [apply index_by_id_get|].
  assert (NoDup (map evidence_id l) -> consistent (init l)) as Hc.
  { intros Hnd. split; [done|]. by apply index_by_id_lookup. }
  split; [split; [by intros [Hnd _] | done]|].
  intros Hnd. rewrite <- (init_consistent (add_all empty l)).
  - f_equal. clear Hc. induction l as [|a l IH] using rev_ind; [done|].
    rewrite map_app, NoDup_app in Hnd. destruct Hnd as (Hnd & Hfresh & _).
    rewrite add_all_snoc.
    rewrite (add_kept _ _ (consistent_add_all l empty consistent_empty)).
    rewrite (IH Hnd), without_id_fresh; [done|].
    intros x Hx Hid. apply (Hfresh (evidence_id a)); [|by left].
    apply list_elem_of_fmap. by exists x.
  - apply consistent_add_all, consistent_empty.
Qed.

End StoreMoreTheory.

(** ** The store: queries and the summary *)

Module StoreQueryTheory.
Import Schema Store StoreSpec StoreSpecMore StoreSummary StoreTheory.

Lemma time_rejects_unbounded c e :
  c_after c = None -> c_before c = None -> time_rejects c e = false.
Proof. unfold time_rejects. intros -> ->. by destruct (_get_timestamp e). Qed.

Lemma time_rejects_split c e :
  time_rejects c e
  = time_rejects (only_after c) e || time_rejects (only_before c) e.
Proof.
  unfold time_rejects. simpl. destruct (_get_timestamp e); [|done].
  by rewrite orb_false_r.
Qed.

Lemma source_rejects_valid c e :
  source_is_valid c = true -> exists b, source_rejects c e = Return b.
Proof.
  unfold source_is_valid, source_rejects.
  destruct (c_source c) as [[src|v]|]; try by eexists.
  destruct (str_truthy v); simpl; [|by eexists].
  destruct (EvidenceSource_of_value v); [by eexists | done].
Qed.

Lemma kept_by_only_event_type c e :
  kept_by (only_event_type c) e
  = negb (opt_str_truthy (c_event_type c)
          && match c_event_type c with
             | Some t => opt_str_neq (getattr_event_type e) t
             | None => false
             end).
Proof.
  unfold kept_by, matches, source_rejects. simpl.
  rewrite time_rejects_unbounded by done. by destruct (_ && _).
Qed.

Lemma kept_by_only_observation_type c e :
  kept_by (only_observation_type c) e
  = negb (opt_str_truthy (c_observation_type c)
          && match c_observation_type c with
             | Some t => opt_str_neq (getattr_observation_type e) t
             | None => false
             end).
Proof.
  unfold kept_by, matches, source_rejects. simpl.
  rewrite time_rejects_unbounded by done. by destruct (_ && _).
Qed.

Lemma kept_by_only_source c e b :
  source_rejects c e = Return b -> kept_by (only_source c) e = negb b.
Proof.
  unfold kept_by, matches. simpl.
  replace (source_rejects (only_source c) e) with (source_rejects c e) by done.
  intros ->. rewrite time_rejects_unbounded by done. by destruct b.
Qed.

Lemma kept_by_only_repo c e :
  kept_by (only_repo c) e
  = negb (opt_str_truthy (c_repo c)
          && match c_repo c, repository e with
             | Some r, Some repo_obj => negb (String.eqb (full_name repo_obj) r)
             | _, _ => true
             end).
Proof.
  unfold kept_by, matches, source_rejects. simpl.
  rewrite time_rejects_unbounded by done. by destruct (_ && _).
Qed.

Lemma kept_by_only_after c e :
  kept_by (only_after c) e = negb (time_rejects (only_after c) e).
Proof. unfold kept_by, matches, source_rejects. simpl. by destruct (time_rejects _ _). Qed.

Lemma kept_by_only_before c e :
  kept_by (only_before c) e = negb (time_rejects (only_before c) e).
Proof. unfold kept_by, matches, source_rejects. simpl. by destruct (time_rejects _ _). Qed.

Lemma kept_by_only_predicate c e :
  kept_by (only_predicate c) e
  = match c_predicate c with Some p => p e | None => true end.
Proof.
  unfold kept_by, matches, source_rejects. simpl.
  rewrite time_rejects_unbounded by done. by destruct (c_predicate c).
Qed.

Lemma matches_conjunction c e :
  source_is_valid c = true ->
  matches c e
  = Return (kept_by (only_event_type c) e && kept_by (only_observation_type c) e
            && kept_by (only_source c) e && kept_by (only_repo c) e
            && kept_by (only_after c) e && kept_by (only_before c) e
            && kept_by (only_predicate c) e).
Proof.
  intros Hsrc. destruct (source_rejects_valid c e Hsrc) as [b Hb].
  rewrite kept_by_only_event_type, kept_by_only_observation_type,
    (kept_by_only_source c e b Hb), kept_by_only_repo, kept_by_only_after,
    kept_by_only_before, kept_by_only_predicate.
  unfold matches. rewrite Hb, time_rejects_split.
  destruct (opt_str_truthy (c_event_type c) && _); [done|].
  destruct (opt_str_truthy (c_observation_type c) && _); [done|].
  destruct b; [done|].
  destruct (opt_str_truthy (c_repo c) && _); [done|].
  destruct (time_rejects (only_after c) e); [done|].
  destruct (time_rejects (only_before c) e); [done|].
  by destruct (c_predicate c).
Qed.

Lemma comprehension_total c l :
  (forall e, e ∈ l -> exists b, matches c e = Return b) ->
  comprehension c l = Return (List.filter (kept_by c) l).
Proof.
  induction l as [|e l IH]; intros Hl; simpl; [done|].
  destruct (Hl e) as [b Hb]; [by left|]. unfold kept_by at 1. rewrite Hb, IH; [done|].
  intros x Hx. apply Hl. by right.
Qed.



(** *** Counting *)

Lemma count_one_lookup k (m : gmap string nat) j :
  default 0%nat (count_one k m !! j)
  = (default 0%nat (m !! j) + if decide (k = j) then 1 else 0)%nat.
Proof.
  unfold count_one. destruct (decide (k = j)) as [->|Hne].
  - by rewrite lookup_insert_eq.
  - rewrite lookup_insert_ne by done. lia.
Qed.

Lemma sum_counts_insert k n (m : gmap string nat) :
  m !! k = None -> sum_counts (<[k := n]> m) = (n + sum_counts m)%nat.
Proof.
  intros Hk. unfold sum_counts. rewrite map_fold_insert_L; [done | | done].
  intros. lia.
Qed.

Lemma sum_counts_count_one k (m : gmap string nat) :
  sum_counts (count_one k m) = S (sum_counts m).
Proof.
  unfold count_one. destruct (m !! k) as [n|] eqn:E; simpl.
  - rewrite <- (insert_delete_eq m k (n + 1)%nat).
    rewrite <- (insert_delete_id m k n E) at 2.
    rewrite !sum_counts_insert by apply lookup_delete_eq. lia.
  - by rewrite sum_counts_insert.
Qed.

Lemma count_one_positive k (m : gmap string nat) :
  (forall t, m !! t <> Some 0%nat) -> forall t, count_one k m !! t <> Some 0%nat.
Proof.
  intros Hm t. unfold count_one. destruct (decide (k = t)) as [->|Hne].
  - rewrite lookup_insert_eq. intros [= H]. lia.
  - rewrite lookup_insert_ne by done. apply Hm.
Qed.

(** A counter dict filled by one pass over a list, each record counted
    under the key it has, if it has one. *)
Lemma tally (key : AnyEvidence -> option string) (l : list AnyEvidence) :
  forall m : gmap string nat,
    let m' := fold_left (fun m x => match key x with
                                    | Some k => count_one k m
                                    | None => m
                                    end) l m in
    (forall t, default 0%nat (m' !! t)
               = (default 0%nat (m !! t)
                  + count_where (fun x => bool_decide (key x = Some t)) l)%nat)
    /\ sum_counts m'
       = (sum_counts m
          + count_where (fun x => match key x with Some _ => true | None => false end) l)%nat
    /\ ((forall t, m !! t <> Some 0%nat) -> forall t, m' !! t <> Some 0%nat).
Proof.
  unfold count_where. induction l as [|x l IH]; intros m; cbn [fold_left List.filter].
  - simpl. repeat split; [intros; lia | lia | done].
  - destruct (IH (match key x with Some k => count_one k m | None => m end))
      as (Hlookup & Hsum & Hpos).
    split; [|split].
    + intros t. rewrite Hlookup. destruct (key x) as [k|].
      * rewrite count_one_lookup. case_bool_decide as E; case_decide; simpl; try lia.
        -- congruence.
        -- congruence.
      * case_bool_decide; [done | lia].
    + rewrite Hsum. destruct (key x) as [k|]; simpl; [|done].
      rewrite sum_counts_count_one. lia.
    + intros Hm. apply Hpos. destruct (key x); [by apply count_one_positive | done].
Qed.

Lemma summary_step_fold l :
  forall c,
    let c' := fold_left summary_step l c in
    event_counts c'
    = fold_left (fun m x => match getattr_event_type x with
                            | Some k => count_one k m
                            | None => m
                            end) l (event_counts c)
    /\ obs_counts c'
       = fold_left (fun m x => match getattr_observation_type x with
                               | Some k => count_one k m
                               | None => m
                               end) l (obs_counts c)
    /\ source_counts c'
       = fold_left (fun m x =>
                      match Some (EvidenceSource_value (source (verification x))) with
                      | Some k => count_one k m
                      | None => m
                      end) l (source_counts c).
Proof.
  induction l as [|x l IH]; intros c; simpl; [done|].
  destruct (IH (summary_step c x)) as (He & Ho & Hs).
  by rewrite He, Ho, Hs.
Qed.

(** X7. The summary counts what the store holds: [total] is the length;
    the count under an event type, an observation type or a source value
    is the number of records that have it, and is never a zero entry; the
    counts by source add up to the total, those by event type to the
    number of events and those by observation type to the number of
    observations; and the count of an event type is the number of records
    [filter(event_type=...)] returns. *)
Theorem summary_counts (s : EvidenceStore) :
  total (summary s) = len s
  /\ (forall t, default 0%nat (events (summary s) !! t)
                = count_where (fun x => bool_decide (getattr_event_type x = Some t)) (iter s))
  /\ (forall t, default 0%nat (observations (summary s) !! t)
                = count_where (fun x => bool_decide (getattr_observation_type x = Some t))
                              (iter s))
  /\ (forall src, default 0%nat (by_source (summary s) !! EvidenceSource_value src)
                  = count_where (fun x => EvidenceSource_eqb (source (verification x)) src)
                                (iter s))
  /\ (forall t, events (summary s) !! t <> Some 0%nat
                /\ observations (summary s) !! t <> Some 0%nat
                /\ by_source (summary s) !! t <> Some 0%nat)
  /\ sum_counts (events (summary s)) = length (Store.events s)
  /\ sum_counts (observations (summary s)) = length (Store.observations s)
  /\ sum_counts (by_source (summary s)) = len s
  /\ (forall t, str_truthy t = true ->
        exists kept, filter s (by_event_type t) = Return kept
                     /\ length kept = default 0%nat (events (summary s) !! t)).
Proof.
  unfold summary, len, iter. simpl.
  destruct (summary_step_fold (_evidence s)
              {| event_counts := ∅; obs_counts := ∅; source_counts := ∅ |})
    as (He & Ho & Hs).
  simpl in He, Ho, Hs. rewrite He, Ho, Hs. clear He Ho Hs.
  destruct (tally getattr_event_type (_evidence s) ∅) as (Hel & Hes & Hep).
  destruct (tally getattr_observation_type (_evidence s) ∅) as (Hol & Hos & Hop).
  destruct (tally (fun x => Some (EvidenceSource_value (source (verification x))))
                  (_evidence s) ∅) as (Hsl & Hss & Hsp).
  assert (sum_counts (∅ : gmap string nat) = 0%nat) as Hzero by done.
  assert (forall t : string, (∅ : gmap string nat) !! t <> Some 0%nat) as Hempty
    by (intros t; by rewrite lookup_empty).
  split; [done|]. split; [intros t; by rewrite Hel, lookup_empty|].
  split; [intros t; by rewrite Hol, lookup_empty|].
  split.
  { intros src. rewrite Hsl, lookup_empty. simpl. unfold count_where. f_equal.
    apply List.filter_ext. intros x. unfold EvidenceSource_eqb.
    destruct (String.eqb_spec (EvidenceSource_value (source (verification x)))
                              (EvidenceSource_value src)) as [E|E].
    - by rewrite E, bool_decide_eq_true_2.
    - rewrite bool_decide_eq_false_2; [done | congruence]. }
  split; [intros t; split; [by apply Hep | split; [by apply Hop | by apply Hsp]]|].
  split.
  { rewrite Hes, Hzero. unfold count_where, Store.events. simpl. f_equal.
    apply List.filter_ext. by intros []. }
  split.
  { rewrite Hos, Hzero. unfold count_where, Store.observations. simpl. f_equal.
    apply List.filter_ext. by intros []. }
  split.
  { rewrite Hss, Hzero. unfold count_where. simpl.
    assert (forall l : list AnyEvidence, List.filter (fun _ => true) l = l) as Hall
      by (intros l; induction l as [|x l IH]; simpl; [done | by rewrite IH]).
    by rewrite Hall. }
  intros t Ht. eexists. split.
  - unfold filter. apply comprehension_total. intros e _.
    rewrite matches_conjunction by done. by eexists.
  - rewrite Hel, lookup_empty. simpl. unfold count_where. f_equal.
    apply List.filter_ext. intros e. unfold kept_by, matches, source_rejects. simpl.
    rewrite Ht, time_rejects_unbounded by done. simpl.
    destruct e as [e|o]; cbn [getattr_event_type opt_str_neq].
    + destruct (String.eqb_spec (event_type e) t) as [E|E]; cbn [negb]; symmetry.
      * apply bool_decide_eq_true_2. congruence.
      * apply bool_decide_eq_false_2. congruence.
    + symmetry. by apply bool_decide_eq_false_2.
Qed.

End StoreQueryTheory.

(** ** Serialization: what a loaded record satisfies *)

Module SerialMoreTheory.
Import Schema Serial SerialSpec SerialSpecMore SerialTheory.

Section Loaded.
Context `{L : Library}.

(** Validating the text of an accepted URL accepts it as it is. *)
Hypothesis http_url_idempotent : forall s u, http_url s = Some u -> http_url u = Some u.

Lemma required_valid {A} k (v : json -> validation A) d a :
  required k v d = Valid a -> exists j, dict_get k d = Some j /\ v j = Valid a.
Proof.
  unfold required. destruct (dict_get k d) as [j|]; [|done].
  intros H%at_loc_valid. by exists j.
Qed.

Lemma defaulted_valid {A} k (v : json -> validation A) dflt d a :
  defaulted k v dflt d = Valid a ->
  (dict_get k d = None /\ a = dflt) \/ exists j, dict_get k d = Some j /\ v j = Valid a.
Proof.
  unfold defaulted. destruct (dict_get k d) as [j|].
  - intros H%at_loc_valid. right. by exists j.
  - intros [= <-]. by left.
Qed.

Lemma v_one_of_valid values j s : v_one_of values j = Valid s -> is_one_of values s = true.
Proof.
  unfold v_one_of, is_one_of. destruct j; try done.
  destruct (existsb _ _) eqn:E; [|done]. by intros [= <-].
Qed.

Lemma v_url_valid j u : v_url j = Valid u -> is_http_url u = true.
Proof.
  unfold v_url, is_http_url. destruct j; try done.
  destruct (http_url s) as [u'|] eqn:E; [|done]. intros [= <-].
  rewrite (http_url_idempotent _ _ E). apply String.eqb_refl.
Qed.

Lemma v_optional_valid {A} (v : json -> validation A) (p : A -> bool) j o :
  (forall a, v j = Valid a -> p a = true) ->
  v_optional v j = Valid o -> holds_opt p o = true.
Proof.
  intros Hv. unfold v_optional.
  destruct j; try (intros [a [Ha ->]]%v_map_valid; simpl; by apply Hv).
  by intros [= <-].
Qed.

Lemma v_items_valid {A} (v : json -> validation A) (p : A -> bool) l :
  (forall j a, v j = Valid a -> p a = true) ->
  forall i r, v_items v i l = Valid r -> forallb p r = true.
Proof.
  intros Hv. induction l as [|j l IH]; intros i r; cbn [v_items].
  - by intros [= <-].
  - intros H. apply v_ap_valid in H as (f & tl & H & Htl & ->).
    apply v_ap_valid in H as (g & hd & [= <-] & Hhd%at_loc_valid & ->).
    cbn [forallb]. rewrite (Hv _ _ Hhd). by eapply IH.
Qed.

Local Arguments is_one_of : simpl never.
Local Arguments is_http_url : simpl never.
Local Arguments holds_opt : simpl never.
Local Arguments constructed_VerificationInfo : simpl never.
Local Arguments constructed_FileChange : simpl never.
Local Arguments forallb : simpl never.
Local Arguments String.length : simpl never.
Local Arguments Nat.eqb : simpl never.

Ltac apart H :=
  repeat match goal with
         | E : _ <*> _ = Valid _ |- _ =>
             let f := fresh "f" in let a := fresh "a" in let Ha := fresh "Ha" in
             apply v_ap_valid in E as (f & a & E & Ha & ->)
         | E : Valid _ = Valid _ |- _ => injection E as <-
         end.

Lemma VerificationInfo_valid d v :
  validate_VerificationInfo d = Valid v -> constructed_VerificationInfo v = true.
Proof.
  unfold validate_VerificationInfo, constructed_VerificationInfo. intros H. apart H.
  cbn [url].
  match goal with
  | E : defaulted "url" _ _ _ = Valid _ |- _ =>
      apply defaulted_valid in E as [[_ ->] | (j & _ & E)]; [done|];
      by apply (v_optional_valid v_url is_http_url j); [apply v_url_valid|]
  end.
Qed.

Lemma verification_field_valid d v :
  required "verification" (v_model validate_VerificationInfo) d = Valid v ->
  constructed_VerificationInfo v = true.
Proof.
  intros (j & _ & Hj)%required_valid. destruct j; try done. by eapply VerificationInfo_valid.
Qed.

Lemma Event_valid d e :
  validate_Event d = Valid e -> constructed_VerificationInfo (e_verification e) = true.
Proof.
  unfold validate_Event. intros H. apart H. simpl. by eapply verification_field_valid.
Qed.

Lemma Observation_valid d o :
  validate_Observation d = Valid o ->
  constructed_VerificationInfo (o_verification o) = true.
Proof.
  unfold validate_Observation. intros H. apart H. simpl. by eapply verification_field_valid.
Qed.

Lemma FileChange_valid d f : validate_FileChange d = Valid f -> constructed_FileChange f = true.
Proof.
  unfold validate_FileChange, constructed_FileChange. intros H. apart H.
  cbn [fc_status].
  match goal with
  | E : required "status" _ _ = Valid _ |- _ =>
      apply required_valid in E as (j & _ & E); by eapply v_one_of_valid
  end.
Qed.

Lemma files_field_valid d fs :
  defaulted "files" (v_list (v_model validate_FileChange)) [] d = Valid fs ->
  forallb constructed_FileChange fs = true.
Proof.
  intros [[_ ->] | (j & _ & E)]%defaulted_valid; [done|].
  destruct j; try done.
  eapply (v_items_valid (v_model validate_FileChange)); [|exact E].
  intros j' a Hj'. destruct j'; try done. by eapply FileChange_valid.
Qed.

(** What each validated field contributes to the constraints of its class. *)
Ltac field_facts :=
  repeat match goal with
         | E : validate_Event _ = Valid _ |- _ => apply Event_valid in E
         | E : validate_Observation _ = Valid _ |- _ => apply Observation_valid in E
         | E : required _ (v_one_of _) _ = Valid _ |- _ =>
             apply required_valid in E as (? & _ & E); apply v_one_of_valid in E
         | E : required _ v_url _ = Valid _ |- _ =>
             apply required_valid in E as (? & _ & E); apply v_url_valid in E
         | E : required "sha" (v_str_len 40 40) _ = Valid _ |- _ =>
             apply required_sha_length in E; apply Nat.eqb_eq in E
         | E : defaulted _ (v_optional (v_one_of ?vals)) None _ = Valid ?o |- _ =>
             assert (holds_opt (is_one_of vals) o = true)
               by (apply defaulted_valid in E as [[_ ->] | (? & _ & E)]; [done|];
                   eapply (v_optional_valid (v_one_of vals)); [apply v_one_of_valid | exact E]);
             clear E
         | E : defaulted "files" _ _ _ = Valid _ |- _ => apply files_field_valid in E
         end.

Ltac class_valid validate :=
  let H := fresh "H" in
  unfold validate, tagged; intros H; apart H;
  unfold constructed_AnyEvent, constructed_AnyObservation; simpl;
  field_facts;
  repeat match goal with E : _ = true |- _ => rewrite E; clear E end;
  reflexivity.

Lemma event_valid data e :
  validated_as_event data e -> constructed_AnyEvent e = true.
Proof.
  destruct e; simpl.
  - class_valid @validate_PushEvent.
  - class_valid @validate_PullRequestEvent.
  - class_valid @validate_IssueEvent.
  - class_valid @validate_IssueCommentEvent.
  - class_valid @validate_CreateEvent.
  - class_valid @validate_DeleteEvent.
  - class_valid @validate_ForkEvent.
  - class_valid @validate_WorkflowRunEvent.
  - class_valid @validate_ReleaseEvent.
  - class_valid @validate_WatchEvent.
  - class_valid @validate_MemberEvent.
  - class_valid @validate_PublicEvent.
Qed.

Lemma observation_valid data o :
  validated_as data o -> constructed_AnyObservation o = true.
Proof.
  destruct o; simpl.
  - class_valid @validate_CommitObservation.
  - class_valid @validate_IssueObservation.
  - class_valid @validate_FileObservation.
  - class_valid @validate_ForkObservation.
  - class_valid @validate_BranchObservation.
  - class_valid @validate_TagObservation.
  - class_valid @validate_ReleaseObservation.
  - class_valid @validate_SnapshotObservation.
  - class_valid @validate_IOC.
  - class_valid @validate_ArticleObservation.
Qed.

Lemma event_adapter_class data e :
  _event_adapter data = Valid e -> validated_as_event data e.
Proof.
  unfold _event_adapter, validate_python.
  destruct (dict_get "event_type" data) as [[| | |tag| |]|]; try done.
  unfold _EventUnion. cbn [union_member].
  repeat match goal with
         | |- context [String.eqb tag ?t] =>
             destruct (String.eqb_spec tag t) as [->|_];
             [cbv beta iota; intros H%at_loc_valid%v_map_valid;
              by destruct H as (? & ? & ->)|]
         end.
  done.
Qed.

Lemma loaded_constructed data e :
  load_evidence_from_json data = Return e -> constructed e = true.
Proof.
  unfold load_evidence_from_json.
  destruct (dict_has "event_type" data).
  - destruct (_event_adapter data) as [x|] eqn:E; [|done].
    intros [= <-]. apply event_adapter_class in E. by eapply event_valid.
  - destruct (dict_has "observation_type" data); [|done].
    destruct (_observation_adapter data) as [x|] eqn:E; [|done].
    intros [= <-]. apply observation_adapter_valid in E as [_ E]. by eapply observation_valid.
Qed.

(** [datetime.isoformat] is read back by [fromisoformat]. *)
Hypothesis fromisoformat_isoformat : forall t, fromisoformat (isoformat t) = Some t.

(** X8 (what loading guarantees). A record that [load_evidence_from_json]
    returns satisfies the constraints of its class: enumerated fields hold
    one of their values, URLs are in validated form, a commit's sha has forty
    characters, and so for every nested file change. Dumping such a record
    and loading the dump gives the record back, so loading, dumping and
    loading again changes nothing. *)
Theorem loaded_record_constructed (data : dict) (e : AnyEvidence) :
  load_evidence_from_json data = Return e ->
  constructed e = true
  /\ load_evidence_from_json (model_dump e) = Return e.
Proof.
  intros H%loaded_constructed. split; [done|].
  by apply load_model_dump.
Qed.

Lemma rejected_ap_l {A B} (f : validation (A -> B)) x :
  rejected f = true -> rejected (f <*> x) = true.
Proof. by destruct f, x. Qed.

Lemma rejected_ap_r {A B} (f : validation (A -> B)) x :
  rejected x = true -> rejected (f <*> x) = true.
Proof. by destruct f, x. Qed.

Lemma rejected_map {A B} (f : A -> B) x : rejected x = true -> rejected (v_map f x) = true.
Proof. by destruct x. Qed.

Lemma rejected_at_loc {A} k (x : validation A) : rejected x = true -> rejected (at_loc k x) = true.
Proof. by destruct x. Qed.

Lemma Event_without_id d :
  dict_get "evidence_id" d = None -> rejected (validate_Event d) = true.
Proof.
  intros H. unfold validate_Event. do 5 apply rejected_ap_l. apply rejected_ap_r.
  unfold required. by rewrite H.
Qed.

Ltac blame :=
  solve [ by apply Event_without_id
        | apply rejected_ap_l; blame
        | apply rejected_ap_r; blame ].

Ltac blame_base := unfold tagged; blame.

Lemma event_adapter_without_id data :
  dict_get "evidence_id" data = None -> rejected (_event_adapter data) = true.
Proof.
  intros H. unfold _event_adapter, validate_python.
  destruct (dict_get "event_type" data) as [[| | |tag| |]|]; try done.
  unfold _EventUnion. cbn [union_member].
  repeat match goal with
         | |- context [String.eqb tag ?t] =>
             destruct (String.eqb_spec tag t) as [->|_];
             [cbv beta iota; apply rejected_at_loc, rejected_map|]
         end; try done.
  - unfold validate_PushEvent. blame_base.
  - unfold validate_PullRequestEvent. blame_base.
  - unfold validate_IssueEvent. blame_base.
  - unfold validate_IssueCommentEvent. blame_base.
  - unfold validate_CreateEvent. blame_base.
  - unfold validate_DeleteEvent. blame_base.
  - unfold validate_ForkEvent. blame_base.
  - unfold validate_WorkflowRunEvent. blame_base.
  - unfold validate_ReleaseEvent. blame_base.
  - unfold validate_WatchEvent. blame_base.
  - unfold validate_MemberEvent. blame_base.
  - unfold validate_PublicEvent. blame_base.
Qed.

(** X9 (what a failed load reports). [load_evidence_from_json] raises
    nothing but the [ValueError] chosen by the keys present, whichever field
    failed: a record with an [event_type] key is never read as an
    observation, and when it lacks its [evidence_id] the error calls the
    event type unknown, also for a type the kit knows. *)
Theorem load_failure_names_discriminator (data : dict) :
  (forall x, load_evidence_from_json data = Raise x -> x = load_error data)
  /\ (dict_has "event_type" data = true ->
      forall o, load_evidence_from_json data <> Return (Obs o))
  /\ (dict_has "event_type" data = true ->
      dict_get "evidence_id" data = None ->
      load_evidence_from_json data
      = Raise (ValueError ("Unknown event_type: " ++ py_str (dict_get "event_type" data)))).
Proof.
  unfold load_evidence_from_json, load_error. repeat split.
  - intros x. destruct (dict_has "event_type" data).
    + destruct (_event_adapter data); [done|]. by intros [= <-].
    + destruct (dict_has "observation_type" data); [|by intros [= <-]].
      destruct (_observation_adapter data); [done|]. by intros [= <-].
  - intros -> o. by destruct (_event_adapter data).
  - intros -> Hid. pose proof (event_adapter_without_id data Hid) as Hr.
    by destruct (_event_adapter data).
Qed.

Lemma load_all_returns items es :
  load_all items = Return es <-> Forall2 (fun j e => load_item j = Return e) items es.
Proof.
  revert es. induction items as [|j items IH]; intros es; cbn [load_all].
  - split; [intros [= <-]; constructor | by inversion 1].
  - destruct (load_item j) as [e|x] eqn:Ej.
    + destruct (load_all items) as [es'|x] eqn:Ea.
      * split.
        -- intros [= <-]. constructor; [done|]. by apply IH.
        -- inversion 1 as [|? e' ? es'' He Hes]; subst.
           apply IH in Hes. congruence.
      * split; [done|]. inversion 1 as [|? e' ? es'' He Hes]; subst.
        apply IH in Hes. congruence.
    + split; [done|]. inversion 1; congruence.
Qed.

Lemma load_all_total items :
  all_load items -> exists es, load_all items = Return es.
Proof.
  induction items as [|j items IH]; intros Hall; cbn [load_all]; [by eexists|].
  destruct (Hall j) as [e ->]; [left|].
  destruct IH as [es ->]; [|by eexists].
  intros j' Hj'. apply Hall. by right.
Qed.

Lemma load_all_first_failure pre j post x :
  all_load pre -> load_item j = Raise x -> load_all (pre ++ j :: post) = Raise x.
Proof.
  induction pre as [|j' pre IH]; intros Hall Hj; cbn [app load_all].
  - by rewrite Hj.
  - destruct (Hall j') as [e ->]; [left|].
    rewrite IH; [done| |done]. intros k Hk. apply Hall. by right.
Qed.

(** X10 (loading a store is all or nothing). When the text decodes to a
    list, [from_json] returns a store exactly when every item loads; the
    store then holds one record per item, in the order of the text,
    duplicates of an identifier included. Otherwise it raises the error of
    the first item that does not load, and no store is returned. *)
Theorem from_json_all_or_nothing (text : json_text) (items : list json) :
  json_loads text = Some (JList items) ->
  (all_load items <-> exists s, from_json text = Return s)
  /\ (forall s, from_json text = Return s ->
        Forall2 (fun j e => load_item j = Return e) items (Store.iter s)
        /\ Store.len s = length items)
  /\ (forall pre j post x,
        items = pre ++ j :: post -> all_load pre -> load_item j = Raise x ->
        from_json text = Raise x).
Proof.
  intros Htext. unfold from_json. rewrite Htext. cbn [py_iterate].
  split; [split|split].
  - intros [es ->]%load_all_total. by eexists.
  - intros [s Hs]. destruct (load_all items) as [es|] eqn:E; [|done].
    apply load_all_returns in E. intros j Hj.
    destruct (proj1 (list_elem_of_lookup _ _) Hj) as [i Hi].
    destruct (Forall2_lookup_l _ _ _ _ _ E Hi) as (e & _ & He). by exists e.
  - intros s. destruct (load_all items) as [es|] eqn:E; [|done]. intros [= <-].
    apply load_all_returns in E. split; [done|].
    unfold Store.len, Store.init. cbn [Store._evidence].
    symmetry. by eapply Forall2_length.
  - intros pre j post x -> Hpre Hj. by rewrite (load_all_first_failure pre j post x).
Qed.

End Loaded.
End SerialMoreTheory.

(** ** The verifier: verdicts and calls of each strategy *)

Module VerifierMoreTheory.
Import Schema Verifier VerifierSpec VerifierSpecMore VerifierTheory.

Section Strategies.
Context `{S : Sources}.

(** *** Calls *)

Lemma silent_ret {A} (a : A) : silent (ret a).
Proof. done. Qed.

Lemma silent_raise {A} e : silent (@raise A e).
Proof. done. Qed.

Lemma silent_pure {A} (r : outcome A) : silent (pure r).
Proof. done. Qed.

Lemma silent_bind {A B} (m : M A) (f : A -> M B) :
  silent m -> (forall a, silent (f a)) -> silent (bind m f).
Proof.
  unfold silent, bind. destruct m as [[a|e] log]; cbn [snd]; intros ->; [|done].
  intros Hf. specialize (Hf a). destruct (f a) as [r log']. by cbn [snd] in *.
Qed.

Lemma snd_bind_perform {A B} c (r : outcome A) (f : A -> M B) :
  (forall a, silent (f a)) -> snd (bind (perform c r) f) = [c].
Proof.
  unfold silent, bind, perform. destruct r as [a|e]; [|done].
  intros Hf. specialize (Hf a). destruct (f a) as [r log']. cbn [snd] in *. by subst.
Qed.

Lemma snd_try_except {A} (m : M A) h : snd (try_except m h) = snd m.
Proof. by destruct m as [[a|e] log]. Qed.

Local Arguments bind : simpl never.
Local Arguments perform : simpl never.
Local Arguments pure : simpl never.
Local Arguments ret : simpl never.
Local Arguments raise : simpl never.

Ltac quiet :=
  repeat first
    [ apply silent_ret | apply silent_raise | apply silent_pure
    | apply silent_bind; [|intros ?]
    | match goal with
      | |- silent (if ?b then _ else _) => destruct b
      | |- silent (match ?x with _ => _ end) => destruct x
      end ].

Lemma api_fetch_calls o c r :
  api_fetch o = Some (c, r) -> snd (github_verifier (observation_type o) o) = [c].
Proof.
  unfold api_fetch, github_verifier.
  destruct o; simpl;
    unfold _verify_commit, _verify_issue, _verify_file, _verify_branch, _verify_tag,
           _verify_release;
    destruct (_get_repo_info _) as [[ow n]|]; try done; simpl.
  - destruct (str_truthy (co_sha o)); [|done]. intros [= <- <-].
    apply snd_bind_perform. intros data. quiet.
  - destruct (io_issue_number o =? 0); [done|].
    destruct (io_is_pull_request o); intros [= <- <-];
      apply snd_bind_perform; intros data; quiet.
  - destruct (str_truthy (fo_file_path o)); [|done]. intros [= <- <-].
    apply snd_bind_perform. intros data. quiet.
  - destruct (str_truthy (br_branch_name o)); [|done]. intros [= <- <-].
    apply snd_bind_perform. intros data. quiet.
  - destruct (str_truthy (tg_tag_name o)); [|done]. intros [= <- <-].
    apply snd_bind_perform. intros data. quiet.
  - destruct (str_truthy (rl_tag_name o)); [|done]. intros [= <- <-].
    apply snd_bind_perform. intros data. quiet.
Qed.

Lemma api_fetch_missing o :
  existsb (String.eqb (observation_type o)) api_types = true ->
  api_fetch o = None ->
  exists msg, msg ∈ missing_key_messages
              /\ github_verifier (observation_type o) o = (Return (failed [msg]), [])
              /\ (_get_repo_info o = None -> msg = "No repository specified").
Proof.
  unfold api_fetch, github_verifier, missing_key_messages.
  destruct o; try done; intros _; simpl;
    unfold _verify_commit, _verify_issue, _verify_file, _verify_branch, _verify_tag,
           _verify_release;
    (destruct (_get_repo_info _) as [[ow n]|];
     [|intros _; eexists; split; [|split; [reflexivity|done]]; set_solver]); simpl.
  - destruct (str_truthy (co_sha o)); [done|]. intros _.
    eexists; split; [|split; [reflexivity|done]]; set_solver.
  - destruct (io_issue_number o =? 0); [|by destruct (io_is_pull_request o)]. intros _.
    eexists; split; [|split; [reflexivity|done]]; set_solver.
  - destruct (str_truthy (fo_file_path o)); [done|]. intros _.
    eexists; split; [|split; [reflexivity|done]]; set_solver.
  - destruct (str_truthy (br_branch_name o)); [done|]. intros _.
    eexists; split; [|split; [reflexivity|done]]; set_solver.
  - destruct (str_truthy (tg_tag_name o)); [done|]. intros _.
    eexists; split; [|split; [reflexivity|done]]; set_solver.
  - destruct (str_truthy (rl_tag_name o)); [done|]. intros _.
    eexists; split; [|split; [reflexivity|done]]; set_solver.
Qed.


Lemma url_accessible_calls o : (length (snd (_verify_url_accessible o)) <= 1)%nat.
Proof.
  unfold _verify_url_accessible, try_except_request, bind, perform, ret.
  destruct (url _); [|simpl; lia].
  destruct (requests_get _) as [text|e]; [simpl; lia|].
  destruct (is_request_exception e); simpl; lia.
Qed.

Lemma github_observation_calls o : (length (snd (_verify_github_observation o)) <= 1)%nat.
Proof.
  unfold _verify_github_observation. rewrite snd_try_except.
  destruct (api_fetch o) as [[c r]|] eqn:E.
  - rewrite (api_fetch_calls o c r E). simpl. lia.
  - destruct (existsb (String.eqb (observation_type o)) api_types) eqn:Ht.
    + destruct (api_fetch_missing o Ht E) as (msg & _ & -> & _). simpl. lia.
    + unfold github_verifier. destruct o; try done; simpl; apply url_accessible_calls.
Qed.

Lemma observation_calls o : (length (snd (_verify_observation o)) <= 1)%nat.
Proof.
  unfold _verify_observation.
  destruct (source (o_verification (observation_base o))); cbn.
  - apply github_observation_calls.
  - unfold _verify_gharchive_observation, _has_gharchive_credentials.
    destruct (opt_str_truthy _); [|simpl; lia]. destruct _get_client; simpl; lia.
  - apply url_accessible_calls.
  - unfold _verify_security_vendor, try_except_request, bind, perform, ret.
    destruct (url _); [|simpl; lia]. destruct (requests_get _) as [text|e].
    + match goal with |- context [if ?b then _ else _] => destruct b end; simpl; lia.
    + destruct (is_request_exception e); simpl; lia.
  - simpl. lia.
Qed.

Lemma event_calls e : (length (snd (_verify_event e)) <= 2)%nat.
Proof.
  unfold _verify_event.
  destruct (source (e_verification (event_base e))); cbn; try lia.
  unfold _verify_gharchive_event, _has_gharchive_credentials.
  destruct (opt_str_truthy _); [|simpl; lia].
  destruct _get_client; [|simpl; lia].
  unfold try_except, bind, perform.
  destruct (query_events _ _ _) as [[|row rows]|x]; simpl; lia.
Qed.

Lemma verify_calls e : (length (snd (verify e)) <= 2)%nat.
Proof.
  destruct e as [e|o]; cbn [verify]; [apply event_calls|].
  pose proof (observation_calls o). lia.
Qed.

Lemma verify_loop_calls l :
  forall acc,
    (length (snd (verify_loop l acc)) <= length (calls acc) + 2 * length l)%nat.
Proof.
  induction l as [|e l IH]; intros acc; cbn [verify_loop].
  - cbn. lia.
  - pose proof (verify_calls e) as He. destruct (verify e) as [[r|x] log]; cbn [snd] in *.
    + etransitivity; [apply IH|]. unfold verify_step.
      destruct (negb (is_valid r)); cbn [calls length]; rewrite length_app; lia.
    + rewrite length_app. cbn [length]. lia.
Qed.

(** X14 (calls made). Verifying an observation makes at most one call and
    verifying an event at most two, whatever the sources answer or raise; a
    collection of [n] records is verified with at most [2 n] calls. Against
    the primary API the call of a commit, issue, file, branch, tag or release
    observation is the fetch of that object, and it is the only one. *)
Theorem verification_call_budget :
  (forall o, (length (snd (verify (Obs o))) <= 1)%nat)
  /\ (forall e, (length (snd (verify (Ev e))) <= 2)%nat)
  /\ (forall l, (length (snd (verify_all l)) <= 2 * length l)%nat)
  /\ (forall o c r,
        source (o_verification (observation_base o)) = GITHUB ->
        api_fetch o = Some (c, r) ->
        snd (verify (Obs o)) = [c]).
Proof.
  split; [exact observation_calls|]. split; [exact event_calls|]. split.
  - intros l. unfold verify_all. etransitivity; [apply verify_loop_calls|]. cbn. lia.
  - intros o c r Hsrc Hfetch. rewrite (github_source_verify o Hsrc). cbn [total snd].
    unfold _verify_github_observation. rewrite snd_try_except.
    by eapply api_fetch_calls.
Qed.

End Strategies.

Section Verdicts.
Context `{S : Sources}.

Local Arguments py_eq_str : simpl never.
Local Arguments py_eq_int : simpl never.
Local Arguments py_truthy : simpl never.

Ltac dispatch Hsrc o :=
  unfold validity, verdict; rewrite (github_source_verify o Hsrc);
  unfold _verify_github_observation, github_verifier;
  cbn [observation_type strategy_for github_verifiers String.eqb Ascii.eqb Bool.eqb
       default from_option id].

(** X11 (commit comparison). For a commit observation verified against the
    primary API whose fetch succeeds with a well-formed response, the
    verification returns after that one fetch; its result is valid exactly
    when the sha, the message and the author name of the response all equal
    the recorded ones, and its errors list the mismatches in that order.
    The deleted flag plays no part: a deleted commit that is still served
    and differs is invalid. *)
Theorem commit_verdict (c : CommitObservation) (ow n : string) (data commit author : dict) :
  source (o_verification (co_base c)) = GITHUB ->
  _get_repo_info (ObsCommit c) = Some (ow, n) ->
  str_truthy (co_sha c) = true ->
  get_commit ow n (co_sha c) = Return (JObj data) ->
  dict_get "commit" data = Some (JObj commit) ->
  dict_get "author" commit = Some (JObj author) ->
  let sha_ok := py_eq_str (field "sha" data) (co_sha c) in
  let message_ok := py_eq_str (default (JStr "") (dict_get "message" commit)) (co_message c) in
  let author_ok := py_eq_str (field "name" author) (ca_name (co_author c)) in
  exists result,
    verify (Obs (ObsCommit c)) = (Return result, [CallGetCommit ow n (co_sha c)])
    /\ is_valid result = sha_ok && message_ok && author_ok
    /\ errors result
       = (if sha_ok then []
          else [("SHA mismatch: expected " ++ co_sha c ++ ", got "
                 ++ format_value (field "sha" data))%string])
         ++ (if message_ok then [] else ["Message mismatch"])
         ++ (if author_ok then []
             else [("Author mismatch: expected " ++ ca_name (co_author c) ++ ", got "
                    ++ format_value (field "name" author))%string]).
Proof.
  intros Hsrc Hrepo Hsha Hget Hcommit Hauthor.
  rewrite (github_source_verify (ObsCommit c) Hsrc).
  unfold _verify_github_observation, github_verifier.
  cbn [observation_type strategy_for github_verifiers String.eqb Ascii.eqb Bool.eqb
       default from_option id].
  unfold _verify_commit. rewrite Hrepo, Hsha.
  unfold bind, perform, pure, ret, try_except, total, field. rewrite Hget.
  simpl. rewrite Hcommit. simpl. rewrite Hauthor. simpl.
  eexists. split; [reflexivity|].
  by destruct (py_eq_str _ (co_sha c)), (py_eq_str _ (co_message c)),
              (py_eq_str _ (ca_name _)).
Qed.

(** X12 (issue comparison). For an issue or pull-request observation whose
    fetch succeeds, the verification returns a result that is valid exactly
    when the number matches and the title and the state, where recorded,
    match; a response with a true [merged] is compared as state "merged",
    whatever its [state]. The pull-request flag picks the endpoint
    fetched. *)
Theorem issue_verdict (i : IssueObservation) (ow n : string) (data : dict) :
  source (o_verification (io_base i)) = GITHUB ->
  _get_repo_info (ObsIssue i) = Some (ow, n) ->
  io_issue_number i <> 0 ->
  issue_fetch i ow n = Return (JObj data) ->
  validity (Obs (ObsIssue i))
  = Some (py_eq_int (field "number" data) (io_issue_number i)
          && expects_str (io_title i) (field "title" data)
          && expects_str (io_state i) (reported_state data))
  /\ snd (verify (Obs (ObsIssue i)))
     = [if io_is_pull_request i then CallGetPullRequest ow n (io_issue_number i)
        else CallGetIssue ow n (io_issue_number i)].
Proof.
  intros Hsrc Hrepo Hnum%Z.eqb_neq Hget. dispatch Hsrc (ObsIssue i).
  unfold _verify_issue. rewrite Hrepo, Hnum.
  unfold issue_fetch in Hget. unfold expects_str, reported_state, field.
  destruct (io_is_pull_request i); rewrite Hget;
    unfold bind, perform, pure, ret, try_except, total; simpl;
    destruct (io_title i) as [t|]; try destruct (str_truthy t); simpl;
    destruct (io_state i) as [st|]; try destruct (str_truthy st); simpl;
    cbv beta delta [default from_option id];
    try destruct (py_truthy _); simpl;
    repeat match goal with
           | |- context [py_eq_int ?a ?b] => destruct (py_eq_int a b)
           | |- context [py_eq_str ?a ?b] => destruct (py_eq_str a b)
           end; done.
Qed.

(** X15 (file comparison). A file observation without a recorded content
    hash is valid as soon as the fetch returns, whatever it returns. With a
    hash, the result is valid exactly when the hash is the SHA-256 of the
    decoded content of the response, and of the empty text when the response
    has no content. *)
Theorem file_verdict (f : FileObservation) (ow n : string) :
  source (o_verification (fo_base f)) = GITHUB ->
  _get_repo_info (ObsFile f) = Some (ow, n) ->
  str_truthy (fo_file_path f) = true ->
  (forall response,
     get_file ow n (fo_file_path f) (file_ref f) = Return response ->
     opt_str_truthy (fo_content_hash f) = false ->
     verify (Obs (ObsFile f))
     = (Return (passed []), [CallGetFile ow n (fo_file_path f) (file_ref f)]))
  /\ (forall data h encoded text,
        get_file ow n (fo_file_path f) (file_ref f) = Return (JObj data) ->
        fo_content_hash f = Some h -> str_truthy h = true ->
        dict_get "content" data = Some (JStr encoded) -> str_truthy encoded = true ->
        b64decode_utf8 encoded = Return text ->
        validity (Obs (ObsFile f)) = Some (String.eqb h (sha256_hexdigest text)))
  /\ (forall data h,
        get_file ow n (fo_file_path f) (file_ref f) = Return (JObj data) ->
        fo_content_hash f = Some h -> str_truthy h = true ->
        dict_get "content" data = None ->
        validity (Obs (ObsFile f)) = Some (String.eqb h (sha256_hexdigest ""))).
Proof.
  intros Hsrc Hrepo Hpath. unfold file_ref. repeat split.
  - intros response Hget Hhash. rewrite (github_source_verify (ObsFile f) Hsrc).
    unfold _verify_github_observation, github_verifier.
    cbn [observation_type strategy_for github_verifiers String.eqb Ascii.eqb Bool.eqb
         default from_option id].
    unfold _verify_file. rewrite Hrepo, Hpath.
    unfold bind, perform, pure, ret, try_except, total. rewrite Hget.
    destruct (fo_content_hash f) as [h|]; [|done]. cbn [opt_str_truthy] in Hhash.
    by rewrite Hhash.
  - intros data h encoded text Hget Hh Hht Hcontent Henc Hdec. dispatch Hsrc (ObsFile f).
    unfold _verify_file. rewrite Hrepo, Hpath, Hh, Hht.
    unfold bind, perform, pure, ret, try_except, total. rewrite Hget. simpl.
    rewrite Hcontent. simpl. unfold py_truthy. rewrite Henc. simpl. rewrite Hdec. simpl.
    by destruct (String.eqb h _).
  - intros data h Hget Hh Hht Hcontent. dispatch Hsrc (ObsFile f).
    unfold _verify_file. rewrite Hrepo, Hpath, Hh, Hht.
    unfold bind, perform, pure, ret, try_except, total. rewrite Hget. simpl.
    rewrite Hcontent. simpl. unfold py_truthy. simpl.
    by destruct (String.eqb h _).
Qed.

(** X16 (branch, tag and release comparison). After a successful fetch, a
    branch is valid exactly when its head sha, where recorded, is the sha of
    the response's commit; a tag exactly when its target sha, where
    recorded, is the sha of the response's object; a release exactly when
    the response carries its tag name. *)
Theorem ref_verdicts (ow n : string) (data : dict) :
  (forall b inner,
     source (o_verification (br_base b)) = GITHUB ->
     _get_repo_info (ObsBranch b) = Some (ow, n) ->
     str_truthy (br_branch_name b) = true ->
     get_branch ow n (br_branch_name b) = Return (JObj data) ->
     dict_get "commit" data = Some (JObj inner) ->
     validity (Obs (ObsBranch b)) = Some (expects_str (br_head_sha b) (field "sha" inner)))
  /\ (forall t inner,
        source (o_verification (tg_base t)) = GITHUB ->
        _get_repo_info (ObsTag t) = Some (ow, n) ->
        str_truthy (tg_tag_name t) = true ->
        get_tag ow n (tg_tag_name t) = Return (JObj data) ->
        dict_get "object" data = Some (JObj inner) ->
        validity (Obs (ObsTag t)) = Some (expects_str (tg_target_sha t) (field "sha" inner)))
  /\ (forall r,
        source (o_verification (rl_base r)) = GITHUB ->
        _get_repo_info (ObsRelease r) = Some (ow, n) ->
        str_truthy (rl_tag_name r) = true ->
        get_release ow n (rl_tag_name r) = Return (JObj data) ->
        validity (Obs (ObsRelease r))
        = Some (py_eq_str (field "tag_name" data) (rl_tag_name r))).
Proof.
  unfold expects_str, field. repeat split.
  - intros b inner Hsrc Hrepo Hname Hget Hinner. dispatch Hsrc (ObsBranch b).
    unfold _verify_branch. rewrite Hrepo, Hname.
    unfold bind, perform, pure, ret, try_except, total. rewrite Hget.
    destruct (br_head_sha b) as [h|]; [|done]. destruct (str_truthy h); [|done].
    simpl. rewrite Hinner. simpl. by destruct (py_eq_str _ h).
  - intros t inner Hsrc Hrepo Hname Hget Hinner. dispatch Hsrc (ObsTag t).
    unfold _verify_tag. rewrite Hrepo. cbn [getattr_tag_name getattr_target_sha opt_str_truthy].
    rewrite Hname. unfold bind, perform, pure, ret, try_except, total.
    cbn [default from_option id]. rewrite Hget.
    destruct (tg_target_sha t) as [h|]; [|done]. destruct (str_truthy h); [|done].
    simpl. rewrite Hinner. simpl. by destruct (py_eq_str _ h).
  - intros r Hsrc Hrepo Hname Hget. dispatch Hsrc (ObsRelease r).
    unfold _verify_release. rewrite Hrepo. cbn [getattr_tag_name opt_str_truthy].
    rewrite Hname. unfold bind, perform, pure, ret, try_except, total.
    cbn [default from_option id]. rewrite Hget.
    simpl. by destruct (py_eq_str _ (rl_tag_name r)).
Qed.

(** X17 (events against GH Archive). An event recorded without a BigQuery
    table is invalid and nothing is called. With a table but no
    credentials it passes unchecked. With credentials, the archive is
    queried once for the event's repository, actor and timestamp, and the
    event is valid exactly when the query returns at least one row; a query
    that raises makes it invalid, with the exception's message. In every
    case the verification returns. *)
Theorem gharchive_event_verdict (e : AnyEvent) :
  source (e_verification (event_base e)) = GHARCHIVE ->
  (opt_str_truthy (bigquery_table (e_verification (event_base e))) = false ->
   verify (Ev e) = (Return (failed ["No BigQuery table specified"]), []))
  /\ (opt_str_truthy (bigquery_table (e_verification (event_base e))) = true ->
      (forall x, _get_client = Raise x ->
         verify (Ev e)
         = (Return (passed ["GH Archive verification skipped - no credentials"]),
            [CallGetClient]))
      /\ (forall u, _get_client = Return u ->
            snd (verify (Ev e)) = [CallGetClient; fst (archive_query e)]
            /\ (validity (Ev e) = Some true
                <-> exists row rows, snd (archive_query e) = Return (row :: rows))
            /\ (forall x, snd (archive_query e) = Raise x ->
                  verdict (Ev e)
                  = Return (failed [("GH Archive verification error: "
                                     ++ exn_msg x)%string])))).
Proof.
  intros Hsrc. unfold validity, verdict. cbn [verify]. unfold _verify_event. rewrite Hsrc.
  cbn [EvidenceSource_eqb]. unfold _verify_gharchive_event, _has_gharchive_credentials.
  split; [by intros ->|]. intros ->. split.
  - by intros x ->.
  - intros u ->. unfold archive_query. cbn [fst snd].
    unfold try_except, bind, perform, ret, total.
    destruct (query_events _ _ _) as [[|row rows]|x]; cbn.
    + split; [done|]. split; [|done]. split; [done|]. by intros (? & ? & ?).
    + split; [done|]. split; [|done]. split; [|done]. by eexists _, _.
    + split; [done|]. split.
      * split; [done|]. by intros (? & ? & ?).
      * by intros ? [= <-].
Qed.

Lemma verify_loop_passing l :
  (forall e, e ∈ l -> exists notes, verify e = (Return (passed notes), [])) ->
  forall acc,
    verify_loop l acc
    = (Return {| is_valid := all_valid acc; errors := all_errors acc |}, calls acc).
Proof.
  induction l as [|e l IH]; intros Hl acc; cbn [verify_loop]; [done|].
  destruct (Hl e) as [notes ->]; [left|].
  rewrite IH by (intros e' He'; apply Hl; by right).
  unfold verify_step. cbn. by rewrite app_nil_r.
Qed.

(** X18 (sources that are not checked). A record whose source is local git
    passes with a note and nothing is called, so a collection of such
    records verifies as valid with no errors and no calls. An observation
    whose source is GH Archive is valid exactly when it names a BigQuery
    table: the archive is never queried for it. *)
Theorem unchecked_sources :
  (forall e, source (verification e) = GIT -> verify e = (Return local_git_note, []))
  /\ (forall l, (forall e, e ∈ l -> source (verification e) = GIT) ->
        verify_all l = (Return (passed []), []))
  /\ (forall o, source (o_verification (observation_base o)) = GHARCHIVE ->
        validity (Obs o)
        = Some (opt_str_truthy (bigquery_table (o_verification (observation_base o))))
        /\ forall c, c ∈ snd (verify (Obs o)) -> c = CallGetClient).
Proof.
  assert (forall e, source (verification e) = GIT -> verify e = (Return local_git_note, []))
    as Hgit.
  { intros [e|o]; cbn [verification verify]; intros Hsrc.
    - unfold _verify_event. by rewrite Hsrc.
    - unfold _verify_observation. by rewrite Hsrc. }
  split; [done|]. split.
  - intros l Hl. unfold verify_all. apply verify_loop_passing.
    intros e He. eexists. by apply Hgit, Hl.
  - intros o Hsrc. unfold validity, verdict. cbn [verify]. unfold _verify_observation.
    rewrite Hsrc. cbn.
    unfold _verify_gharchive_observation, _has_gharchive_credentials.
    destruct (opt_str_truthy _); [|split; [done|]; cbn; by intros c ?%not_elem_of_nil].
    destruct _get_client; cbn; (split; [done|]); by intros c ->%list_elem_of_singleton.
Qed.

(** X19 (vendor reports). An observation sourced from a security vendor
    needs a verification URL: without one it is invalid and nothing is
    fetched. When the page is fetched, an observation other than an IOC is
    valid; an IOC is valid exactly when its value is empty or occurs in the
    page, compared in lower case. *)
Theorem vendor_verdict (o : AnyObservation) :
  source (o_verification (observation_base o)) = SECURITY_VENDOR ->
  (url (o_verification (observation_base o)) = None ->
   verify (Obs o) = (Return (failed ["No source URL specified"]), []))
  /\ (forall u text,
        url (o_verification (observation_base o)) = Some u ->
        requests_get u = Return text ->
        snd (verify (Obs o)) = [CallRequestsGet u]
        /\ (getattr_value o = None -> verdict (Obs o) = Return (passed []))
        /\ (forall i, o = ObsIOC i ->
              validity (Obs o)
              = Some (negb (str_truthy (ioc_value i))
                      || is_substring (lower (ioc_value i)) (lower text)))).
Proof.
  intros Hsrc. unfold validity, verdict. cbn [verify]. unfold _verify_observation.
  rewrite Hsrc. cbn.
  unfold _verify_security_vendor, try_except_request, bind, perform, ret.
  split; [by intros ->|].
  intros u text -> ->. split; [|split].
  - by match goal with |- context [if ?b then _ else _] => destruct b end.
  - intros ->. cbn [opt_str_truthy]. by rewrite andb_false_r.
  - intros i ->. cbn [observation_type getattr_value opt_str_truthy].
    cbn [default from_option id].
    replace (String.eqb "ioc" "ioc") with true by reflexivity. cbn [andb].
    destruct (str_truthy (ioc_value i)); [|done].
    by destruct (is_substring _ _).
Qed.

Lemma verify_loop_from l :
  forall acc,
    verify_loop l acc
    = match verify_loop l {| all_valid := true; all_errors := []; calls := [] |} with
      | (Return r, log) =>
          (Return {| is_valid := all_valid acc && is_valid r;
                     errors := all_errors acc ++ errors r |}, calls acc ++ log)
      | (Raise x, log) => (Raise x, calls acc ++ log)
      end.
Proof.
  induction l as [|e l IH]; intros acc; cbn [verify_loop].
  - cbn. by rewrite andb_true_r, !app_nil_r.
  - destruct (verify e) as [[r|x] log]; [|done].
    rewrite IH. symmetry. rewrite IH. symmetry. unfold verify_step.
    destruct (verify_loop l _) as [[r'|x] log'];
      destruct (is_valid r); cbn; by rewrite ?andb_false_r, <- ?app_assoc.
Qed.

Lemma verify_loop_app l1 l2 :
  forall acc,
    verify_loop (l1 ++ l2) acc
    = match verify_loop l1 acc with
      | (Return r, log) =>
          verify_loop l2 {| all_valid := is_valid r; all_errors := errors r; calls := log |}
      | (Raise x, log) => (Raise x, log)
      end.
Proof.
  induction l1 as [|e l1 IH]; intros acc; cbn [app verify_loop].
  - by destruct acc.
  - by destruct (verify e) as [[r|x] log].
Qed.

(** X20 (verifying in parts). Verifying a collection is verifying its parts
    one after the other: when both parts verify, the result for the two
    lists put end to end is valid exactly when both results are, its errors
    are the errors of the first followed by those of the second, and so are
    the calls. When the first part raises, so does the whole, after the
    same calls, and the second part is not looked at; when the second
    raises, so does the whole, after the calls of both. An empty
    collection is valid, with no errors and no calls. *)
Theorem verify_all_app (l1 l2 : list AnyEvidence) :
  (forall r1 log1 r2 log2,
     verify_all l1 = (Return r1, log1) -> verify_all l2 = (Return r2, log2) ->
     verify_all (l1 ++ l2)
     = (Return {| is_valid := is_valid r1 && is_valid r2;
                  errors := errors r1 ++ errors r2 |}, log1 ++ log2))
  /\ (forall x log1, verify_all l1 = (Raise x, log1) -> verify_all (l1 ++ l2) = (Raise x, log1))
  /\ (forall r1 log1 x log2,
        verify_all l1 = (Return r1, log1) -> verify_all l2 = (Raise x, log2) ->
        verify_all (l1 ++ l2) = (Raise x, log1 ++ log2))
  /\ verify_all [] = (Return (passed []), []).
Proof.
  unfold verify_all. rewrite verify_loop_app. repeat split.
  - intros r1 log1 r2 log2 -> H2. by rewrite verify_loop_from, H2.
  - by intros x log1 ->.
  - intros r1 log1 x log2 -> H2. by rewrite verify_loop_from, H2.
Qed.

End Verdicts.
End VerifierMoreTheory.

(** ** The local git client: file changes of a commit *)

Module GitClientTheory.
Import Schema GitClient.









End GitClientTheory.

(** ** Instances on the samples *)

Module MoreExamples.
Import Schema Store StoreSpec StoreSpecMore Serial SerialSpecMore Verifier VerifierSpec
       VerifierSpecMore Samples SamplesMore.


Lemma sample_http_url_idempotent (s u : string) :
  @http_url sample_library s = Some u -> @http_url sample_library u = Some u.
Proof. reflexivity. Qed.

(** [commit-1], loaded from its dump, satisfies the constraints of its
    class and loads again from its own dump. *)
Lemma loaded_record_constructed_witness :
  @load_evidence_from_json sample_library (@model_dump sample_library commit_1)
  = Return commit_1
  /\ @constructed sample_library commit_1 = true.
Proof.
  assert (@load_evidence_from_json sample_library (@model_dump sample_library commit_1)
          = Return commit_1) as Hload by (vm_compute; reflexivity).
  split; [exact Hload|].
  exact (proj1 (@SerialMoreTheory.loaded_record_constructed
                  sample_library sample_http_url_idempotent
                  SerialExamples.sample_fromisoformat_isoformat _ _ Hload)).
Defined.

(** A text of two records, the second without a discriminator: no store. *)
Lemma from_json_all_or_nothing_witness :
  @json_loads sample_library
    (JList [JObj (@model_dump sample_library commit_1); JObj [("evidence_id", JStr "x-1")]])
  = Some (JList [JObj (@model_dump sample_library commit_1); JObj [("evidence_id", JStr "x-1")]])
  /\ @from_json sample_library
       (JList [JObj (@model_dump sample_library commit_1); JObj [("evidence_id", JStr "x-1")]])
     = Raise (ValueError "Data must contain 'event_type' or 'observation_type' field").
Proof.
  split; [reflexivity|].
  apply (proj2 (proj2 (@SerialMoreTheory.from_json_all_or_nothing sample_library _ _ eq_refl))
           [JObj (@model_dump sample_library commit_1)] (JObj [("evidence_id", JStr "x-1")]) []).
  - reflexivity.
  - intros j ->%list_elem_of_singleton. exists commit_1. vm_compute. reflexivity.
  - reflexivity.
Defined.


(** [commit-1] against an API that serves it as recorded. *)
Lemma commit_verdict_witness :
  exists result,
    @verify live_sources commit_1
    = (Return result, [CallGetCommit "aws" "aws-toolkit-vscode" deadbeef_sha])
    /\ is_valid result = true.
Proof.
  destruct (@VerifierMoreTheory.commit_verdict live_sources
              (commit_record commit_1_base deadbeef_sha true) "aws" "aws-toolkit-vscode"
              _ _ _ eq_refl eq_refl eq_refl eq_refl eq_refl eq_refl)
    as (result & Hv & Hvalid & _).
  exists result. split; [exact Hv | exact Hvalid].
Defined.

(** The pull request recorded as closed is reported merged: a mismatch. *)
Lemma issue_verdict_witness :
  @issue_fetch live_sources closed_pr "aws" "aws-toolkit-vscode"
  = Return (JObj [("number", JInt 7); ("state", JStr "closed"); ("merged", JBool true)])
  /\ @validity live_sources (Obs (ObsIssue closed_pr)) = Some false.
Proof.
  split; [reflexivity|].
  exact (proj1 (@VerifierMoreTheory.issue_verdict live_sources closed_pr
                  "aws" "aws-toolkit-vscode" _ eq_refl eq_refl
                  ltac:(discriminate) eq_refl)).
Defined.

(** The file whose recorded hash is that of the content served. *)
Lemma file_verdict_witness :
  fo_content_hash a_file = Some "payload"
  /\ @validity live_sources (Obs (ObsFile a_file)) = Some true.
Proof.
  split; [reflexivity|].
  exact (proj1 (proj2 (@VerifierMoreTheory.file_verdict live_sources a_file
                         "aws" "aws-toolkit-vscode" eq_refl eq_refl eq_refl))
           _ "payload" "payload" "payload" eq_refl eq_refl eq_refl eq_refl eq_refl eq_refl).
Defined.

(** The star event: credentials are there and the archive has a row. *)
Lemma gharchive_event_verdict_witness :
  source (e_verification (event_base archived_star)) = GHARCHIVE
  /\ @validity live_sources (Ev archived_star) = Some true.
Proof.
  split; [reflexivity|].
  destruct (@VerifierMoreTheory.gharchive_event_verdict live_sources archived_star eq_refl)
    as [_ Htable].
  destruct (Htable eq_refl) as [_ Hclient].
  destruct (Hclient tt eq_refl) as (_ & Hrows & _).
  apply Hrows. by eexists _, _.
Defined.

(** The domain of the indicator occurs in the vendor's page. *)
Lemma vendor_verdict_witness :
  source (o_verification (observation_base (ObsIOC a_domain_ioc))) = SECURITY_VENDOR
  /\ @validity live_sources (Obs (ObsIOC a_domain_ioc)) = Some true.
Proof.
  split; [reflexivity|].
  destruct (@VerifierMoreTheory.vendor_verdict live_sources (ObsIOC a_domain_ioc) eq_refl)
    as [_ Hfetch].
  destruct (Hfetch vendor_report _ eq_refl eq_refl) as (_ & _ & Hioc).
  rewrite (Hioc a_domain_ioc eq_refl). reflexivity.
Defined.

(** The output of [git diff-tree] for a commit that adds, renames and
    copies: three items, the copy counted as a modification. *)
Example commit_files_sample :
  GitClient.get_commit_files
    (String "A" (String GitClient.tab
       ("a.txt" ++ String GitClient.newline
          (String "R" (String "1" (String "0" (String "0" (String GitClient.tab
             ("old.txt" ++ String GitClient.tab
                ("new.txt" ++ String GitClient.newline
                   (String "C" (String GitClient.tab "c.txt")))))))))))%string)
  = Return [ {| GitClient.cf_status := "added"; GitClient.cf_filename := "a.txt" |};
             {| GitClient.cf_status := "renamed"; GitClient.cf_filename := "new.txt" |};
             {| GitClient.cf_status := "modified"; GitClient.cf_filename := "c.txt" |} ].
Proof. reflexivity. Qed.

End MoreExamples.
